(** * craft-demo: the aggregation-and-forecast pipeline

    A shallow embedding of the sales-forecast service and of the dashboard's
    period bucketer, with the properties the specification states about them.
    The service exists in two single-period revisions: the one with the
    statistical fallback ([services/sales_forecast.go], module [Forecast]),
    and the one that reports failures as errors
    ([internal/services/sales_forecast.go], module [ForecastStrict]).  The
    bucketer is [groupDataByPeriod] and [prepareTimeSeriesData] of
    [app/src/App.tsx] (module [App]).  Around them: the multi-period
    revision of the service (module [ForecastMulti]), the combined chart of
    the dashboard (module [Chart]), the sales report service in its two
    revisions ([services/sales_report_by_category.go], modules [Report] and
    [ReportStrict]) and the seeding of the database ([db/seeds/seed.go],
    modules [Seed] and [SeedTotals]).

    Conventions of the embedding:
    - a Go [string] is a byte string, here [String.string] (a list of 8-bit
      [ascii]); [s[i]] is [String.get], [s[a:b]] is [substring];
    - a Go [float64] and a JavaScript [number] are IEEE-754 binary64 values,
      here the kernel's primitive [float] (operations are not fused);
    - a Go [int] is a [Z]; the values of this program stay far from 2^63;
    - what the code reads from its surroundings (the clock, the random source,
      the process environment, the network, library decoders) is gathered in
      a record and passed explicitly. *)

From Stdlib Require Import ZArith List String Ascii Bool Lia Floats.
From Stdlib Require Import DecimalString Sorted Permutation.
Import ListNotations.

#[local] Set Warnings "-inexact-float".
#[local] Open Scope string_scope.
#[local] Open Scope Z_scope.

(** ** Byte-string helpers *)

Module Bytes.

(** [s[n:]] *)
Fixpoint drop (n : nat) (s : string) : string :=
  match n, s with
  | O, _ => s
  | S n', String _ s' => drop n' s'
  | S _, EmptyString => EmptyString
  end.

(** [s[:n]] *)
Definition take (n : nat) (s : string) : string := substring 0 n s.

Definition isDigitChar (c : ascii) : bool :=
  ((48 <=? nat_of_ascii c) && (nat_of_ascii c <=? 57))%nat.

(** Go's [isDigit(s, i)]: false beyond the end of [s]. *)
Definition isDigit (s : string) (i : nat) : bool :=
  match String.get i s with
  | Some c => isDigitChar c
  | None => false
  end.

Definition digitVal (c : ascii) : Z := Z.of_nat (nat_of_ascii c) - 48.

(** The value of a string of decimal digits, [None] when another byte
    occurs in it or when it is empty. *)
Fixpoint digitsFrom (acc : Z) (s : string) : option Z :=
  match s with
  | EmptyString => Some acc
  | String c s' =>
      if isDigitChar c then digitsFrom (10 * acc + digitVal c) s' else None
  end.

Definition atoi (s : string) : option Z :=
  match s with
  | EmptyString => None
  | _ => digitsFrom 0 s
  end.

(** The decimal digits of a natural number, as [%d] prints them. *)
Definition utoa (n : Z) : string := NilZero.string_of_uint (N.to_uint (Z.to_N n)).

(** [fmt.Sprintf("%d", n)] *)
Definition itoa (n : Z) : string :=
  if n <? 0 then "-" ++ utoa (- n) else utoa n.

Fixpoint zeros (n : nat) : string :=
  match n with
  | O => EmptyString
  | S n' => String "0" (zeros n')
  end.

(** Exactly two digits, and the rest: Go's [getnum(s, true)], and the fields
    [MM] and [DD] of a JavaScript date string. *)
Definition getnum2 (s : string) : option (Z * string) :=
  match s with
  | String a (String b rest) =>
      if isDigitChar a && isDigitChar b
      then Some (10 * digitVal a + digitVal b, rest)
      else None
  | _ => None
  end.

(** A hyphen, and the rest: Go's [skip(value, "-")]. *)
Definition skipDash (s : string) : option string :=
  match s with
  | String c rest => if Ascii.eqb c "-" then Some rest else None
  | EmptyString => None
  end.

(** The byte of a decimal digit. *)
Definition digitChar (d : Z) : ascii := ascii_of_nat (48 + Z.to_nat d).

(** The last [width] decimal digits of [n], the most significant first, in
    front of [acc]. *)
Fixpoint fixedDigits (width : nat) (n : Z) (acc : string) : string :=
  match width with
  | O => acc
  | S width' => fixedDigits width' (n / 10) (String (digitChar (n mod 10)) acc)
  end.

(** The double-quote byte. *)
Definition dquote : string := String (ascii_of_nat 34) EmptyString.

End Bytes.

(** ** The proleptic Gregorian calendar

    Days are numbered from 1970-01-01, as both Go's [time] package and
    JavaScript's [Date] do. *)

Module Calendar.

Definition isLeap (y : Z) : bool :=
  (y mod 4 =? 0) && (negb (y mod 100 =? 0) || (y mod 400 =? 0)).

Definition daysIn (m y : Z) : Z :=
  if m =? 2 then (if isLeap y then 29 else 28)
  else if (m =? 4) || (m =? 6) || (m =? 9) || (m =? 11) then 30
  else 31.

(** Day number of the civil date [y]-[m]-[d], for [1 <= m <= 12]; a day
    outside of the month carries over. *)
Definition daysFromCivil (y m d : Z) : Z :=
  let y' := if m <=? 2 then y - 1 else y in
  let era := y' / 400 in
  let yoe := y' mod 400 in
  let mp := (m + 9) mod 12 in
  let doy := (153 * mp + 2) / 5 + d - 1 in
  let doe := yoe * 365 + yoe / 4 - yoe / 100 + doy in
  era * 146097 + doe - 719468.

(** The civil date (year, month, day) of a day number. *)
Definition civilFromDays (z : Z) : Z * Z * Z :=
  let z' := z + 719468 in
  let era := z' / 146097 in
  let doe := z' mod 146097 in
  let yoe := (doe - doe / 1460 + doe / 36524 - doe / 146096) / 365 in
  let doy := doe - (365 * yoe + yoe / 4 - yoe / 100) in
  let mp := (5 * doy + 2) / 153 in
  let d := doy - (153 * mp + 2) / 5 + 1 in
  let m := if mp <? 10 then mp + 3 else mp - 9 in
  let y := yoe + era * 400 in
  (if m <=? 2 then y + 1 else y, m, d).

End Calendar.

(** ** The part of Go's [time] package that the service uses

    The program only handles instants that are midnights of a calendar day
    (the results of [time.Parse] with a date-only layout, and what [AddDate]
    makes of them) and the current time, of which it only uses the calendar
    day.  A [Time] is therefore the number of its day. *)

Module GoTime.
Import Calendar.

Definition Time : Type := Z.

(** [time.Date(y, m, d, 0, 0, 0, 0, time.UTC)]: months and days out of
    range are normalised. *)
Definition Date (y m d : Z) : Time :=
  let m0 := m - 1 in
  daysFromCivil (y + m0 / 12) (m0 mod 12 + 1) 1 + (d - 1).

(** [t.AddDate(years, months, days)] *)
Definition AddDate (t : Time) (years months days : Z) : Time :=
  let '(y, m, d) := civilFromDays t in
  Date (y + years) (m + months) (d + days).

(** [t.After(u)] and [t.Equal(u)] *)
Definition After (t u : Time) : bool := u <? t.
Definition Equal (t u : Time) : bool := t =? u.

(** The zero value of [time.Time]: January 1 of year 1. *)
Definition zeroTime : Time := Date 1 1 1.

(** The two layouts the program parses and prints with. *)
Inductive Layout : Set :=
| LayoutDate   (* "2006-01-02" *)
| LayoutMonth. (* "2006-01" *)

(** [appendInt]: a sign for a negative number, then its digits padded with
    zeros to [width]. *)
Definition appendInt (x : Z) (width : nat) : string :=
  let digits := Bytes.utoa (Z.abs x) in
  (if x <? 0 then "-" else EmptyString)
    ++ Bytes.zeros (width - String.length digits) ++ digits.

(** [t.Format(layout)] *)
Definition Format (l : Layout) (t : Time) : string :=
  let '(y, m, d) := civilFromDays t in
  match l with
  | LayoutDate => appendInt y 4 ++ "-" ++ appendInt m 2 ++ "-" ++ appendInt d 2
  | LayoutMonth => appendInt y 4 ++ "-" ++ appendInt m 2
  end.

(** The year of layout element [2006]: four bytes, all digits. *)
Definition parseYear (value : string) : option (Z * string) :=
  if (String.length value <? 4)%nat || negb (Bytes.isDigit value 0) then None
  else
    match Bytes.atoi (Bytes.take 4 value) with
    | Some y => Some (y, Bytes.drop 4 value)
    | None => None
    end.

(** The month of layout element [01]: two digits, in 1..12. *)
Definition parseMonth (value : string) : option (Z * string) :=
  match Bytes.getnum2 value with
  | Some (m, rest) => if (m <=? 0) || (12 <? m) then None else Some (m, rest)
  | None => None
  end.

(** [time.Parse(layout, value)], [None] for an error.  The whole of
    [value] has to match; a layout without a day means day 1; the day is
    checked against the length of the month. *)
Definition Parse (l : Layout) (value : string) : option Time :=
  match parseYear value with
  | None => None
  | Some (y, v1) =>
      match Bytes.skipDash v1 with
      | None => None
      | Some v2 =>
          match parseMonth v2 with
          | None => None
          | Some (m, v3) =>
              match l with
              | LayoutMonth =>
                  match v3 with
                  | EmptyString => Some (Date y m 1)
                  | _ => None
                  end
              | LayoutDate =>
                  match Bytes.skipDash v3 with
                  | None => None
                  | Some v4 =>
                      match Bytes.getnum2 v4 with
                      | Some (d, EmptyString) =>
                          if (d <? 1) || (daysIn m y <? d) then None
                          else Some (Date y m d)
                      | _ => None
                      end
                  end
              end
          end
      end
  end.

End GoTime.

(** ** Outcomes of Go code

    A Go function either returns or panics at run time. *)

Inductive Run (A : Type) : Type :=
| Done (a : A)
| Panic.

Arguments Done {A} a.
Arguments Panic {A}.

Definition bindRun {A B : Type} (r : Run A) (k : A -> Run B) : Run B :=
  match r with
  | Done a => k a
  | Panic => Panic
  end.

Notation "x <- r ;; k" := (bindRun r (fun x => k))
  (at level 61, r at next level, right associativity).

(** A Go [error] value; the [nil] error is [None] of [option error]. *)
Inductive error : Set := errorString (msg : string).

(** ** The forecast service, [services/sales_forecast.go] *)

Module Forecast.
Import GoTime.

Record TimeSeriesPoint : Set := { Period : string; Total : float }.

Module ForecastRequest.
Record t : Set := {
  TimeSeriesData : list TimeSeriesPoint;
  TimePeriod : string;
  PeriodsToForecast : Z
}.
End ForecastRequest.

Module ForecastResponse.
Record t : Set := {
  Forecast : list TimeSeriesPoint;
  TimePeriod : string;
  Message : string;
  RawResponse : string
}.
End ForecastResponse.

Record Message : Set := { Role : string; Content : string }.

Record ChatGPTRequest : Set := { Model : string; Messages : list Message }.

Record Choice : Set := { ChoiceMessage : Message }.

Record ChatGPTResponse : Set := { Choices : list Choice }.

(** What a call reads from outside of the program. *)
Record World : Type := {
  (** [time.Now()], as the calendar day it falls on *)
  time_Now : Time;
  (** [math.Sin] *)
  math_Sin : float -> float;
  (** the results of the successive calls of [rand.Float64()] *)
  rand_Float64 : nat -> float;
  (** [os.Getenv("OPENAI_API_KEY")], empty when the variable is not set *)
  OPENAI_API_KEY : string;
  (** the outcome of the test request of [testOpenAIAPI] for a key *)
  testOpenAIAPI : string -> option error;
  (** the outcome of the HTTP exchange of [sendChatGPTRequest] *)
  sendChatGPTRequest : string -> ChatGPTRequest -> ChatGPTResponse + error;
  (** [json.Unmarshal] of a text into a [[]TimeSeriesPoint] *)
  json_Unmarshal : string -> list TimeSeriesPoint + error;
  (** the verb [%.2f] of [fmt.Sprintf] *)
  fmt_f2 : float -> string
}.

(** [float64(n)] of an [int] *)
Definition float64 (n : Z) : float :=
  if n <? 0 then (- PrimFloat.of_uint63 (Uint63.of_Z (- n)))%float
  else PrimFloat.of_uint63 (Uint63.of_Z n).

Definition len {A : Type} (l : list A) : Z := Z.of_nat (List.length l).

(** getForecastPeriods returns the number of periods to forecast based on
    time period *)
Definition getForecastPeriods (timePeriod : string) : Z :=
  if (timePeriod =? "day")%string then 14
  else if (timePeriod =? "week")%string then 4
  else if (timePeriod =? "month")%string then 6
  else 12.

(** createRequestForPeriod creates a request for a specific time period *)
Definition createRequestForPeriod (request : ForecastRequest.t) (timePeriod : string)
  : ForecastRequest.t :=
  {| ForecastRequest.TimeSeriesData := ForecastRequest.TimeSeriesData request;
     ForecastRequest.TimePeriod := timePeriod;
     ForecastRequest.PeriodsToForecast := getForecastPeriods timePeriod |}.

(** The two attempts of [filterToLast12Months] at reading a period:
    YYYY-MM-DD first, then YYYY-MM. *)
Definition parsePeriod (period : string) : option Time :=
  match Parse LayoutDate period with
  | Some date => Some date
  | None => Parse LayoutMonth period
  end.

(** The first loop of [filterToLast12Months]. *)
Definition latestDateOf (data : list TimeSeriesPoint) : Time :=
  fold_left
    (fun latestDate point =>
       match parsePeriod (Period point) with
       | Some date => if After date latestDate then date else latestDate
       | None => latestDate
       end)
    data zeroTime.

(** filterToLast12Months filters time series data to only include the past
    12 months *)
Definition filterToLast12Months (data : list TimeSeriesPoint) : list TimeSeriesPoint :=
  match data with
  | [] => data
  | _ =>
      let latestDate := latestDateOf data in
      let cutoffDate := AddDate latestDate 0 (-12) 0 in
      filter
        (fun point =>
           match parsePeriod (Period point) with
           | Some date => After date cutoffDate || Equal date cutoffDate
           | None => false
           end)
        data
  end.

(** generateNextPeriod generates the next period string based on the time
    period type *)
Definition generateNextPeriod (w : World) (lastPeriod timePeriod : string) (offset : Z)
  : string :=
  if (timePeriod =? "day")%string then
    let baseDate :=
      match Parse LayoutDate lastPeriod with
      | Some t => t
      | None => time_Now w
      end in
    Format LayoutDate (AddDate baseDate 0 0 offset)
  else if (timePeriod =? "week")%string then
    let baseDate :=
      match Parse LayoutDate lastPeriod with
      | Some t => t
      | None => time_Now w
      end in
    Format LayoutDate (AddDate baseDate 0 0 (offset * 7))
  else if (timePeriod =? "month")%string then
    let baseDate :=
      match Parse LayoutMonth lastPeriod with
      | Some t => t
      | None =>
          match Parse LayoutDate lastPeriod with
          | Some t => t
          | None => time_Now w
          end
      end in
    Format LayoutMonth (AddDate baseDate 0 offset 0)
  else "forecast-" ++ Bytes.itoa offset.

(** [acc := 0.0; for _, v := range vs { acc += v }] *)
Definition sumOf (vs : list float) : float :=
  fold_left PrimFloat.add vs 0%float.

(** [if v < 0 { v = 0 }] *)
Definition clampNegative (v : float) : float :=
  if (v <? 0)%float then 0%float else v.

Definition math_Pi : float := 0x1.921fb54442d18p+1%float.

(** [forecast := make([]TimeSeriesPoint, n)] filled by a loop over
    [i = 0 .. n-1]; [make] panics on a negative length. *)
Definition makeForecast (n : Z) (point : nat -> TimeSeriesPoint)
  : Run (list TimeSeriesPoint) :=
  if n <? 0 then Panic else Done (map point (seq 0 (Z.to_nat n))).

(** The body of the loop of the trend branch, at step [i]. *)
Definition trendStep (w : World) (lastPeriod timePeriod : string)
    (avgRecent trend : float) (i : nat) : TimeSeriesPoint :=
  let seasonality := 0.1%float in
  let volatility := 0.05%float in
  let nextPeriod := generateNextPeriod w lastPeriod timePeriod (Z.of_nat i + 1) in
  let baseValue := (avgRecent + trend * float64 (Z.of_nat i + 1))%float in
  let seasonalFactor :=
    (1.0 + seasonality * math_Sin w (float64 (Z.of_nat i) * math_Pi / 6))%float in
  let randomFactor :=
    (1.0 + (rand_Float64 w i - 0.5) * volatility * 2)%float in
  let forecastValue := (baseValue * seasonalFactor * randomFactor)%float in
  {| Period := nextPeriod; Total := clampNegative forecastValue |}.

(** The body of the loop of the simple linear trend, at step [i]. *)
Definition linearStep (w : World) (lastPeriod timePeriod : string)
    (avgRecent trend : float) (i : nat) : TimeSeriesPoint :=
  let nextPeriod := generateNextPeriod w lastPeriod timePeriod (Z.of_nat i + 1) in
  let forecastValue := (avgRecent + trend * float64 (Z.of_nat i + 1))%float in
  {| Period := nextPeriod; Total := clampNegative forecastValue |}.

Definition noPoint : TimeSeriesPoint := {| Period := EmptyString; Total := 0%float |}.

(** generateSimpleForecast creates a simple forecast based on trend when
    ChatGPT is not available *)
Definition generateSimpleForecast (w : World) (request : ForecastRequest.t)
  : Run (list TimeSeriesPoint) :=
  let filteredData := filterToLast12Months (ForecastRequest.TimeSeriesData request) in
  if (List.length filteredData <? 2)%nat then Done []
  else
    let values := map Total filteredData in
    let windowSize := if (List.length values <? 3)%nat then List.length values else 3%nat in
    let recentValues := skipn (List.length values - windowSize) values in
    let avgRecent := (sumOf recentValues / float64 (len recentValues))%float in
    let olderValues := firstn (List.length values - windowSize) values in
    let lastPeriod := Period (last filteredData noPoint) in
    if (0 <? List.length olderValues)%nat then
      let avgOlder := (sumOf olderValues / float64 (len olderValues))%float in
      let trend := ((avgRecent - avgOlder) / float64 (Z.of_nat windowSize))%float in
      makeForecast (ForecastRequest.PeriodsToForecast request)
        (trendStep w lastPeriod (ForecastRequest.TimePeriod request) avgRecent trend)
    else
      let trend :=
        ((avgRecent - nth 0 values 0%float) / float64 (len values - 1))%float in
      makeForecast (ForecastRequest.PeriodsToForecast request)
        (linearStep w lastPeriod (ForecastRequest.TimePeriod request) avgRecent trend).

(** *** The request to the provider *)

Definition nl : string := String (ascii_of_nat 10) EmptyString.

(** One entry of the historical-data block. *)
Definition dataPointXml (w : World) (point : TimeSeriesPoint) : string :=
  "  <data_point>" ++ nl ++ "    <period>" ++ Period point ++ "</period>" ++ nl
  ++ "    <total>" ++ fmt_f2 w (Total point) ++ "</total>" ++ nl
  ++ "  </data_point>" ++ nl.

(** filterToDailyData and filterToWeeklyData are placeholders: they return
    their argument. *)
Definition filterToDailyData (data : list TimeSeriesPoint) : list TimeSeriesPoint := data.

Definition filterToWeeklyData (data : list TimeSeriesPoint) : list TimeSeriesPoint := data.

Definition promptText (periodLabel : string) (forecastPeriods : Z) (xmlData : string)
  : string :=
  let q := Bytes.dquote in
  nl ++ "You are a data analyst specializing in time series forecasting. You are given historical "
  ++ periodLabel ++ " sales data for a single category." ++ nl
  ++ "Using this historical data, provide a " ++ periodLabel
  ++ " sales forecast for the next " ++ Bytes.itoa forecastPeriods
  ++ " periods, highlighting potential seasonal fluctuations." ++ nl
  ++ nl
  ++ "Things to consider:" ++ nl
  ++ " - Sales data is for a single category of multiple products." ++ nl
  ++ " - The response should follow the JSON format below." ++ nl
  ++ " - Consider trends, seasonality, and patterns in the data." ++ nl
  ++ " - Remove any data points that are anomalies or outliers." ++ nl
  ++ nl
  ++ "<historical_data>" ++ nl
  ++ xmlData ++ nl
  ++ "</historical_data>" ++ nl
  ++ nl
  ++ "Please provide the forecast in JSON response format like this:" ++ nl
  ++ "[" ++ nl
  ++ "  {" ++ q ++ "period" ++ q ++ ": " ++ q ++ "2024-01-01" ++ q ++ ", "
  ++ q ++ "total" ++ q ++ ": 1500.00}," ++ nl
  ++ "  {" ++ q ++ "period" ++ q ++ ": " ++ q ++ "2024-01-02" ++ q ++ ", "
  ++ q ++ "total" ++ q ++ ": 1600.00}" ++ nl
  ++ "]" ++ nl
  ++ nl
  ++ "Consider trends, seasonality, and patterns in the data.".

(** buildForecastPromptForPeriod creates the prompt for single-period ChatGPT
    forecasting.  (The block built from [filteredData] before the [switch]
    is overwritten by the one built from [periodData].) *)
Definition buildForecastPromptForPeriod (w : World) (request : ForecastRequest.t)
    (timePeriod : string) : string :=
  let filteredData := filterToLast12Months (ForecastRequest.TimeSeriesData request) in
  let periodData :=
    if (timePeriod =? "day")%string then filterToDailyData filteredData
    else if (timePeriod =? "week")%string then filterToWeeklyData filteredData
    else filteredData in
  let xmlData :=
    "<historical_data>" ++ nl
    ++ String.concat EmptyString (map (dataPointXml w) periodData)
    ++ "</historical_data>" in
  let forecastPeriods := getForecastPeriods timePeriod in
  let periodLabel :=
    if (timePeriod =? "day")%string then "daily"
    else if (timePeriod =? "week")%string then "weekly"
    else if (timePeriod =? "month")%string then "monthly"
    else "period" in
  promptText periodLabel forecastPeriods xmlData.

Definition systemMessage : Message :=
  {| Role := "system";
     Content := "You are a data analyst specializing in time series forecasting. Provide forecasts in JSON format with an array of objects containing 'period' and 'total' fields." |}.

Definition chatRequestFor (prompt : string) : ChatGPTRequest :=
  {| Model := "gpt-3.5-turbo";
     Messages := [ systemMessage; {| Role := "user"; Content := prompt |} ] |}.

(** *** The response parser *)

(** [for i := 0; i < len(content)-1; i++ { if content[i] == '[' { start = i; break } }]:
    [scanStart s i] runs the loop on the rest [s] of the content, whose
    first byte has index [i]; the last byte is never examined. *)
Fixpoint scanStart (s : string) (i : nat) : option nat :=
  match s with
  | String c (String _ _ as rest) =>
      if Ascii.eqb c "[" then Some i else scanStart rest (S i)
  | _ => None
  end.

(** [for i := ...; i > start; i-- { if content[i] == ']' { end = i + 1; break } }],
    entered at index [i]. *)
Fixpoint scanEnd (content : string) (start i : nat) : option nat :=
  match i with
  | O => None
  | S i' =>
      if (start <? i)%nat then
        match String.get i content with
        | Some c => if Ascii.eqb c "]" then Some (S i) else scanEnd content start i'
        | None => scanEnd content start i'
        end
      else None
  end.

(** The bounds [start], [end] of the candidate payload in [content]. *)
Definition payloadBounds (content : string) : nat * nat :=
  let start := match scanStart content 0 with Some i => i | None => O end in
  let end_ :=
    match scanEnd content start (String.length content - 1) with
    | Some e => e
    | None => String.length content
    end in
  (start, end_).

(** parseSinglePeriodChatGPTResponse parses the single-period response from
    ChatGPT; the result is the triple (forecast, raw content, error). *)
Definition parseSinglePeriodChatGPTResponse (w : World) (response : ChatGPTResponse)
  : list TimeSeriesPoint * string * option error :=
  match Choices response with
  | [] => ([], EmptyString, Some (errorString "no choices in ChatGPT response"))
  | choice :: _ =>
      let content := Content (ChoiceMessage choice) in
      let '(start, end_) := payloadBounds content in
      if (end_ <=? start)%nat then
        ([], content, Some (errorString "could not find JSON array in response"))
      else
        let jsonStr := substring start (end_ - start) content in
        match json_Unmarshal w jsonStr with
        | inr (errorString msg) =>
            ([], content, Some (errorString ("failed to parse single-period JSON: " ++ msg)))
        | inl forecast => (forecast, content, None)
        end
  end.

(** *** The orchestrator, with the statistical fallback *)

(** [return generateSimpleForecast(createRequestForPeriod(request, timePeriod)), reason, nil] *)
Definition simpleForecastFor (w : World) (request : ForecastRequest.t)
    (timePeriod reason : string) : Run (list TimeSeriesPoint * string * option error) :=
  forecast <- generateSimpleForecast w (createRequestForPeriod request timePeriod) ;;
  Done (forecast, reason, None).

(** generateForecastForPeriod sends data to ChatGPT for forecasting a
    specific time period *)
Definition generateForecastForPeriod (w : World) (request : ForecastRequest.t)
    (timePeriod : string) : Run (list TimeSeriesPoint * string * option error) :=
  let apiKey := OPENAI_API_KEY w in
  if (apiKey =? EmptyString)%string then
    simpleForecastFor w request timePeriod "Simple forecast generated (no API key)"
  else if (apiKey =? EmptyString)%string || (String.length apiKey <? 10)%nat then
    simpleForecastFor w request timePeriod "Simple forecast generated (invalid API key)"
  else if (String.length apiKey <? 3)%nat || negb (Bytes.take 3 apiKey =? "sk-")%string then
    simpleForecastFor w request timePeriod "Simple forecast generated (invalid API key format)"
  else
    match testOpenAIAPI w apiKey with
    | Some _ =>
        simpleForecastFor w request timePeriod "Simple forecast generated (API test failed)"
    | None =>
        let prompt := buildForecastPromptForPeriod w request timePeriod in
        match sendChatGPTRequest w apiKey (chatRequestFor prompt) with
        | inr _ =>
            simpleForecastFor w request timePeriod
              "Simple forecast generated (ChatGPT request failed)"
        | inl response =>
            match parseSinglePeriodChatGPTResponse w response with
            | (_, _, Some _) =>
                simpleForecastFor w request timePeriod
                  "Simple forecast generated (parsing failed)"
            | (forecast, rawResponse, None) => Done (forecast, rawResponse, None)
            end
        end
    end.

(** What the handler writes: [c.JSON(status, map[string]string{"error": msg})]
    or [c.JSON(status, response)]. *)
Inductive HTTPResponse : Set :=
| JSONError (status : Z) (msg : string)
| JSONForecast (status : Z) (response : ForecastResponse.t).

(** GenerateSalesForecast handles the API request for sales forecasting.
    [body] is the request that [c.Bind] decoded, [None] when it failed. *)
Definition GenerateSalesForecast (w : World) (body : option ForecastRequest.t)
  : Run HTTPResponse :=
  match body with
  | None => Done (JSONError 400 "Invalid request format")
  | Some request =>
      if len (ForecastRequest.TimeSeriesData request) =? 0 then
        Done (JSONError 400 "No time series data provided")
      else
        let timePeriod :=
          if (ForecastRequest.TimePeriod request =? EmptyString)%string then "month"
          else ForecastRequest.TimePeriod request in
        r <- generateForecastForPeriod w request timePeriod ;;
        match r with
        | (_, _, Some _) =>
            forecast <- generateSimpleForecast w (createRequestForPeriod request timePeriod) ;;
            Done (JSONForecast 200
                    {| ForecastResponse.Forecast := forecast;
                       ForecastResponse.TimePeriod := timePeriod;
                       ForecastResponse.Message := "Forecast generated successfully";
                       ForecastResponse.RawResponse := EmptyString |})
        | (forecast, rawResponse, None) =>
            Done (JSONForecast 200
                    {| ForecastResponse.Forecast := forecast;
                       ForecastResponse.TimePeriod := timePeriod;
                       ForecastResponse.Message := "Forecast generated successfully";
                       ForecastResponse.RawResponse := rawResponse |})
        end
  end.

End Forecast.

(** ** The revision without fallback, [internal/services/sales_forecast.go]

    Types, [getForecastPeriods], [filterToLast12Months], the prompt and the
    response parser are those of the revision above; this file has no
    [generateSimpleForecast] and reports every failure as an error. *)

Module ForecastStrict.
Import Forecast.

(** generateForecastForPeriod sends data to ChatGPT for forecasting a
    specific time period *)
Definition generateForecastForPeriod (w : World) (request : ForecastRequest.t)
    (timePeriod : string) : list TimeSeriesPoint * string * option error :=
  let apiKey := OPENAI_API_KEY w in
  if (apiKey =? EmptyString)%string then
    ([], EmptyString, Some (errorString "no OpenAI API key found"))
  else if (String.length apiKey <? 10)%nat then
    ([], EmptyString, Some (errorString "invalid OpenAI API key"))
  else if (String.length apiKey <? 3)%nat || negb (Bytes.take 3 apiKey =? "sk-")%string then
    ([], EmptyString, Some (errorString "invalid OpenAI API key format"))
  else
    let prompt := buildForecastPromptForPeriod w request timePeriod in
    match sendChatGPTRequest w apiKey (chatRequestFor prompt) with
    | inr (errorString msg) =>
        ([], EmptyString, Some (errorString ("ChatGPT request failed: " ++ msg)))
    | inl response =>
        match parseSinglePeriodChatGPTResponse w response with
        | (_, _, Some (errorString msg)) =>
            ([], EmptyString,
             Some (errorString ("failed to parse ChatGPT response: " ++ msg)))
        | (forecast, rawResponse, None) => (forecast, rawResponse, None)
        end
    end.

(** GenerateSalesForecast handles the API request for sales forecasting *)
Definition GenerateSalesForecast (w : World) (body : option ForecastRequest.t)
  : HTTPResponse :=
  match body with
  | None => JSONError 400 "Invalid request format"
  | Some request =>
      if len (ForecastRequest.TimeSeriesData request) =? 0 then
        JSONError 400 "No time series data provided"
      else
        let timePeriod :=
          if (ForecastRequest.TimePeriod request =? EmptyString)%string then "month"
          else ForecastRequest.TimePeriod request in
        match generateForecastForPeriod w request timePeriod with
        | (_, _, Some _) => JSONError 500 "Failed to generate forecast"
        | (forecast, rawResponse, None) =>
            JSONForecast 200
              {| ForecastResponse.Forecast := forecast;
                 ForecastResponse.TimePeriod := timePeriod;
                 ForecastResponse.Message := "Forecast generated successfully";
                 ForecastResponse.RawResponse := rawResponse |}
        end
  end.

End ForecastStrict.

(** ** The part of JavaScript's [Date], [Math] and [Array] that the dashboard uses

    A time value is a number of milliseconds since 1970-01-01T00:00:00Z; an
    invalid [Date] (time value [NaN]) is [None].  The abstract operations are
    those of the ECMAScript specification. *)

Module JS.
Import Calendar.

Definition msPerDay : Z := 86400000.

Definition Day (t : Z) : Z := t / msPerDay.

Definition TimeWithinDay (t : Z) : Z := t mod msPerDay.

Definition YearFromTime (t : Z) : Z := fst (fst (civilFromDays (Day t))).

(** Months count from 0. *)
Definition MonthFromTime (t : Z) : Z := snd (fst (civilFromDays (Day t))) - 1.

Definition DateFromTime (t : Z) : Z := snd (civilFromDays (Day t)).

(** Sunday is 0. *)
Definition WeekDay (t : Z) : Z := (Day t + 4) mod 7.

Definition MakeDay (year month date : Z) : Z :=
  daysFromCivil (year + month / 12) (month mod 12 + 1) 1 + date - 1.

Definition MakeDate (day time : Z) : Z := day * msPerDay + time.

Definition TimeClip (t : Z) : option Z :=
  if 8640000000000000 <? Z.abs t then None else Some t.

(** The host: its local time zone adjustment [LocalTZA(t, isUTC)], in
    milliseconds. *)
Record Host : Type := { LocalTZA : Z -> bool -> Z }.

Definition LocalTime (h : Host) (t : Z) : Z := t + LocalTZA h t true.

Definition UTC (h : Host) (t : Z) : Z := t - LocalTZA h t false.

(** The year of a date string: four digits, or a sign and six digits (not
    [-000000]). *)
Definition parseYear (s : string) : option (Z * string) :=
  match s with
  | String c rest =>
      if Ascii.eqb c "+" || Ascii.eqb c "-" then
        if (String.length rest <? 6)%nat then None
        else
          match Bytes.atoi (Bytes.take 6 rest) with
          | Some y =>
              if Ascii.eqb c "-" then
                (if y =? 0 then None else Some (- y, Bytes.drop 6 rest))
              else Some (y, Bytes.drop 6 rest)
          | None => None
          end
      else if (String.length s <? 4)%nat then None
      else
        match Bytes.atoi (Bytes.take 4 s) with
        | Some y => Some (y, Bytes.drop 4 s)
        | None => None
        end
  | EmptyString => None
  end.

(** [new Date(s)] of a string in the date-only form of the Date Time String
    Format with a day, [YYYY-MM-DD] or [+YYYYYY-MM-DD], which is read as UTC
    midnight; [None] is the invalid date.  The keys of the sales report and
    the keys that the bucketer makes for days and weeks have this form; a
    string of another form, or one that names no day of the calendar, is an
    invalid date here (engines differ on those). *)
Definition parseDate (s : string) : option Z :=
  match parseYear s with
  | None => None
  | Some (y, v1) =>
      match Bytes.skipDash v1 with
      | None => None
      | Some v2 =>
          match Bytes.getnum2 v2 with
          | None => None
          | Some (m, v3) =>
              if (m <? 1) || (12 <? m) then None
              else
                match Bytes.skipDash v3 with
                | None => None
                | Some v4 =>
                    match Bytes.getnum2 v4 with
                    | Some (d, EmptyString) =>
                        if (d <? 1) || (daysIn m y <? d) then None
                        else TimeClip (MakeDate (MakeDay y (m - 1) d) 0)
                    | _ => None
                    end
                end
          end
      end
  end.

Definition pad (width : nat) (digits : string) : string :=
  Bytes.zeros (width - String.length digits) ++ digits.

(** [d.toISOString().split('T')[0]] of a valid date: the year has four
    digits, or a sign and six digits when it is outside of 0..9999. *)
Definition toISODate (t : Z) : string :=
  let '(y, m, d) := civilFromDays (Day t) in
  let monthDay :=
    String "-" (Bytes.fixedDigits 2 m (String "-" (Bytes.fixedDigits 2 d EmptyString))) in
  if (0 <=? y) && (y <=? 9999) then Bytes.fixedDigits 4 y monthDay
  else
    String (if y <? 0 then "-"%char else "+"%char)
      (Bytes.fixedDigits 6 (Z.abs y) monthDay).

(** [d.setDate(dt)], on the time value of [d] *)
Definition setDate (h : Host) (thisTime dt : Z) : option Z :=
  let t := LocalTime h thisTime in
  let newDate :=
    MakeDate (MakeDay (YearFromTime t) (MonthFromTime t) dt) (TimeWithinDay t) in
  TimeClip (UTC h newDate).

Definition of_Z (n : Z) : float :=
  if n <? 0 then (- PrimFloat.of_uint63 (Uint63.of_Z (- n)))%float
  else PrimFloat.of_uint63 (Uint63.of_Z n).

(** [Math.round]: the closest integer, the one towards plus infinity of two
    that are equally close. *)
Definition Math_round (x : float) : float :=
  match Prim2SF x with
  | S754_finite s m e =>
      if 0 <=? e then x
      else
        let d := 2 ^ (- e) in
        let n := if s then Z.neg m else Z.pos m in
        let r := (2 * n + d) / (2 * d) in
        if r =? 0 then (if s then (-0)%float else 0%float) else of_Z r
  | _ => x
  end.

(** The truth value of a number in a condition: false for zero and [NaN]. *)
Definition truthy (x : float) : bool :=
  negb (PrimFloat.eqb x 0%float) && PrimFloat.eqb x x.

(** [xs.sort(compare)] with a consistent comparison function: a stable sort.
    [cmp a b] is the sign of [compare(a, b)], [Eq] for zero and for [NaN]. *)
Fixpoint insertSorted {A : Type} (cmp : A -> A -> comparison) (x : A) (l : list A)
  : list A :=
  match l with
  | [] => [x]
  | y :: l' =>
      match cmp x y with
      | Gt => y :: insertSorted cmp x l'
      | _ => x :: l
      end
  end.

Definition sort {A : Type} (cmp : A -> A -> comparison) (l : list A) : list A :=
  fold_right (insertSorted cmp) [] l.

End JS.

(** ** The period bucketer of the dashboard, [app/src/App.tsx] *)

Module App.
Import JS.

Record CategoryTotal : Set := { category_name : string; total_amount : float }.

(** [SalesData]: an object from date strings to category totals, as the list
    of its entries in the order of [Object.entries]; no key occurs twice. *)
Definition SalesData : Set := list (string * list CategoryTotal).

Inductive TimePeriod : Set := day | week | month.

Record SeriesPoint : Set := { period : string; total : float }.

(** The [switch] of [groupDataByPeriod]: the key of the bucket of the sales
    of [dateStr]; [None] when [toISOString] throws a [RangeError]. *)
Definition periodKeyOf (h : Host) (p : TimePeriod) (dateStr : string) : option string :=
  let date := parseDate dateStr in
  match p with
  | day =>
      match date with
      | Some t => Some (toISODate t)
      | None => None
      end
  | week =>
      match date with
      | Some t =>
          let getDate := DateFromTime (LocalTime h t) in
          let getDay := WeekDay (LocalTime h t) in
          match setDate h t (getDate - getDay) with
          | Some weekStart => Some (toISODate weekStart)
          | None => None
          end
      | None => None
      end
  | month =>
      match date with
      | Some t =>
          let getFullYear := YearFromTime (LocalTime h t) in
          let getMonth := MonthFromTime (LocalTime h t) in
          Some (Bytes.itoa getFullYear ++ "-" ++ pad 2 (Bytes.itoa (getMonth + 1)))
      | None => Some "NaN-NaN"
      end
  end.

(** [categories.reduce((sum, category) => sum + category.total_amount, 0)] *)
Definition periodTotalOf (categories : list CategoryTotal) : float :=
  fold_left (fun sum category => (sum + total_amount category)%float) categories 0%float.

(** [groupedData[periodKey]], [None] for [undefined] *)
Fixpoint lookup (key : string) (groupedData : list (string * float)) : option float :=
  match groupedData with
  | [] => None
  | (k, v) :: rest => if (k =? key)%string then Some v else lookup key rest
  end.

(** [groupedData[periodKey] = v]: an existing property keeps its place, a new
    one comes last. *)
Fixpoint assign (key : string) (v : float) (groupedData : list (string * float))
  : list (string * float) :=
  match groupedData with
  | [] => [(key, v)]
  | (k, v0) :: rest =>
      if (k =? key)%string then (k, v) :: rest else (k, v0) :: assign key v rest
  end.

(** [if (groupedData[periodKey]) { groupedData[periodKey] += periodTotal }
     else { groupedData[periodKey] = periodTotal }] *)
Definition accumulate (key : string) (periodTotal : float)
    (groupedData : list (string * float)) : list (string * float) :=
  match lookup key groupedData with
  | Some v =>
      if truthy v then assign key (v + periodTotal)%float groupedData
      else assign key periodTotal groupedData
  | None => assign key periodTotal groupedData
  end.

(** groupDataByPeriod: group data by time period.  [acc] is [groupedData]
    before the remaining entries are visited. *)
Fixpoint groupFrom (h : Host) (p : TimePeriod) (entries : SalesData)
    (acc : list (string * float)) : option (list (string * float)) :=
  match entries with
  | [] => Some acc
  | (dateStr, categories) :: rest =>
      match periodKeyOf h p dateStr with
      | Some periodKey =>
          groupFrom h p rest (accumulate periodKey (periodTotalOf categories) acc)
      | None => None
      end
  end.

Definition groupDataByPeriod (h : Host) (data : SalesData) (p : TimePeriod)
  : option (list (string * float)) :=
  groupFrom h p data [].

(** [Math.round(total * 100) / 100] *)
Definition roundToCents (x : float) : float := (Math_round (x * 100) / 100)%float.

(** [a.period.localeCompare(b.period)], on the keys that the bucketer makes
    (digits and hyphens): the order of the bytes. *)
Definition localeCompare (a b : string) : comparison := String.compare a b.

(** [new Date(a.period).getTime() - new Date(b.period).getTime()]: [NaN],
    hence no order, when one of the two is not a date. *)
Definition compareTimes (a b : string) : comparison :=
  match parseDate a, parseDate b with
  | Some ta, Some tb => Z.compare ta tb
  | _, _ => Eq
  end.

(** The comparison function of the [sort] of [prepareTimeSeriesData]. *)
Definition comparePoints (p : TimePeriod) (a b : SeriesPoint) : comparison :=
  match p with
  | month => localeCompare (period a) (period b)
  | _ => compareTimes (period a) (period b)
  end.

(** prepareTimeSeriesData: prepare time series data (actual sales only) *)
Definition prepareTimeSeriesData (h : Host) (salesData : SalesData) (timePeriod : TimePeriod)
  : option (list SeriesPoint) :=
  match groupDataByPeriod h salesData timePeriod with
  | Some groupedData =>
      Some (sort (comparePoints timePeriod)
              (map (fun e => {| period := fst e; total := roundToCents (snd e) |})
                 groupedData))
  | None => None
  end.

End App.

(** ** Checking a property on a range of integers by evaluation *)

Module Check.
Import Calendar.

(** [forallDyadic k f lo]: [f] holds on the [2^k] integers from [lo]. *)
Fixpoint forallDyadic (k : nat) (f : Z -> bool) (lo : Z) : bool :=
  match k with
  | O => f lo
  | S k' => forallDyadic k' f lo && forallDyadic k' f (lo + 2 ^ Z.of_nat k')
  end.

(** The civil date of day [z] is a day of the calendar, and [z] is its
    number; in the 400 years from 0000-03-01 the year is in 0..400. *)
Definition civilOK (z : Z) : bool :=
  let '(y, m, d) := civilFromDays z in
  (1 <=? m) && (m <=? 12) && (1 <=? d) && (d <=? daysIn m y)
  && (daysFromCivil y m d =? z)
  && ((146097 <=? z + 719468) || ((0 <=? y) && (y <=? 400))).

End Check.

(** ** Notions of the specification, and sample inputs *)

Module Spec.
Import GoTime Forecast.

(** "The provider credential is absent, too short, or lacks the expected key
    prefix": fewer than ten bytes, or not starting with [sk-]. *)
Definition credentialRejected (apiKey : string) : bool :=
  (apiKey =? EmptyString)%string
  || (String.length apiKey <? 10)%nat
  || negb (prefix "sk-" apiKey).

(** [advance] as section 4.3 of the specification words it: it fails (here
    [None], the ParseError) when the label does not parse under the format of
    the granularity. *)
Definition advance (lastLabel granularity : string) (offset : Z) : option string :=
  if (granularity =? "day")%string then
    option_map (fun t => Format LayoutDate (AddDate t 0 0 offset)) (Parse LayoutDate lastLabel)
  else if (granularity =? "week")%string then
    option_map (fun t => Format LayoutDate (AddDate t 0 0 (offset * 7)))
      (Parse LayoutDate lastLabel)
  else if (granularity =? "month")%string then
    option_map (fun t => Format LayoutMonth (AddDate t 0 offset 0)) (Parse LayoutMonth lastLabel)
  else None.

(** The index of the first and of the last occurrence of a byte. *)
Fixpoint firstIndexOf (c : ascii) (s : string) : option nat :=
  match s with
  | EmptyString => None
  | String c' s' =>
      if Ascii.eqb c' c then Some O else option_map S (firstIndexOf c s')
  end.

Fixpoint lastIndexOf (c : ascii) (s : string) : option nat :=
  match s with
  | EmptyString => None
  | String c' s' =>
      match lastIndexOf c s' with
      | Some i => Some (S i)
      | None => if Ascii.eqb c' c then Some O else None
      end
  end.

(** The older head and the recent tail of a series, for a window of
    [min 3 (length series)] points, and the mean as the code computes it. *)
Definition window (series : list TimeSeriesPoint) : nat := Nat.min 3 (List.length series).

Definition recentTail (series : list TimeSeriesPoint) : list float :=
  skipn (List.length series - window series) (map Total series).

Definition olderHead (series : list TimeSeriesPoint) : list float :=
  firstn (List.length series - window series) (map Total series).

Definition mean (vs : list float) : float := (sumOf vs / float64 (len vs))%float.

(** A float that is a number and not negative. *)
Definition nonNegative (v : float) : bool := (0 <=? v)%float.

Definition isNaN (v : float) : bool := negb (PrimFloat.eqb v v).

End Spec.

Module BucketSpec.
Import JS App.

(** The observations of a bucket: the totals of the dates whose key is
    [key], in the order of the entries. *)
Definition observationsOf (h : Host) (p : TimePeriod) (key : string) (data : SalesData)
  : list float :=
  map (fun e => periodTotalOf (snd e))
    (filter
       (fun e =>
          match periodKeyOf h p (fst e) with
          | Some k => (k =? key)%string
          | None => false
          end)
       data).

(** One more observation [v] for a bucket that holds [acc]: it is added to
    the sum, unless there is no sum yet, or the sum is zero or NaN. *)
Definition addTo (acc : option float) (v : float) : option float :=
  match acc with
  | Some s => if truthy s then Some (s + v)%float else Some v
  | None => Some v
  end.

(** The sum of the observations of a bucket, [None] without observation. *)
Definition addUp (vs : list float) : option float := fold_left addTo vs None.

(** The order of two bucket keys: the order of the bytes for months, the
    order of the days they name for days and weeks. *)
Definition keyNotAfter (p : TimePeriod) (a b : string) : Prop :=
  match p with
  | month => String.compare a b <> Gt
  | _ => exists ta tb, parseDate a = Some ta /\ parseDate b = Some tb /\ ta <= tb
  end.

(** A host in the UTC time zone. *)
Definition utc : Host := {| LocalTZA := fun _ _ => 0 |}.

Definition sales (amount : float) : list CategoryTotal :=
  [ {| category_name := "Widgets"; total_amount := amount |} ].

End BucketSpec.

Module Sample.
Import Forecast.

Definition point (p : string) (t : float) : TimeSeriesPoint := {| Period := p; Total := t |}.

Definition request (data : list TimeSeriesPoint) (timePeriod : string) : ForecastRequest.t :=
  {| ForecastRequest.TimeSeriesData := data;
     ForecastRequest.TimePeriod := timePeriod;
     ForecastRequest.PeriodsToForecast := 0 |}.

(** 2024-06-15 *)
Definition midJune : GoTime.Time := 19889.

(** A provider that is out of reach, and a decoder that rejects everything. *)
Definition offline (apiKey : string) (now : GoTime.Time) : World :=
  {| time_Now := now;
     math_Sin := fun _ => 0%float;
     rand_Float64 := fun _ => 0.5%float;
     OPENAI_API_KEY := apiKey;
     testOpenAIAPI := fun _ => Some (errorString "test request failed");
     sendChatGPTRequest := fun _ _ => inr (errorString "connection refused");
     json_Unmarshal := fun _ => inr (errorString "unexpected end of JSON input");
     fmt_f2 := fun _ => "0.00" |}.

(** A provider that answers [content] to every request, with a decoder that
    reads [payload] as [points] and nothing else. *)
Definition answering (content payload : string) (points : list TimeSeriesPoint) : World :=
  {| time_Now := midJune;
     math_Sin := fun _ => 0%float;
     rand_Float64 := fun _ => 0.5%float;
     OPENAI_API_KEY := "sk-0123456789";
     testOpenAIAPI := fun _ => None;
     sendChatGPTRequest := fun _ _ =>
       inl {| Choices := [ {| ChoiceMessage := {| Role := "assistant"; Content := content |} |} ] |};
     json_Unmarshal := fun s =>
       if (s =? payload)%string then inl points
       else inr (errorString "invalid character");
     fmt_f2 := fun _ => "0.00" |}.

Definition q : string := Bytes.dquote.

(** [[{"period":"2024-02","total":500.0}]] *)
Definition payload500 : string :=
  "[{" ++ q ++ "period" ++ q ++ ":" ++ q ++ "2024-02" ++ q ++ ","
  ++ q ++ "total" ++ q ++ ":500.0}]".

Definition content500 : string := "Here you go: " ++ payload500 ++ " thanks".

(** [[{"period":"2024-02","total":-5}]] *)
Definition payloadNegative : string :=
  "[{" ++ q ++ "period" ++ q ++ ":" ++ q ++ "2024-02" ++ q ++ ","
  ++ q ++ "total" ++ q ++ ":-5}]".

End Sample.

(** ** The multi-period revision of the forecast service

    A second [services/sales_forecast.go] answers with the forecasts of the
    three granularities at once.  Its request types, [createRequestForPeriod],
    [getForecastPeriods], [generateNextPeriod], [sendChatGPTRequest] and
    [testOpenAIAPI] are those of module [Forecast], byte for byte; its
    [generateSimpleForecast] does not filter the series. *)

Module ForecastMulti.
Import GoTime Forecast.

Record MultiPeriodForecast : Set := {
  Daily : list TimeSeriesPoint;
  Weekly : list TimeSeriesPoint;
  Monthly : list TimeSeriesPoint
}.

Module ForecastResponse.
Record t : Set := {
  Daily : list TimeSeriesPoint;
  Weekly : list TimeSeriesPoint;
  Monthly : list TimeSeriesPoint;
  Message : string;
  RawResponse : string
}.
End ForecastResponse.

(** [json.Unmarshal] of a text into a [MultiPeriodForecast], which the
    surroundings of this revision provide besides those of [World]. *)
Definition Decoder : Type := string -> MultiPeriodForecast + error.

(** The body of the loop of the trend branch, at step [i]; [drawn] calls of
    [rand.Float64()] came before the loop. *)
Definition trendStep (w : World) (drawn : nat) (lastPeriod timePeriod : string)
    (avgRecent trend : float) (i : nat) : TimeSeriesPoint :=
  let seasonality := 0.1%float in
  let volatility := 0.05%float in
  let nextPeriod := generateNextPeriod w lastPeriod timePeriod (Z.of_nat i + 1) in
  let baseValue := (avgRecent + trend * float64 (Z.of_nat i + 1))%float in
  let seasonalFactor :=
    (1.0 + seasonality * math_Sin w (float64 (Z.of_nat i) * math_Pi / 6))%float in
  let randomFactor :=
    (1.0 + (rand_Float64 w (drawn + i) - 0.5) * volatility * 2)%float in
  let forecastValue := (baseValue * seasonalFactor * randomFactor)%float in
  {| Period := nextPeriod; Total := clampNegative forecastValue |}.

(** generateSimpleForecast creates a simple forecast based on trend when
    ChatGPT is not available.  The result comes with the number of calls of
    [rand.Float64()] made so far. *)
Definition generateSimpleForecast (w : World) (drawn : nat) (request : ForecastRequest.t)
  : Run (list TimeSeriesPoint * nat) :=
  let data := ForecastRequest.TimeSeriesData request in
  if (List.length data <? 2)%nat then Done ([], drawn)
  else
    let values := map Total data in
    let windowSize := if (List.length values <? 3)%nat then List.length values else 3%nat in
    let recentValues := skipn (List.length values - windowSize) values in
    let avgRecent := (sumOf recentValues / float64 (len recentValues))%float in
    let olderValues := firstn (List.length values - windowSize) values in
    let lastPeriod := Period (last data noPoint) in
    if (0 <? List.length olderValues)%nat then
      let avgOlder := (sumOf olderValues / float64 (len olderValues))%float in
      let trend := ((avgRecent - avgOlder) / float64 (Z.of_nat windowSize))%float in
      forecast <- makeForecast (ForecastRequest.PeriodsToForecast request)
                    (trendStep w drawn lastPeriod (ForecastRequest.TimePeriod request)
                       avgRecent trend) ;;
      Done (forecast, (drawn + List.length forecast)%nat)
    else
      let trend :=
        ((avgRecent - nth 0 values 0%float) / float64 (len values - 1))%float in
      forecast <- makeForecast (ForecastRequest.PeriodsToForecast request)
                    (linearStep w lastPeriod (ForecastRequest.TimePeriod request)
                       avgRecent trend) ;;
      Done (forecast, drawn).

(** The three simple forecasts, made in the order day, week, month, after
    [drawn] calls of [rand.Float64()]. *)
Definition simpleForecasts (w : World) (drawn : nat) (request : ForecastRequest.t)
  : Run (MultiPeriodForecast * nat) :=
  d <- generateSimpleForecast w drawn (createRequestForPeriod request "day") ;;
  k <- generateSimpleForecast w (snd d) (createRequestForPeriod request "week") ;;
  m <- generateSimpleForecast w (snd k) (createRequestForPeriod request "month") ;;
  Done ({| Daily := fst d; Weekly := fst k; Monthly := fst m |}, snd m).

(** buildMultiPeriodForecastPrompt creates the prompt for multi-period
    ChatGPT forecasting *)
Definition buildMultiPeriodForecastPrompt (w : World) (request : ForecastRequest.t)
  : string :=
  let q := Bytes.dquote in
  let xmlData :=
    "<historical_data>" ++ nl
    ++ String.concat EmptyString
         (map (dataPointXml w) (ForecastRequest.TimeSeriesData request))
    ++ "</historical_data>" in
  let pointOf (period total : string) :=
    "{" ++ q ++ "period" ++ q ++ ": " ++ q ++ period ++ q ++ ", "
    ++ q ++ "total" ++ q ++ ": " ++ total ++ "}" in
  nl ++ "Please analyze this time series data and provide a sales forecast for daily, weekly, and monthly timeperiods." ++ nl
  ++ nl
  ++ "Daily should be the next 14 days, weekly should be the next 4 weeks, and monthly should be the next 6 months." ++ nl
  ++ nl
  ++ "Historical Data:" ++ nl
  ++ xmlData ++ nl
  ++ nl
  ++ "Please provide the forecast in JSON response format like this:" ++ nl
  ++ "{" ++ nl
  ++ "  " ++ q ++ "daily" ++ q ++ ": [" ++ pointOf "2024-01-01" "1500.00" ++ ", "
  ++ pointOf "2024-01-02" "1600.00" ++ "]," ++ nl
  ++ "  " ++ q ++ "weekly" ++ q ++ ": [" ++ pointOf "2024-01-01" "1500.00" ++ ", "
  ++ pointOf "2024-01-08" "1600.00" ++ "]," ++ nl
  ++ "  " ++ q ++ "monthly" ++ q ++ ": [" ++ pointOf "2024-01" "1500.00" ++ ", "
  ++ pointOf "2024-02" "1600.00" ++ "]" ++ nl
  ++ "}" ++ nl
  ++ nl
  ++ "Consider trends, seasonality, and patterns in the data.".

Definition systemMessage : Message :=
  {| Role := "system";
     Content := "You are a data analyst specializing in time series forecasting. Provide forecasts in JSON format with 'daily', 'weekly', and 'monthly' arrays containing objects with 'period' and 'total' fields." |}.

Definition chatRequestFor (prompt : string) : ChatGPTRequest :=
  {| Model := "gpt-3.5-turbo";
     Messages := [ systemMessage; {| Role := "user"; Content := prompt |} ] |}.

(** The two loops of [parseMultiPeriodChatGPTResponse], which look for the
    first '{' (never at the last byte) and for the last '}' after it. *)
Fixpoint scanStart (s : string) (i : nat) : option nat :=
  match s with
  | String c (String _ _ as rest) =>
      if Ascii.eqb c "{" then Some i else scanStart rest (S i)
  | _ => None
  end.

Fixpoint scanEnd (content : string) (start i : nat) : option nat :=
  match i with
  | O => None
  | S i' =>
      if (start <? i)%nat then
        match String.get i content with
        | Some c => if Ascii.eqb c "}" then Some (S i) else scanEnd content start i'
        | None => scanEnd content start i'
        end
      else None
  end.

Definition payloadBounds (content : string) : nat * nat :=
  let start := match scanStart content 0 with Some i => i | None => O end in
  let end_ :=
    match scanEnd content start (String.length content - 1) with
    | Some e => e
    | None => String.length content
    end in
  (start, end_).

(** parseMultiPeriodChatGPTResponse parses the multi-period response from
    ChatGPT; the result is the triple (forecasts, raw content, error), the
    forecasts being [None] for the [nil] pointer. *)
Definition parseMultiPeriodChatGPTResponse (decode : Decoder) (response : ChatGPTResponse)
  : option MultiPeriodForecast * string * option error :=
  match Choices response with
  | [] => (None, EmptyString, Some (errorString "no choices in ChatGPT response"))
  | choice :: _ =>
      let content := Content (ChoiceMessage choice) in
      let '(start, end_) := payloadBounds content in
      if (end_ <=? start)%nat then
        (None, content, Some (errorString "could not find JSON object in response"))
      else
        let jsonStr := substring start (end_ - start) content in
        match decode jsonStr with
        | inr (errorString msg) =>
            (None, content, Some (errorString ("failed to parse multi-period JSON: " ++ msg)))
        | inl forecasts => (Some forecasts, content, None)
        end
  end.

(** [forecasts := &MultiPeriodForecast{...}; return forecasts, reason, nil];
    no call of [rand.Float64()] comes before. *)
Definition simpleForecastsFor (w : World) (request : ForecastRequest.t) (reason : string)
  : Run (option MultiPeriodForecast * string * option error * nat) :=
  r <- simpleForecasts w 0 request ;;
  Done (Some (fst r), reason, None, snd r).

(** generateMultiPeriodForecastWithChatGPT sends data to ChatGPT for
    multi-period forecasting.  The result is the triple (forecasts, raw
    response, error) and the number of calls of [rand.Float64()] made. *)
Definition generateMultiPeriodForecastWithChatGPT (w : World) (decode : Decoder)
    (request : ForecastRequest.t)
  : Run (option MultiPeriodForecast * string * option error * nat) :=
  let apiKey := OPENAI_API_KEY w in
  if (apiKey =? EmptyString)%string then
    simpleForecastsFor w request "Simple forecast generated (no API key)"
  else if (apiKey =? EmptyString)%string || (String.length apiKey <? 10)%nat then
    simpleForecastsFor w request "Simple forecast generated (invalid API key)"
  else if (String.length apiKey <? 3)%nat || negb (Bytes.take 3 apiKey =? "sk-")%string then
    simpleForecastsFor w request "Simple forecast generated (invalid API key format)"
  else
    match testOpenAIAPI w apiKey with
    | Some _ => simpleForecastsFor w request "Simple forecast generated (API test failed)"
    | None =>
        let prompt := buildMultiPeriodForecastPrompt w request in
        match sendChatGPTRequest w apiKey (chatRequestFor prompt) with
        | inr _ =>
            simpleForecastsFor w request "Simple forecast generated (ChatGPT request failed)"
        | inl response =>
            match parseMultiPeriodChatGPTResponse decode response with
            | (_, _, Some _) =>
                simpleForecastsFor w request "Simple forecast generated (parsing failed)"
            | (forecasts, rawResponse, None) => Done (forecasts, rawResponse, None, O)
            end
        end
    end.

(** What the handler writes. *)
Inductive HTTPResponse : Set :=
| JSONError (status : Z) (msg : string)
| JSONForecasts (status : Z) (response : ForecastResponse.t).

(** GenerateSalesForecast handles the API request for sales forecasting.
    [body] is the request that [c.Bind] decoded, [None] when it failed.
    Reading a field of the [nil] pointer panics. *)
Definition GenerateSalesForecast (w : World) (decode : Decoder)
    (body : option ForecastRequest.t) : Run HTTPResponse :=
  match body with
  | None => Done (JSONError 400 "Invalid request format")
  | Some request =>
      if len (ForecastRequest.TimeSeriesData request) =? 0 then
        Done (JSONError 400 "No time series data provided")
      else
        r <- generateMultiPeriodForecastWithChatGPT w decode request ;;
        match r with
        | (_, _, Some _, drawn) =>
            fallback <- simpleForecasts w drawn request ;;
            Done (JSONForecasts 200
                    {| ForecastResponse.Daily := Daily (fst fallback);
                       ForecastResponse.Weekly := Weekly (fst fallback);
                       ForecastResponse.Monthly := Monthly (fst fallback);
                       ForecastResponse.Message := "Forecasts generated successfully";
                       ForecastResponse.RawResponse := EmptyString |})
        | (None, _, None, _) => Panic
        | (Some forecasts, rawResponse, None, _) =>
            Done (JSONForecasts 200
                    {| ForecastResponse.Daily := Daily forecasts;
                       ForecastResponse.Weekly := Weekly forecasts;
                       ForecastResponse.Monthly := Monthly forecasts;
                       ForecastResponse.Message := "Forecasts generated successfully";
                       ForecastResponse.RawResponse := rawResponse |})
        end
  end.

End ForecastMulti.

(** ** The combined chart of the dashboard, [app/src/App.tsx]

    [prepareCombinedChartData] (also in [components/SalesTrendChart.tsx])
    puts the forecast of the cache behind the actual sales and sorts the
    whole by period. *)

Module Chart.
Import JS App.

Module ForecastData.
Record t : Set := { period : string; total : float }.
End ForecastData.

(** The answer of the forecast service as the dashboard holds it; [forecast]
    is [None] when the field is [null] or missing. *)
Module ForecastResponse.
Record t : Set := {
  forecast : option (list ForecastData.t);
  timePeriod : string;
  message : string;
  rawResponse : option string
}.
End ForecastResponse.

(** [total] is [None] for [null], [forecast] is [None] when the property is
    absent. *)
Module ChartDataPoint.
Record t : Set := { period : string; total : option float; forecast : option float }.
End ChartDataPoint.

(** [forecastCache]: the entry of a period, [None] when there is none. *)
Definition ForecastCache : Set := TimePeriod -> option ForecastResponse.t.

(** [{ period: point.period, total: point.total }] *)
Definition ofActual (point : SeriesPoint) : ChartDataPoint.t :=
  {| ChartDataPoint.period := period point;
     ChartDataPoint.total := Some (total point);
     ChartDataPoint.forecast := None |}.

(** [{ period: forecastPoint.period, total: null, forecast: forecastPoint.total }] *)
Definition ofForecast (forecastPoint : ForecastData.t) : ChartDataPoint.t :=
  {| ChartDataPoint.period := ForecastData.period forecastPoint;
     ChartDataPoint.total := None;
     ChartDataPoint.forecast := Some (ForecastData.total forecastPoint) |}.

(** The comparison function of the [sort] of [prepareCombinedChartData]. *)
Definition compareChartPoints (p : TimePeriod) (a b : ChartDataPoint.t) : comparison :=
  match p with
  | month => localeCompare (ChartDataPoint.period a) (ChartDataPoint.period b)
  | _ => compareTimes (ChartDataPoint.period a) (ChartDataPoint.period b)
  end.

(** prepareCombinedChartData: combine actual and forecast data for the
    chart; [None] when [prepareTimeSeriesData] throws. *)
Definition prepareCombinedChartData (h : Host) (salesData : SalesData)
    (timePeriod : TimePeriod) (forecastCache : ForecastCache)
  : option (list ChartDataPoint.t) :=
  match prepareTimeSeriesData h salesData timePeriod with
  | None => None
  | Some actualData =>
      match forecastCache timePeriod with
      | None => Some (map ofActual actualData)
      | Some forecastData =>
          let forecastArray :=
            match ForecastResponse.forecast forecastData with
            | Some forecast => forecast
            | None => []
            end in
          if (List.length forecastArray =? 0)%nat then Some (map ofActual actualData)
          else
            let combinedData := (map ofActual actualData ++ map ofForecast forecastArray)%list in
            Some (sort (compareChartPoints timePeriod) combinedData)
      end
  end.

(** The forecast that the chart shows for a period: the array of the cache
    entry, empty without entry or array. *)
Definition shownForecast (timePeriod : TimePeriod) (forecastCache : ForecastCache)
  : list ForecastData.t :=
  match forecastCache timePeriod with
  | Some forecastData =>
      match ForecastResponse.forecast forecastData with
      | Some forecast => forecast
      | None => []
      end
  | None => []
  end.

(** A string of digits and hyphens, as the keys of the buckets and the
    labels of the service are. *)
Definition keyLike (s : string) : bool :=
  forallb (fun c => Bytes.isDigitChar c || Ascii.eqb c "-") (list_ascii_of_string s).

(** A period that the comparison function of the sort can place: a date for
    days and weeks, digits and hyphens for months. *)
Definition placeable (p : TimePeriod) (s : string) : Prop :=
  match p with
  | month => keyLike s = true
  | _ => parseDate s <> None
  end.

(** A host whose local time is [tz] milliseconds ahead of UTC all year. *)
Definition fixedOffset (tz : Z) : Host := {| LocalTZA := fun _ _ => tz |}.

End Chart.

(** ** The sales report service, [services/sales_report_by_category.go] *)

Module Report.
Import Calendar GoTime.

Record CategoryTotal : Set := { CategoryName : string; TotalAmount : float }.

(** A [map[string][]CategoryTotal], as the list of its keys with their
    values; no key occurs twice, and the order of the keys means nothing. *)
Definition SalesMap : Set := list (string * list CategoryTotal).

(** [m[key]], [nil] for a key that is not in the map *)
Fixpoint mapGet (key : string) (m : SalesMap) : list CategoryTotal :=
  match m with
  | [] => []
  | (k, v) :: rest => if (k =? key)%string then v else mapGet key rest
  end.

(** [m[key] = v] *)
Fixpoint mapSet (key : string) (v : list CategoryTotal) (m : SalesMap) : SalesMap :=
  match m with
  | [] => [(key, v)]
  | (k, v0) :: rest =>
      if (k =? key)%string then (k, v) :: rest else (k, v0) :: mapSet key v rest
  end.

(** One or two digits, and the rest: Go's [getnum(s, false)]. *)
Definition getnum (s : string) : option (Z * string) :=
  match s with
  | String a rest =>
      if Bytes.isDigitChar a then
        match rest with
        | String b rest' =>
            if Bytes.isDigitChar b
            then Some (10 * Bytes.digitVal a + Bytes.digitVal b, rest')
            else Some (Bytes.digitVal a, rest)
        | EmptyString => Some (Bytes.digitVal a, rest)
        end
      else None
  | EmptyString => None
  end.

(** The byte [c], and the rest. *)
Definition skipByte (c : ascii) (s : string) : option string :=
  match s with
  | String c' rest => if Ascii.eqb c' c then Some rest else None
  | EmptyString => None
  end.

Fixpoint dropDigits (s : string) : string :=
  match s with
  | String c rest => if Bytes.isDigitChar c then dropDigits rest else s
  | EmptyString => s
  end.

(** A fractional second after the seconds, which [time.Parse] accepts
    though the layout has none: a period or comma and at least one digit. *)
Definition skipFraction (value : string) : string :=
  match value with
  | String c (String d rest) =>
      if (Ascii.eqb c "." || Ascii.eqb c ",") && Bytes.isDigitChar d
      then dropDigits rest
      else value
  | _ => value
  end.

(** The time of day of the layout [T15:04:05Z]: what is left of the value
    after it, [None] for an error. *)
Definition parseClock (value : string) : option string :=
  match skipByte "T" value with
  | None => None
  | Some v1 =>
      match getnum v1 with
      | None => None
      | Some (hour, v2) =>
          if 24 <=? hour then None
          else
            match skipByte ":" v2 with
            | None => None
            | Some v3 =>
                match Bytes.getnum2 v3 with
                | None => None
                | Some (min, v4) =>
                    if 60 <=? min then None
                    else
                      match skipByte ":" v4 with
                      | None => None
                      | Some v5 =>
                          match Bytes.getnum2 v5 with
                          | None => None
                          | Some (sec, v6) =>
                              if 60 <=? sec then None
                              else skipByte "Z" (skipFraction v6)
                          end
                      end
                end
            end
      end
  end.

(** [time.Parse("2006-01-02T15:04:05Z", value)], as the day the instant
    falls on; [None] for an error. *)
Definition ParseTimestamp (value : string) : option Time :=
  match parseYear value with
  | None => None
  | Some (y, v1) =>
      match Bytes.skipDash v1 with
      | None => None
      | Some v2 =>
          match parseMonth v2 with
          | None => None
          | Some (m, v3) =>
              match Bytes.skipDash v3 with
              | None => None
              | Some v4 =>
                  match Bytes.getnum2 v4 with
                  | None => None
                  | Some (d, v5) =>
                      match parseClock v5 with
                      | Some EmptyString =>
                          if (d <? 1) || (daysIn m y <? d) then None
                          else Some (Date y m d)
                      | _ => None
                      end
                  end
              end
          end
      end
  end.

(** A row of the result of the query, and the rows as the loop meets them:
    each one scanned or failing to scan, and the error of [rows.Err()]. *)
Record Row : Set := { dateRecorded : string; categoryName : string; totalAmount : float }.

Record Rows : Set := { scans : list (Row + error); rows_Err : option error }.

(** The day of a row: its date read as a timestamp, or else as a date. *)
Definition dayOfRow (row : Row) : option Time :=
  match ParseTimestamp (dateRecorded row) with
  | Some t => Some t
  | None => Parse LayoutDate (dateRecorded row)
  end.

(** What a call reads from outside of the program. *)
Record World : Type := {
  (** [time.Now()], as the calendar day it falls on *)
  time_Now : Time;
  (** the text of the error of [time.Parse("2006-01-02", value)] *)
  parseErrorText : string -> string;
  (** the error of [GetDBConnection()], if any *)
  GetDBConnection : option error;
  (** [db.Query(query, startDate, endDate)] *)
  db_Query : string -> string -> Rows + error
}.

(** The body of [for rows.Next()], over the rows that remain. *)
Fixpoint scanAll (w : World) (rows : list (Row + error)) (result : SalesMap)
  : SalesMap + error :=
  match rows with
  | [] => inl result
  | inr (errorString msg) :: _ => inr (errorString ("failed to scan row: " ++ msg))
  | inl row :: rest =>
      match dayOfRow row with
      | None =>
          inr (errorString ("failed to parse date " ++ dateRecorded row ++ ": "
                            ++ parseErrorText w (dateRecorded row)))
      | Some t =>
          let formattedDate := Format LayoutDate t in
          scanAll w rest
            (mapSet formattedDate
               (mapGet formattedDate result
                  ++ [ {| CategoryName := categoryName row;
                          TotalAmount := totalAmount row |} ])%list
               result)
      end
  end.

(** querySalesData queries the database and returns aggregated sales data *)
Definition querySalesData (w : World) (startDate endDate : string) : SalesMap + error :=
  match db_Query w startDate endDate with
  | inr (errorString msg) => inr (errorString ("failed to query sales data: " ++ msg))
  | inl rows =>
      match scanAll w (scans rows) [] with
      | inr e => inr e
      | inl result =>
          match rows_Err rows with
          | Some (errorString msg) => inr (errorString ("error iterating rows: " ++ msg))
          | None => inl result
          end
      end
  end.

Definition categories : list string :=
  ["Electronics"; "Clothing"; "Books"; "Home & Garden"; "Sports"].

(** [d.Day()] *)
Definition Day (d : Time) : Z := snd (civilFromDays d).

(** [d.Hour()]: the days of the loop are midnights. *)
Definition Hour (d : Time) : Z := 0.

(** The inner loop of [generateSampleData], from [i] on, with [n] steps
    left. *)
Fixpoint dayDataFrom (d : Time) (n : nat) (i : Z) (dayData : list CategoryTotal)
  : list CategoryTotal :=
  match n with
  | O => dayData
  | S n' =>
      let categoryIndex := (Day d + i) mod Forecast.len categories in
      let amount :=
        (Forecast.float64 (100 + Day d * 10 + i * 50)
         + Forecast.float64 (Hour d) / 100)%float in
      dayDataFrom d n' (i + 1)
        (dayData ++ [ {| CategoryName := nth (Z.to_nat categoryIndex) categories EmptyString;
                         TotalAmount := amount |} ])%list
  end.

Definition dayDataOf (d : Time) : list CategoryTotal :=
  let numCategories := 2 + Day d mod 3 in
  dayDataFrom d (Z.to_nat numCategories) 0 [].

(** [for d := start; !d.After(end); d = d.AddDate(0, 0, 1) { ... }], with
    [fuel] passes through the loop at most; [None] when they do not
    suffice. *)
Fixpoint sampleLoop (fuel : nat) (d end_ : Time) (sampleData : SalesMap) : option SalesMap :=
  if After d end_ then Some sampleData
  else
    match fuel with
    | O => None
    | S fuel' =>
        sampleLoop fuel' (AddDate d 0 0 1) end_
          (mapSet (Format LayoutDate d) (dayDataOf d) sampleData)
    end.

(** generateSampleData creates sample data for testing when no real data is
    found; the loop runs with [fuel] passes at most. *)
Definition generateSampleData (fuel : nat) (startDate endDate : string) : option SalesMap :=
  match Parse LayoutDate startDate with
  | None => Some []
  | Some start =>
      match Parse LayoutDate endDate with
      | None => Some []
      | Some end_ => sampleLoop fuel start end_ []
      end
  end.

(** What the handler writes: [c.JSON(status, map[string]string{"error": msg})]
    or [c.JSON(status, salesData)]. *)
Inductive HTTPResponse : Set :=
| JSONError (status : Z) (msg : string)
| JSONData (status : Z) (salesData : SalesMap).

(** The dates of the report: the query parameters, or the defaults. *)
Definition startDateOf (w : World) (start_date : string) : string :=
  if (start_date =? EmptyString)%string
  then Format LayoutDate (AddDate (time_Now w) 0 (-6) 0)
  else start_date.

Definition endDateOf (w : World) (end_date : string) : string :=
  if (end_date =? EmptyString)%string then Format LayoutDate (time_Now w) else end_date.

(** GetSalesReportByCategory handles the API request for sales report by
    category.  [start_date] and [end_date] are the query parameters, empty
    when they are absent; [None] when [fuel] does not suffice for the loop
    of the sample data. *)
Definition GetSalesReportByCategory (w : World) (fuel : nat) (start_date end_date : string)
  : option HTTPResponse :=
  let startDate := startDateOf w start_date in
  let endDate := endDateOf w end_date in
  match Parse LayoutDate startDate with
  | None => Some (JSONError 400 "Invalid start_date format. Use YYYY-MM-DD")
  | Some _ =>
      match Parse LayoutDate endDate with
      | None => Some (JSONError 400 "Invalid end_date format. Use YYYY-MM-DD")
      | Some _ =>
          match GetDBConnection w with
          | Some _ => option_map (JSONData 200) (generateSampleData fuel startDate endDate)
          | None =>
              match querySalesData w startDate endDate with
              | inr _ => option_map (JSONData 200) (generateSampleData fuel startDate endDate)
              | inl salesData =>
                  if Forecast.len salesData =? 0
                  then option_map (JSONData 200) (generateSampleData fuel startDate endDate)
                  else Some (JSONData 200 salesData)
              end
          end
      end
  end.

(** The rows that were scanned, and the entries that the rows of a day
    make, in the order of the rows. *)
Fixpoint scannedRows (rows : list (Row + error)) : list Row :=
  match rows with
  | inl row :: rest => row :: scannedRows rest
  | _ => []
  end.

Definition entriesOf (key : string) (rows : list Row) : list CategoryTotal :=
  map (fun row => {| CategoryName := categoryName row; TotalAmount := totalAmount row |})
    (filter
       (fun row =>
          match dayOfRow row with
          | Some t => (Format LayoutDate t =? key)%string
          | None => false
          end)
       rows).

End Report.

(** ** The report service without sample data

    A second revision of the handler (package [services], importing
    [internal/database]) has the same [querySalesData] and answers with an
    error status where the first falls back to sample data. *)

Module ReportStrict.
Import GoTime Report.

(** GetSalesReportByCategory handles the API request for sales report by
    category *)
Definition GetSalesReportByCategory (w : World) (start_date end_date : string)
  : HTTPResponse :=
  let startDate := startDateOf w start_date in
  let endDate := endDateOf w end_date in
  match Parse LayoutDate startDate with
  | None => JSONError 400 "Invalid start_date format. Use YYYY-MM-DD"
  | Some _ =>
      match Parse LayoutDate endDate with
      | None => JSONError 400 "Invalid end_date format. Use YYYY-MM-DD"
      | Some _ =>
          match GetDBConnection w with
          | Some _ => JSONError 500 "Database connection failed"
          | None =>
              match querySalesData w startDate endDate with
              | inr _ => JSONError 500 "Failed to query sales data"
              | inl salesData =>
                  if Forecast.len salesData =? 0
                  then JSONError 404 "No sales data found"
                  else JSONData 200 salesData
              end
          end
      end
  end.

End ReportStrict.

(** ** Seeding the database, [db/seeds/seed.go]

    The file exists in two revisions: the one that loads the JSON files of
    [db/seeds/data] (module [Seed]), and the one that fills the table
    [sales_totals_by_category_dw] from the transactions (module
    [SeedTotals]). *)

Module Seed.

(** The loop of [prepareInsertQuery] from index [i] on, with [n] columns
    left; [length] is [len(columns)]. *)
Fixpoint prepareFrom (n : nat) (i length : Z) (query : string) : string :=
  match n with
  | O => query
  | S n' =>
      if negb (i =? length - 1)
      then prepareFrom n' (i + 1) length (query ++ "$" ++ Bytes.itoa (i + 1) ++ ",")
      else prepareFrom n' (i + 1) length (query ++ "$" ++ Bytes.itoa (i + 1))
  end.

Definition prepareInsertQuery (columns : list string) : string :=
  prepareFrom (List.length columns) 0 (Forecast.len columns) EmptyString.

(** [strings.Join(elems, ",")] *)
Definition joinComma (elems : list string) : string := String.concat "," elems.

(** The statement that [execQuery] prepares for a table and its columns. *)
Definition insertStatement (table : string) (columns : list string) : string :=
  "INSERT INTO " ++ table ++ " (" ++ joinComma columns ++ ") VALUES ("
  ++ prepareInsertQuery columns ++ ")".

(** [strings.Split(s, ".")]: [cur] is the part read since the last
    period. *)
Fixpoint splitFrom (s cur : string) : list string :=
  match s with
  | EmptyString => [cur]
  | String c rest =>
      if Ascii.eqb c "." then cur :: splitFrom rest EmptyString
      else splitFrom rest (cur ++ String c EmptyString)
  end.

Definition Split (s : string) : list string := splitFrom s EmptyString.

(** The test of the loop of [seed]: whether the file of a directory entry
    is read. *)
Definition isRead (name : string) (isDir : bool) : bool :=
  let f := Split name in
  negb (isDir || negb (last f EmptyString =? "json")%string).

End Seed.

Module SeedTotals.

Record SalesTotal : Set := {
  DateRecorded : string;
  SaleTransactionID : Z;
  CategoryID : Z;
  TotalAmount : float
}.

(** The database as [insertSalesTotals] meets it: the errors of [db.Begin],
    [tx.Prepare] and [tx.Commit], if any, and the error of [stmt.Exec] for a
    record, given the records executed before. *)
Record Database : Type := {
  db_Begin : option error;
  tx_Prepare : option error;
  stmt_Exec : list SalesTotal -> SalesTotal -> option error;
  tx_Commit : option error
}.

(** What a call of [insertSalesTotals] did: the records it executed the
    statement for, in order, whether it committed, and what it returned. *)
Record Outcome : Set := {
  executed : list SalesTotal;
  committed : bool;
  returned : option error
}.

(** [for _, record := range batch { ... }] *)
Fixpoint execBatch (db : Database) (batch log : list SalesTotal)
  : list SalesTotal * option error :=
  match batch with
  | [] => (log, None)
  | record :: rest =>
      match stmt_Exec db log record with
      | Some (errorString msg) =>
          ((log ++ [record])%list, Some (errorString ("failed to insert record: " ++ msg)))
      | None => execBatch db rest (log ++ [record])%list
      end
  end.

Definition batchSize : nat := 100.

(** [for i := 0; i < len(records); i += batchSize { ... }] from [i] on, with
    [fuel] passes at most; [None] when they do not suffice. *)
Fixpoint batchLoop (fuel : nat) (db : Database) (records : list SalesTotal) (i : nat)
    (log : list SalesTotal) : option (list SalesTotal * option error) :=
  if (i <? List.length records)%nat then
    match fuel with
    | O => None
    | S fuel' =>
        let end_ :=
          if (List.length records <? i + batchSize)%nat then List.length records
          else (i + batchSize)%nat in
        let batch := firstn (end_ - i) (skipn i records) in
        match execBatch db batch log with
        | (log', Some e) => Some (log', Some e)
        | (log', None) => batchLoop fuel' db records (i + batchSize) log'
        end
    end
  else Some (log, None).

(** insertSalesTotals: the batch insert in one transaction. *)
Definition insertSalesTotals (fuel : nat) (db : Database) (records : list SalesTotal)
  : option Outcome :=
  match db_Begin db with
  | Some (errorString msg) =>
      Some {| executed := []; committed := false;
              returned := Some (errorString ("failed to begin transaction: " ++ msg)) |}
  | None =>
      match tx_Prepare db with
      | Some (errorString msg) =>
          Some {| executed := []; committed := false;
                  returned := Some (errorString ("failed to prepare statement: " ++ msg)) |}
      | None =>
          match batchLoop fuel db records 0 [] with
          | None => None
          | Some (log, Some e) =>
              Some {| executed := log; committed := false; returned := Some e |}
          | Some (log, None) =>
              match tx_Commit db with
              | Some (errorString msg) =>
                  Some {| executed := log; committed := false;
                          returned :=
                            Some (errorString ("failed to commit transaction: " ++ msg)) |}
              | None => Some {| executed := log; committed := true; returned := None |}
              end
          end
      end
  end.

End SeedTotals.

(** ** Dates and labels of the statements *)

Module DateSpec.
Import Calendar GoTime Forecast.

(** A date of the calendar. *)
Definition validDate (y m d : Z) : Prop := 1 <= m <= 12 /\ 1 <= d <= daysIn m y.

(** The labels of a day and of a month, digit by digit. *)
Definition dayLabel (y m d : Z) : string :=
  Bytes.fixedDigits 4 y
    (String "-" (Bytes.fixedDigits 2 m (String "-" (Bytes.fixedDigits 2 d EmptyString)))).

Definition monthLabel (y m : Z) : string :=
  Bytes.fixedDigits 4 y (String "-" (Bytes.fixedDigits 2 m EmptyString)).

(** The days of the years 0..9999. *)
Definition firstDay : Time := daysFromCivil 0 1 1.
Definition lastDay : Time := daysFromCivil 9999 12 31.

(** The body of the first loop of [filterToLast12Months]: the latest date
    so far. *)
Definition latestStep (latestDate : Time) (point : TimeSeriesPoint) : Time :=
  match parsePeriod (Period point) with
  | Some date => if After date latestDate then date else latestDate
  | None => latestDate
  end.

(** The predicate of the second loop. *)
Definition keptBy (cutoffDate : Time) (point : TimeSeriesPoint) : bool :=
  match parsePeriod (Period point) with
  | Some date => After date cutoffDate || Equal date cutoffDate
  | None => false
  end.

End DateSpec.

(** ** The sample data of the report, in the words of the statements *)

Module ReportSpec.
Import Calendar GoTime Report.

(** The days from [d], [n] of them. *)
Definition daysFrom (d : Time) (n : nat) : list Time := map (fun i => d + Z.of_nat i) (seq 0 n).

(** The number of passes that the loop needs for a range of dates. *)
Definition passes (start end_ : Time) : nat := Z.to_nat (end_ - start + 1).

(** The property of the data of a day, as a function of the day of the
    month. *)
Definition dayShape (day : Z) (dayData : list CategoryTotal) : Prop :=
  Forecast.len dayData = 2 + day mod 3
  /\ NoDup (map CategoryName dayData)
  /\ (forall c, In c dayData ->
        In (CategoryName c) categories /\ (110 <=? TotalAmount c)%float = true)
  /\ map TotalAmount dayData
     = map (fun i => Forecast.float64 (100 + day * 10 + Z.of_nat i * 50))
         (seq 0 (List.length dayData)).

(** Surroundings in which the database cannot be reached. *)
Definition downWorld (now : Time) : World :=
  {| time_Now := now;
     parseErrorText := fun _ => "cannot parse";
     GetDBConnection := Some (errorString "connection refused");
     db_Query := fun _ _ => inr (errorString "connection refused") |}.

End ReportSpec.

(** ** The seeding, in the words of the statements *)

Module SeedSpec.

(** The placeholders [$i+1], ..., [$i+n]. *)
Definition placeholders (i : Z) (n : nat) : list string :=
  map (fun k => "$" ++ Bytes.itoa (i + 1 + Z.of_nat k)) (seq 0 n).

(** A database that accepts everything, and two records. *)
Definition acceptingDatabase : SeedTotals.Database :=
  {| SeedTotals.db_Begin := None; SeedTotals.tx_Prepare := None;
     SeedTotals.stmt_Exec := fun _ _ => None; SeedTotals.tx_Commit := None |}.

Definition twoRecords : list SeedTotals.SalesTotal :=
  [ {| SeedTotals.DateRecorded := "2024-01-01"; SeedTotals.SaleTransactionID := 1;
       SeedTotals.CategoryID := 2; SeedTotals.TotalAmount := 10 |};
    {| SeedTotals.DateRecorded := "2024-01-02"; SeedTotals.SaleTransactionID := 2;
       SeedTotals.CategoryID := 2; SeedTotals.TotalAmount := 20 |} ].

End SeedSpec.

(** * Properties *)

Import GoTime Forecast Spec.

(** ** Period labels *)

Lemma generateNextPeriod_day (w : World) (lastPeriod : string) (offset : Z) :
  generateNextPeriod w lastPeriod "day" offset =
  Format LayoutDate
    (AddDate (match Parse LayoutDate lastPeriod with Some t => t | None => time_Now w end)
       0 0 offset).
Proof. reflexivity. Qed.

Lemma generateNextPeriod_week (w : World) (lastPeriod : string) (offset : Z) :
  generateNextPeriod w lastPeriod "week" offset =
  Format LayoutDate
    (AddDate (match Parse LayoutDate lastPeriod with Some t => t | None => time_Now w end)
       0 0 (offset * 7)).
Proof. reflexivity. Qed.

Lemma generateNextPeriod_other (w : World) (lastPeriod timePeriod : string) (offset : Z) :
  timePeriod <> "day" -> timePeriod <> "week" -> timePeriod <> "month" ->
  generateNextPeriod w lastPeriod timePeriod offset = "forecast-" ++ Bytes.itoa offset.
Proof.
  intros Hd Hw Hm. unfold generateNextPeriod.
  apply String.eqb_neq in Hd, Hw, Hm. now rewrite Hd, Hw, Hm.
Qed.

(** C8: advancing "2024-01" by one month gives "2024-02", "2024-12" by one
    month gives "2025-01" (the year rolls over), and "2024-01-29" by three
    days gives "2024-02-01" (the month rolls over), whatever the clock. *)
Theorem generateNextPeriod_examples (w : World) :
  generateNextPeriod w "2024-01" "month" 1 = "2024-02"
  /\ generateNextPeriod w "2024-12" "month" 1 = "2025-01"
  /\ generateNextPeriod w "2024-01-29" "day" 3 = "2024-02-01".
Proof. repeat split; vm_compute; reflexivity. Qed.

(** The code cannot fail on a label: where [advance] has a ParseError, it
    answers with a label counted from the current day. *)
Lemma C3_substitutes_now :
  advance "garbage" "day" 1 = None
  /\ generateNextPeriod (Sample.offline EmptyString Sample.midJune) "garbage" "day" 1
     = "2024-06-16"
  /\ generateNextPeriod (Sample.offline EmptyString (Sample.midJune + 200)) "garbage" "day" 1
     = "2025-01-02".
Proof. vm_compute. repeat split. Qed.

(** C3, amended: [generateNextPeriod] has no error result.  Where [advance]
    succeeds it returns the label of [advance]; where the label does not
    parse under the format of its granularity it counts from the current day
    (for "month", from the label read as YYYY-MM-DD when that succeeds, from
    the current day otherwise). *)
Theorem generateNextPeriod_vs_advance (w : World) (lastPeriod granularity : string)
    (offset : Z) :
  match advance lastPeriod granularity offset with
  | Some label => generateNextPeriod w lastPeriod granularity offset = label
  | None =>
      generateNextPeriod w lastPeriod granularity offset =
      if (granularity =? "day")%string then
        Format LayoutDate (AddDate (time_Now w) 0 0 offset)
      else if (granularity =? "week")%string then
        Format LayoutDate (AddDate (time_Now w) 0 0 (offset * 7))
      else if (granularity =? "month")%string then
        Format LayoutMonth
          (AddDate (match Parse LayoutDate lastPeriod with
                    | Some t => t
                    | None => time_Now w
                    end) 0 offset 0)
      else "forecast-" ++ Bytes.itoa offset
  end.
Proof.
  unfold advance, generateNextPeriod.
  destruct (granularity =? "day")%string.
  { destruct (Parse LayoutDate lastPeriod); reflexivity. }
  destruct (granularity =? "week")%string.
  { destruct (Parse LayoutDate lastPeriod); reflexivity. }
  destruct (granularity =? "month")%string.
  { destruct (Parse LayoutMonth lastPeriod); reflexivity. }
  reflexivity.
Qed.

(** ** The trend estimator *)

Lemma getForecastPeriods_cases (timePeriod : string) :
  getForecastPeriods timePeriod = 14 \/ getForecastPeriods timePeriod = 4
  \/ getForecastPeriods timePeriod = 6 \/ getForecastPeriods timePeriod = 12.
Proof.
  unfold getForecastPeriods.
  destruct (timePeriod =? "day")%string; [ now left | ].
  destruct (timePeriod =? "week")%string; [ now right; left | ].
  destruct (timePeriod =? "month")%string; [ now right; right; left | now right; right; right ].
Qed.

Lemma makeForecast_done (n : Z) (point : nat -> TimeSeriesPoint) :
  0 <= n -> makeForecast n point = Done (map point (seq 0 (Z.to_nat n))).
Proof.
  intros Hn. unfold makeForecast.
  destruct (n <? 0) eqn:E; [ apply Z.ltb_lt in E; lia | reflexivity ].
Qed.

Lemma filterToLast12Months_length (data : list TimeSeriesPoint) :
  (List.length (filterToLast12Months data) <= List.length data)%nat.
Proof.
  unfold filterToLast12Months. destruct data as [ | p data ]; [ apply le_n | ].
  apply filter_length_le.
Qed.

(** Fewer than two usable points: no forecast. *)
Lemma generateSimpleForecast_short (w : World) (request : ForecastRequest.t) :
  (List.length (filterToLast12Months (ForecastRequest.TimeSeriesData request)) < 2)%nat ->
  generateSimpleForecast w request = Done [].
Proof.
  intros H. unfold generateSimpleForecast.
  apply Nat.ltb_lt in H. now rewrite H.
Qed.

(** Two or three usable points: the simple linear trend. *)
Lemma generateSimpleForecast_linear (w : World) (request : ForecastRequest.t) :
  let series := filterToLast12Months (ForecastRequest.TimeSeriesData request) in
  let avgRecent := mean (recentTail series) in
  let trend :=
    ((avgRecent - nth 0 (map Total series) 0) / float64 (len series - 1))%float in
  (2 <= List.length series <= 3)%nat ->
  generateSimpleForecast w request =
  makeForecast (ForecastRequest.PeriodsToForecast request)
    (linearStep w (Period (last series noPoint)) (ForecastRequest.TimePeriod request)
       avgRecent trend).
Proof.
  intros series avgRecent trend H. unfold generateSimpleForecast.
  fold series.
  assert (Hlt : (List.length series <? 2)%nat = false) by (apply Nat.ltb_ge; lia).
  rewrite Hlt, length_map.
  assert (Hw : (if (List.length series <? 3)%nat then List.length series else 3%nat)
               = List.length series).
  { destruct (List.length series <? 3)%nat eqn:E; [ reflexivity | ].
    apply Nat.ltb_ge in E. lia. }
  rewrite Hw, Nat.sub_diag. simpl firstn. simpl List.length.
  change (0 <? 0)%nat with false. cbv iota.
  subst avgRecent trend. unfold mean, recentTail, window, len.
  rewrite (Nat.min_r 3 (List.length series)) by lia.
  rewrite Nat.sub_diag, length_map. reflexivity.
Qed.

(** Four usable points or more: trend, seasonality and volatility. *)
Lemma generateSimpleForecast_trend (w : World) (request : ForecastRequest.t) :
  let series := filterToLast12Months (ForecastRequest.TimeSeriesData request) in
  let avgRecent := mean (recentTail series) in
  let trend := ((avgRecent - mean (olderHead series)) / float64 3)%float in
  (4 <= List.length series)%nat ->
  generateSimpleForecast w request =
  makeForecast (ForecastRequest.PeriodsToForecast request)
    (trendStep w (Period (last series noPoint)) (ForecastRequest.TimePeriod request)
       avgRecent trend).
Proof.
  intros series avgRecent trend H. unfold generateSimpleForecast.
  fold series.
  assert (Hlt : (List.length series <? 2)%nat = false) by (apply Nat.ltb_ge; lia).
  rewrite Hlt, length_map.
  assert (Hw : (List.length series <? 3)%nat = false) by (apply Nat.ltb_ge; lia).
  rewrite Hw.
  assert (Ho : (0 <? List.length (firstn (List.length series - 3) (map Total series)))%nat
               = true).
  { apply Nat.ltb_lt. rewrite length_firstn, length_map. lia. }
  rewrite Ho.
  subst avgRecent trend. unfold mean, recentTail, olderHead, window.
  rewrite (Nat.min_l 3 (List.length series)) by lia. reflexivity.
Qed.

Lemma olderHead_empty_iff (series : list TimeSeriesPoint) :
  olderHead series = [] <-> (List.length series <= 3)%nat.
Proof.
  unfold olderHead, window. split.
  - intros H. apply (f_equal (@List.length float)) in H.
    rewrite length_firstn, length_map in H.
    change (List.length (@nil float)) with O in H. lia.
  - intros H. rewrite Nat.min_r by lia.
    replace (List.length series - List.length series)%nat with O by lia. reflexivity.
Qed.

Lemma nth_0_map_Total (series : list TimeSeriesPoint) :
  nth 0 (map Total series) 0%float = Total (hd noPoint series).
Proof. destruct series; reflexivity. Qed.

(** A three-point series has an empty older head, and the estimator
    extrapolates it linearly: the forecast is the same whatever the sine and
    the random source are. *)
Lemma C5_three_points_linear :
  let series :=
    [Sample.point "2024-01" 1; Sample.point "2024-02" 2; Sample.point "2024-03" 3] in
  filterToLast12Months series = series
  /\ olderHead series = []
  /\ List.length series <> 2%nat
  /\ forall w : World,
       generateSimpleForecast w (createRequestForPeriod (Sample.request series "month") "month")
       = Done [Sample.point "2024-04" 2.5; Sample.point "2024-05" 3;
               Sample.point "2024-06" 3.5; Sample.point "2024-07" 4;
               Sample.point "2024-08" 4.5; Sample.point "2024-09" 5].
Proof.
  cbv zeta. split; [ vm_compute; reflexivity | ].
  split; [ reflexivity | ].
  split; [ discriminate | ].
  intros w. vm_compute. reflexivity.
Qed.

(** C5, amended: on a series of at least two usable points (the points kept
    by [filterToLast12Months]) the estimator uses the plain linear trend,
    [(avgRecent - series[0].total) / (len(series) - 1)] with neither seasonal
    nor random factor, exactly when the older head is empty, which is the case
    of two or of three points; with four points or more it uses the trend
    against the older head, times the seasonal and the random factor. *)
Theorem generateSimpleForecast_branches (w : World) (request : ForecastRequest.t) :
  let series := filterToLast12Months (ForecastRequest.TimeSeriesData request) in
  let n := ForecastRequest.PeriodsToForecast request in
  let label (i : nat) :=
    generateNextPeriod w (Period (last series noPoint))
      (ForecastRequest.TimePeriod request) (Z.of_nat i + 1) in
  let avgRecent := mean (recentTail series) in
  (2 <= List.length series)%nat ->
  (olderHead series = [] <-> List.length series = 2%nat \/ List.length series = 3%nat)
  /\ (olderHead series = [] ->
      let trend :=
        ((avgRecent - Total (hd noPoint series)) / float64 (len series - 1))%float in
      generateSimpleForecast w request =
      makeForecast n
        (fun i =>
           {| Period := label i;
              Total := clampNegative (avgRecent + trend * float64 (Z.of_nat i + 1))%float |}))
  /\ (olderHead series <> [] ->
      let trend :=
        ((avgRecent - mean (olderHead series)) / float64 (Z.of_nat (window series)))%float in
      generateSimpleForecast w request =
      makeForecast n
        (fun i =>
           {| Period := label i;
              Total :=
                clampNegative
                  ((avgRecent + trend * float64 (Z.of_nat i + 1))
                   * (1.0 + 0.1 * math_Sin w (float64 (Z.of_nat i) * math_Pi / 6))
                   * (1.0 + (rand_Float64 w i - 0.5) * 0.05 * 2))%float |})).
Proof.
  intros series n label avgRecent Hlen.
  split; [ rewrite olderHead_empty_iff; lia | ].
  split.
  - intros Hempty trend. apply olderHead_empty_iff in Hempty.
    pose proof (generateSimpleForecast_linear w request) as H.
    cbv zeta in H. fold series in H. rewrite H by lia.
    subst trend. rewrite nth_0_map_Total. reflexivity.
  - intros Hnonempty trend.
    assert (Hfour : (4 <= List.length series)%nat).
    { destruct (Nat.le_gt_cases (List.length series) 3) as [Hle | Hgt]; [ | lia ].
      apply olderHead_empty_iff in Hle. contradiction. }
    pose proof (generateSimpleForecast_trend w request) as H.
    cbv zeta in H. fold series in H. rewrite H by lia.
    subst trend. unfold window. rewrite Nat.min_l by lia. reflexivity.
Qed.

Lemma generateSimpleForecast_branches_witness :
  let series :=
    filterToLast12Months
      (ForecastRequest.TimeSeriesData
         (Sample.request [Sample.point "2024-01" 1; Sample.point "2024-02" 2] "month")) in
  (2 <= List.length series)%nat
  /\ (olderHead series = [] <-> List.length series = 2%nat \/ List.length series = 3%nat).
Proof.
  cbv zeta.
  assert (H : (2 <= List.length
                 (filterToLast12Months
                    (ForecastRequest.TimeSeriesData
                       (Sample.request
                          [Sample.point "2024-01" 1; Sample.point "2024-02" 2] "month"))))%nat).
  { vm_compute. apply le_n. }
  split; [ exact H | ].
  exact (proj1 (generateSimpleForecast_branches
                  (Sample.offline EmptyString Sample.midJune)
                  (Sample.request [Sample.point "2024-01" 1; Sample.point "2024-02" 2] "month")
                  H)).
Defined.

(** What the fallback returns for a request made by [createRequestForPeriod]:
    it does not panic; the forecast has [getForecastPeriods] points when two
    usable points or more are left, and none otherwise. *)
Lemma fallback_returns (w : World) (request : ForecastRequest.t) (timePeriod : string) :
  let series := filterToLast12Months (ForecastRequest.TimeSeriesData request) in
  exists step : nat -> TimeSeriesPoint,
    (step = linearStep w (Period (last series noPoint)) timePeriod
              (mean (recentTail series))
              ((mean (recentTail series) - nth 0 (map Total series) 0)
               / float64 (len series - 1))%float
     \/ step = trendStep w (Period (last series noPoint)) timePeriod
                 (mean (recentTail series))
                 ((mean (recentTail series) - mean (olderHead series)) / float64 3)%float)
    /\ generateSimpleForecast w (createRequestForPeriod request timePeriod) =
       Done (if (List.length series <? 2)%nat then []
             else map step (seq 0 (Z.to_nat (getForecastPeriods timePeriod)))).
Proof.
  intros series.
  assert (Hn : 0 <= getForecastPeriods timePeriod).
  { destruct (getForecastPeriods_cases timePeriod) as [H | [H | [H | H]]]; rewrite H; lia. }
  destruct (List.length series <? 2)%nat eqn:Hshort.
  - eexists. split; [ left; reflexivity | ].
    apply generateSimpleForecast_short. simpl. fold series. now apply Nat.ltb_lt.
  - apply Nat.ltb_ge in Hshort.
    destruct (Nat.le_gt_cases (List.length series) 3) as [Hle | Hgt].
    + eexists. split; [ left; reflexivity | ].
      pose proof (generateSimpleForecast_linear w (createRequestForPeriod request timePeriod)) as H.
      cbv zeta in H. simpl ForecastRequest.TimeSeriesData in H. fold series in H.
      rewrite H by lia. simpl. now apply makeForecast_done.
    + eexists. split; [ right; reflexivity | ].
      pose proof (generateSimpleForecast_trend w (createRequestForPeriod request timePeriod)) as H.
      cbv zeta in H. simpl ForecastRequest.TimeSeriesData in H. fold series in H.
      rewrite H by lia. simpl. now apply makeForecast_done.
Qed.

Lemma fallback_done (w : World) (request : ForecastRequest.t) (timePeriod : string) :
  exists points,
    generateSimpleForecast w (createRequestForPeriod request timePeriod) = Done points.
Proof.
  destruct (fallback_returns w request timePeriod) as [step [_ H]]. eauto.
Qed.

(** ** Forecast values *)

Lemma clampNegative_not_negative (v : float) : (clampNegative v <? 0)%float = false.
Proof.
  unfold clampNegative. destruct (v <? 0)%float eqn:E; [ reflexivity | exact E ].
Qed.

(** A float that is not below zero is a number at or above zero, or NaN. *)
Lemma not_negative_cases (v : float) :
  (v <? 0)%float = false -> nonNegative v = true \/ isNaN v = true.
Proof.
  unfold nonNegative, isNaN. rewrite ltb_spec, leb_spec, eqb_spec.
  change (Prim2SF 0) with (S754_zero false).
  destruct (Prim2SF v) as [ s | s | | s m e ]; try destruct s; cbn; intros H;
    try discriminate; auto.
Qed.



(** Five points of the largest finite value: the averages overflow, the
    trend is NaN, and so is every forecast value; the clamp leaves NaN. *)
Lemma fallback_value_can_be_NaN :
  let big := 0x1.fffffffffffffp+1023%float in
  let series :=
    [Sample.point "2024-01" big; Sample.point "2024-02" big; Sample.point "2024-03" big;
     Sample.point "2024-04" big; Sample.point "2024-05" big] in
  generateSimpleForecast (Sample.offline EmptyString Sample.midJune)
    (createRequestForPeriod (Sample.request series "month") "month")
  = Done [Sample.point "2024-06" nan; Sample.point "2024-07" nan;
          Sample.point "2024-08" nan; Sample.point "2024-09" nan;
          Sample.point "2024-10" nan; Sample.point "2024-11" nan]
  /\ nonNegative nan = false.
Proof. cbv zeta. split; vm_compute; reflexivity. Qed.

(** ** Labels of an unknown granularity *)

(** C10: for a granularity other than "day", "week" and "month", and a
    series of which at least two points are left by the filter to the last
    twelve months, the fallback estimator produces exactly twelve points,
    labelled "forecast-1" to "forecast-12" in this order. *)
Theorem fallback_labels_of_unknown_granularity (w : World) (request : ForecastRequest.t)
    (timePeriod : string) :
  timePeriod <> "day" -> timePeriod <> "week" -> timePeriod <> "month" ->
  (2 <= List.length (filterToLast12Months (ForecastRequest.TimeSeriesData request)))%nat ->
  exists points,
    generateSimpleForecast w (createRequestForPeriod request timePeriod) = Done points
    /\ List.length points = 12%nat
    /\ map Period points =
       ["forecast-1"; "forecast-2"; "forecast-3"; "forecast-4"; "forecast-5";
        "forecast-6"; "forecast-7"; "forecast-8"; "forecast-9"; "forecast-10";
        "forecast-11"; "forecast-12"].
Proof.
  intros Hd Hw Hm Hlen.
  destruct (fallback_returns w request timePeriod) as [step [Hstep H]].
  apply Nat.ltb_ge in Hlen. rewrite Hlen in H.
  assert (Hn : getForecastPeriods timePeriod = 12).
  { unfold getForecastPeriods. apply String.eqb_neq in Hd, Hw, Hm. now rewrite Hd, Hw, Hm. }
  rewrite Hn in H.
  eexists. split; [ exact H | ].
  split; [ now rewrite length_map, length_seq | ].
  rewrite map_map.
  assert (Hlabel : forall i, Period (step i) = "forecast-" ++ Bytes.itoa (Z.of_nat i + 1)).
  { intros i. destruct Hstep as [-> | ->]; apply generateNextPeriod_other; assumption. }
  rewrite (map_ext _ _ Hlabel). vm_compute. reflexivity.
Qed.

Lemma fallback_labels_of_unknown_granularity_witness :
  exists points,
    generateSimpleForecast (Sample.offline EmptyString Sample.midJune)
      (createRequestForPeriod
         (Sample.request [Sample.point "2024-01" 1; Sample.point "2024-02" 2] EmptyString)
         "quarter") = Done points
    /\ List.length points = 12%nat
    /\ map Period points =
       ["forecast-1"; "forecast-2"; "forecast-3"; "forecast-4"; "forecast-5";
        "forecast-6"; "forecast-7"; "forecast-8"; "forecast-9"; "forecast-10";
        "forecast-11"; "forecast-12"].
Proof.
  apply (fallback_labels_of_unknown_granularity
           (Sample.offline EmptyString Sample.midJune)
           (Sample.request [Sample.point "2024-01" 1; Sample.point "2024-02" 2] EmptyString)
           "quarter").
  - discriminate.
  - discriminate.
  - discriminate.
  - vm_compute. apply le_n.
Defined.

(** ** The orchestrator *)

Lemma take3_is_prefix (apiKey : string) :
  (3 <=? String.length apiKey)%nat = true ->
  (Bytes.take 3 apiKey =? "sk-")%string = prefix "sk-" apiKey.
Proof.
  destruct apiKey as [ | a [ | b [ | c rest ] ] ]; try discriminate. intros _.
  unfold Bytes.take. cbn [substring prefix].
  replace (substring 0 0 rest) with EmptyString by (destruct rest; reflexivity).
  cbn [String.eqb].
  destruct (ascii_dec "s" a) as [ <- | Ha ].
  2:{ destruct (Ascii.eqb_spec a "s"); [ congruence | reflexivity ]. }
  destruct (ascii_dec "k" b) as [ <- | Hb ].
  2:{ cbn. destruct (Ascii.eqb_spec b "k"); [ congruence | reflexivity ]. }
  destruct (ascii_dec "-" c) as [ <- | Hc ].
  2:{ cbn. destruct (Ascii.eqb_spec c "-"); [ congruence | reflexivity ]. }
  destruct rest; reflexivity.
Qed.

(** A rejected credential leads to one of the first three fallback exits. *)
Lemma rejected_credential_falls_back (w : World) (request : ForecastRequest.t)
    (timePeriod : string) :
  credentialRejected (OPENAI_API_KEY w) = true ->
  exists reason,
    prefix "Simple forecast generated" reason = true
    /\ generateForecastForPeriod w request timePeriod
       = simpleForecastFor w request timePeriod reason.
Proof.
  unfold credentialRejected, generateForecastForPeriod. intros H.
  destruct (OPENAI_API_KEY w =? EmptyString)%string eqn:Hempty.
  { eexists. split; [ | reflexivity ]. reflexivity. }
  destruct (String.length (OPENAI_API_KEY w) <? 10)%nat eqn:Hshort.
  { eexists. split; [ | reflexivity ]. reflexivity. }
  cbn [orb] in H |- *.
  assert (H3 : (3 <=? String.length (OPENAI_API_KEY w))%nat = true).
  { apply Nat.leb_le. apply Nat.ltb_ge in Hshort. lia. }
  rewrite (take3_is_prefix _ H3), H.
  rewrite Bool.orb_true_r.
  eexists. split; [ | reflexivity ]. reflexivity.
Qed.

(** The orchestrator of the revision with fallback never panics and never
    returns an error. *)
Lemma generateForecastForPeriod_total (w : World) (request : ForecastRequest.t)
    (timePeriod : string) :
  exists points rawResponse,
    generateForecastForPeriod w request timePeriod = Done (points, rawResponse, None).
Proof.
  assert (Hfb : forall reason, exists points rawResponse,
             simpleForecastFor w request timePeriod reason = Done (points, rawResponse, None)).
  { intros reason. unfold simpleForecastFor.
    destruct (fallback_done w request timePeriod) as [points ->]. cbn. eauto. }
  unfold generateForecastForPeriod. cbv zeta.
  repeat match goal with
         | |- context [ if ?c then _ else _ ] =>
             match type of c with bool => destruct c; [ apply Hfb | ] end
         end.
  destruct (testOpenAIAPI w (OPENAI_API_KEY w)); [ apply Hfb | ].
  match goal with
  | |- context [ sendChatGPTRequest w ?k ?r ] =>
      destruct (sendChatGPTRequest w k r) as [ response | e ]; [ | apply Hfb ]
  end.
  destruct (parseSinglePeriodChatGPTResponse w response)
    as [[forecast rawResponse] [ e | ]]; [ apply Hfb | eauto ].
Qed.

(** Only the series of a request matters to the orchestrator. *)
Lemma generateForecastForPeriod_series_only (w : World) (r1 r2 : ForecastRequest.t)
    (timePeriod : string) :
  ForecastRequest.TimeSeriesData r1 = ForecastRequest.TimeSeriesData r2 ->
  generateForecastForPeriod w r1 timePeriod = generateForecastForPeriod w r2 timePeriod.
Proof.
  intros H. unfold generateForecastForPeriod, simpleForecastFor,
    buildForecastPromptForPeriod, createRequestForPeriod.
  rewrite H. reflexivity.
Qed.

(** The revision without fallback turns a rejected credential into an
    error. *)
Lemma strict_rejects_credential (w : World) (request : ForecastRequest.t)
    (timePeriod : string) :
  credentialRejected (OPENAI_API_KEY w) = true ->
  exists msg,
    ForecastStrict.generateForecastForPeriod w request timePeriod
    = ([], EmptyString, Some (errorString msg)).
Proof.
  unfold credentialRejected, ForecastStrict.generateForecastForPeriod. intros H.
  destruct (OPENAI_API_KEY w =? EmptyString)%string; [ eauto | ].
  destruct (String.length (OPENAI_API_KEY w) <? 10)%nat eqn:Hshort; [ eauto | ].
  cbn [orb] in H.
  assert (H3 : (3 <=? String.length (OPENAI_API_KEY w))%nat = true).
  { apply Nat.leb_le. apply Nat.ltb_ge in Hshort. lia. }
  rewrite (take3_is_prefix _ H3), H, Bool.orb_true_r. eauto.
Qed.






(** ** The default granularity *)



(** ** The response parser *)

Lemma firstIndexOf_lt (c : ascii) (s : string) (i : nat) :
  firstIndexOf c s = Some i -> (i < String.length s)%nat.
Proof.
  revert i. induction s as [ | c' s IH ]; intros i; cbn; [ discriminate | ].
  destruct (Ascii.eqb c' c).
  - intros [= <-]. lia.
  - destruct (firstIndexOf c s) as [ j | ]; cbn; [ | discriminate ].
    intros [= <-]. specialize (IH j eq_refl). lia.
Qed.

Lemma lastIndexOf_get (c : ascii) (s : string) (i : nat) :
  lastIndexOf c s = Some i -> String.get i s = Some c.
Proof.
  revert i. induction s as [ | c' s IH ]; intros i; cbn; [ discriminate | ].
  destruct (lastIndexOf c s) as [ j | ].
  - intros [= <-]. now apply IH.
  - destruct (Ascii.eqb_spec c' c) as [ -> | ]; [ | discriminate ].
    now intros [= <-].
Qed.

Lemma lastIndexOf_lt (c : ascii) (s : string) (i : nat) :
  lastIndexOf c s = Some i -> (i < String.length s)%nat.
Proof.
  revert i. induction s as [ | c' s IH ]; intros i; cbn; [ discriminate | ].
  destruct (lastIndexOf c s) as [ j | ].
  - intros [= <-]. specialize (IH j eq_refl). lia.
  - destruct (Ascii.eqb c' c); [ | discriminate ]. intros [= <-]. lia.
Qed.

Lemma lastIndexOf_none (c : ascii) (s : string) (j : nat) :
  lastIndexOf c s = None -> String.get j s <> Some c.
Proof.
  revert j. induction s as [ | c' s IH ]; intros j; cbn; [ discriminate | ].
  destruct (lastIndexOf c s) as [ k | ]; [ discriminate | ].
  destruct (Ascii.eqb_spec c' c) as [ | Hne ]; [ discriminate | ]. intros _.
  destruct j as [ | j ]; [ congruence | now apply IH ].
Qed.

Lemma lastIndexOf_last (c : ascii) (s : string) (i j : nat) :
  lastIndexOf c s = Some i -> (i < j)%nat -> String.get j s <> Some c.
Proof.
  revert i j. induction s as [ | c' s IH ]; intros i j; cbn; [ discriminate | ].
  destruct (lastIndexOf c s) as [ k | ] eqn:Hlast.
  - intros [= <-] Hlt. destruct j as [ | j ]; [ lia | ].
    apply (IH k); [ reflexivity | lia ].
  - destruct (Ascii.eqb c' c); [ | discriminate ]. intros [= <-] Hlt.
    destruct j as [ | j ]; [ lia | ]. now apply lastIndexOf_none.
Qed.

(** The first loop finds the first '[', unless it is the last byte. *)
Lemma scanStart_first (content : string) (i s : nat) :
  firstIndexOf "[" content = Some s -> (S s < String.length content)%nat ->
  scanStart content i = Some (i + s)%nat.
Proof.
  revert i s. induction content as [ | c rest IH ]; intros i s; cbn [firstIndexOf];
    [ discriminate | ].
  destruct (Ascii.eqb c "[") eqn:Hc.
  - intros [= <-] Hlen. destruct rest as [ | c' rest ]; [ cbn in Hlen; lia | ].
    cbn. rewrite Hc. f_equal. lia.
  - destruct (firstIndexOf "[" rest) as [ s' | ] eqn:Hfirst; cbn; [ | discriminate ].
    intros [= <-] Hlen. cbn in Hlen.
    destruct rest as [ | c' rest ]; [ cbn in Hlen; lia | ].
    rewrite Hc. rewrite (IH (S i) s' eq_refl) by lia. f_equal. lia.
Qed.

(** The second loop, entered at or after the last ']', finds it when it lies
    after [start]. *)
Lemma scanEnd_last (content : string) (start e i : nat) :
  lastIndexOf "]" content = Some e -> (start < e)%nat -> (e <= i)%nat ->
  scanEnd content start i = Some (S e).
Proof.
  intros Hlast Hstart. induction i as [ | i IH ]; intros Hi; [ lia | ].
  cbn [scanEnd].
  assert (Hlt : (start <? S i)%nat = true) by (apply Nat.ltb_lt; lia).
  rewrite Hlt.
  destruct (Nat.eq_dec e (S i)) as [ <- | Hne ].
  - rewrite (lastIndexOf_get _ _ _ Hlast). reflexivity.
  - pose proof (lastIndexOf_last _ _ _ (S i) Hlast ltac:(lia)) as Hget.
    destruct (String.get (S i) content) as [ c | ]; [ | apply IH; lia ].
    destruct (Ascii.eqb_spec c "]") as [ -> | ]; [ congruence | apply IH; lia ].
Qed.

Lemma payloadBounds_brackets (content : string) (s e : nat) :
  firstIndexOf "[" content = Some s -> lastIndexOf "]" content = Some e -> (s < e)%nat ->
  payloadBounds content = (s, S e).
Proof.
  intros Hfirst Hlast Hlt. unfold payloadBounds.
  pose proof (lastIndexOf_lt _ _ _ Hlast) as He.
  rewrite (scanStart_first content 0 s Hfirst) by lia. cbn [Nat.add].
  rewrite (scanEnd_last content s e _ Hlast Hlt) by lia. reflexivity.
Qed.

(** C7: when the raw text has a '[' and, after the first one, a ']', the
    parser decodes the substring from the first '[' to the last ']'; its
    result is the decoder's.  For the text
    [Here you go: [{"period":"2024-02","total":500.0}] thanks] the candidate
    is [[{"period":"2024-02","total":500.0}]], and with a decoder that reads
    it as the array it denotes the parser returns exactly the point
    ("2024-02", 500.0), along with the raw text. *)
Theorem parser_takes_first_bracket_to_last (w : World) :
  (forall (content : string) (s e : nat),
      firstIndexOf "[" content = Some s ->
      lastIndexOf "]" content = Some e ->
      (s < e)%nat ->
      parseSinglePeriodChatGPTResponse w
        {| Choices := [ {| ChoiceMessage := {| Role := "assistant"; Content := content |} |} ] |}
      = match json_Unmarshal w (substring s (e - s + 1) content) with
        | inl forecast => (forecast, content, None)
        | inr (errorString msg) =>
            ([], content,
             Some (errorString ("failed to parse single-period JSON: " ++ msg)))
        end)
  /\ (firstIndexOf "[" Sample.content500 = Some 13%nat
      /\ lastIndexOf "]" Sample.content500 = Some 48%nat
      /\ substring 13 (48 - 13 + 1) Sample.content500 = Sample.payload500)
  /\ (json_Unmarshal w Sample.payload500 = inl [Sample.point "2024-02" 500] ->
      parseSinglePeriodChatGPTResponse w
        {| Choices :=
             [ {| ChoiceMessage := {| Role := "assistant"; Content := Sample.content500 |} |} ] |}
      = ([Sample.point "2024-02" 500], Sample.content500, None)).
Proof.
  assert (Hgeneral : forall (content : string) (s e : nat),
      firstIndexOf "[" content = Some s ->
      lastIndexOf "]" content = Some e ->
      (s < e)%nat ->
      parseSinglePeriodChatGPTResponse w
        {| Choices := [ {| ChoiceMessage := {| Role := "assistant"; Content := content |} |} ] |}
      = match json_Unmarshal w (substring s (e - s + 1) content) with
        | inl forecast => (forecast, content, None)
        | inr (errorString msg) =>
            ([], content,
             Some (errorString ("failed to parse single-period JSON: " ++ msg)))
        end).
  { intros content s e Hfirst Hlast Hlt. unfold parseSinglePeriodChatGPTResponse.
    cbn [Choices ChoiceMessage Content].
    rewrite (payloadBounds_brackets content s e Hfirst Hlast Hlt).
    assert (Hle : (S e <=? s)%nat = false) by (apply Nat.leb_gt; lia).
    rewrite Hle. replace (S e - s)%nat with (e - s + 1)%nat by lia. reflexivity. }
  assert (Hbounds : firstIndexOf "[" Sample.content500 = Some 13%nat
                    /\ lastIndexOf "]" Sample.content500 = Some 48%nat
                    /\ substring 13 (48 - 13 + 1) Sample.content500 = Sample.payload500).
  { vm_compute. repeat split. }
  split; [ exact Hgeneral | ]. split; [ exact Hbounds | ].
  intros Hdecode. destruct Hbounds as [Hfirst [Hlast Hsub]].
  rewrite (Hgeneral _ 13%nat 48%nat Hfirst Hlast ltac:(lia)), Hsub, Hdecode. reflexivity.
Qed.

Lemma parser_takes_first_bracket_to_last_witness :
  parseSinglePeriodChatGPTResponse
    (Sample.answering Sample.content500 Sample.payload500 [Sample.point "2024-02" 500])
    {| Choices :=
         [ {| ChoiceMessage := {| Role := "assistant"; Content := Sample.content500 |} |} ] |}
  = ([Sample.point "2024-02" 500], Sample.content500, None).
Proof.
  apply (proj2 (proj2 (parser_takes_first_bracket_to_last
                         (Sample.answering Sample.content500 Sample.payload500
                            [Sample.point "2024-02" 500])))).
  vm_compute. reflexivity.
Defined.

(** ** The calendar *)

Import Calendar Check.

Lemma forallDyadic_spec (k : nat) (f : Z -> bool) (lo : Z) :
  forallDyadic k f lo = true ->
  forall z, lo <= z < lo + 2 ^ Z.of_nat k -> f z = true.
Proof.
  revert lo. induction k as [ | k IH ]; intros lo H z Hz.
  - cbn in *. replace z with lo by lia. exact H.
  - cbn [forallDyadic] in H. apply andb_prop in H. destruct H as [H1 H2].
    rewrite Nat2Z.inj_succ, Z.pow_succ_r in Hz by lia.
    destruct (Z_lt_ge_dec z (lo + 2 ^ Z.of_nat k)).
    + apply (IH lo H1). lia.
    + apply (IH _ H2). lia.
Qed.

Lemma era_checked :
  forallDyadic 17 civilOK (-719468) && forallDyadic 14 civilOK (-719468 + 131072) = true.
Proof. vm_cast_no_check (eq_refl true). Qed.

Lemma civilOK_era (z : Z) : 0 <= z + 719468 < 146097 -> civilOK z = true.
Proof.
  intros Hz. pose proof era_checked as H. apply andb_prop in H. destruct H as [H1 H2].
  destruct (Z_lt_ge_dec z (-719468 + 131072)).
  - apply (forallDyadic_spec _ _ _ H1). change (2 ^ Z.of_nat 17) with 131072. lia.
  - apply (forallDyadic_spec _ _ _ H2). change (2 ^ Z.of_nat 14) with 16384. lia.
Qed.

Lemma isLeap_shift (y k : Z) : isLeap (y + 400 * k) = isLeap y.
Proof.
  unfold isLeap.
  replace ((y + 400 * k) mod 4) with (y mod 4)
    by (replace (y + 400 * k) with (y + (100 * k) * 4) by lia; now rewrite Z.mod_add).
  replace ((y + 400 * k) mod 100) with (y mod 100)
    by (replace (y + 400 * k) with (y + (4 * k) * 100) by lia; now rewrite Z.mod_add).
  replace ((y + 400 * k) mod 400) with (y mod 400)
    by (replace (y + 400 * k) with (y + k * 400) by lia; now rewrite Z.mod_add).
  reflexivity.
Qed.

Lemma daysIn_shift (m y k : Z) : daysIn m (y + 400 * k) = daysIn m y.
Proof. unfold daysIn. now rewrite isLeap_shift. Qed.

Lemma daysFromCivil_shift (y m d k : Z) :
  daysFromCivil (y + 400 * k) m d = daysFromCivil y m d + 146097 * k.
Proof.
  unfold daysFromCivil.
  set (y' := if m <=? 2 then y - 1 else y).
  replace (if m <=? 2 then y + 400 * k - 1 else y + 400 * k) with (y' + k * 400)
    by (subst y'; destruct (m <=? 2); lia).
  rewrite Z.div_add, Z.mod_add by lia. cbv zeta. lia.
Qed.

Lemma civilFromDays_shift (z k : Z) :
  civilFromDays (z + 146097 * k) =
  let '(y, m, d) := civilFromDays z in (y + 400 * k, m, d).
Proof.
  unfold civilFromDays.
  replace (z + 146097 * k + 719468) with (z + 719468 + k * 146097) by lia.
  rewrite Z.div_add, Z.mod_add by lia. cbv zeta.
  set (doe := (z + 719468) mod 146097).
  set (yoe := (doe - doe / 1460 + doe / 36524 - doe / 146096) / 365).
  set (doy := doe - (365 * yoe + yoe / 4 - yoe / 100)).
  set (mp := (5 * doy + 2) / 153).
  destruct ((if mp <? 10 then mp + 3 else mp - 9) <=? 2); f_equal; f_equal; lia.
Qed.

(** Every day number has a civil date of the calendar, of which it is the number. *)
Lemma civilFromDays_valid (z : Z) :
  let '(y, m, d) := civilFromDays z in
  1 <= m <= 12 /\ 1 <= d <= daysIn m y /\ daysFromCivil y m d = z
  /\ 400 * ((z + 719468) / 146097) <= y <= 400 * ((z + 719468) / 146097) + 400.
Proof.
  set (k := (z + 719468) / 146097).
  set (z0 := z - 146097 * k).
  assert (Hz0 : 0 <= z0 + 719468 < 146097).
  { subst z0 k. pose proof (Z.mod_pos_bound (z + 719468) 146097 ltac:(lia)).
    pose proof (Z.div_mod (z + 719468) 146097 ltac:(lia)). lia. }
  pose proof (civilOK_era z0 Hz0) as H. unfold civilOK in H.
  assert (Hciv : civilFromDays z = let '(y, m, d) := civilFromDays z0 in (y + 400 * k, m, d)).
  { rewrite <- civilFromDays_shift. f_equal. subst z0. lia. }
  rewrite Hciv. clear Hciv.
  destruct (civilFromDays z0) as [[y m] d].
  repeat (apply andb_prop in H; destruct H as [H ?]).
  rewrite daysIn_shift, daysFromCivil_shift.
  apply orb_prop in H0. destruct H0 as [H0 | H0]; [ apply Z.leb_le in H0; lia | ].
  apply andb_prop in H0. destruct H0 as [Hy0 Hy1].
  apply Z.leb_le in H, H3, H2, H4, Hy0, Hy1. apply Z.eqb_eq in H1.
  subst z0. lia.
Qed.

Lemma daysFromCivil_day (y m d : Z) : daysFromCivil y m d = daysFromCivil y m 1 + d - 1.
Proof. unfold daysFromCivil. lia. Qed.

(** ** Dates of the bucketer *)

Import JS App.

Lemma digitChar_digit (d : Z) :
  0 <= d <= 9 ->
  Bytes.isDigitChar (Bytes.digitChar d) = true
  /\ Bytes.digitVal (Bytes.digitChar d) = d
  /\ Ascii.eqb (Bytes.digitChar d) "+" = false
  /\ Ascii.eqb (Bytes.digitChar d) "-" = false.
Proof.
  intros Hd.
  assert (H : d = 0 \/ d = 1 \/ d = 2 \/ d = 3 \/ d = 4 \/ d = 5 \/ d = 6 \/ d = 7
              \/ d = 8 \/ d = 9) by lia.
  repeat (destruct H as [-> | H]; [ repeat split | ]). subst d. repeat split.
Qed.

Lemma digitsFrom_digitChar (acc d : Z) (rest : string) :
  0 <= d <= 9 ->
  Bytes.digitsFrom acc (String (Bytes.digitChar d) rest)
  = Bytes.digitsFrom (10 * acc + d) rest.
Proof.
  intros Hd. destruct (digitChar_digit d Hd) as [H1 [H2 _]].
  cbn [Bytes.digitsFrom]. now rewrite H1, H2.
Qed.

Lemma getnum2_fixedDigits (n : Z) (rest : string) :
  0 <= n <= 99 -> Bytes.getnum2 (Bytes.fixedDigits 2 n rest) = Some (n, rest).
Proof.
  intros Hn. cbn [Bytes.fixedDigits Bytes.getnum2].
  destruct (digitChar_digit (n / 10 mod 10)) as [H1 [H2 _]];
    [ pose proof (Z.mod_pos_bound (n / 10) 10); lia | ].
  destruct (digitChar_digit (n mod 10)) as [H3 [H4 _]];
    [ pose proof (Z.mod_pos_bound n 10); lia | ].
  rewrite H1, H2, H3, H4. cbn [andb]. do 2 f_equal.
  pose proof (Z.div_mod n 10 ltac:(lia)).
  pose proof (Z.mod_small (n / 10) 10).
  assert (0 <= n / 10 < 10) by (split; [ apply Z.div_pos | apply Z.div_lt_upper_bound ]; lia).
  lia.
Qed.

Lemma parseYear_four_digits (y : Z) (rest : string) :
  0 <= y <= 9999 ->
  parseYear (Bytes.fixedDigits 4 y (String "-" rest)) = Some (y, String "-" rest).
Proof.
  intros Hy. cbn [Bytes.fixedDigits].
  set (d0 := y mod 10). set (d1 := y / 10 mod 10). set (d2 := y / 10 / 10 mod 10).
  set (d3 := y / 10 / 10 / 10 mod 10).
  assert (H0 : 0 <= d0 <= 9) by (subst d0; pose proof (Z.mod_pos_bound y 10); lia).
  assert (H1 : 0 <= d1 <= 9) by (subst d1; pose proof (Z.mod_pos_bound (y / 10) 10); lia).
  assert (H2 : 0 <= d2 <= 9)
    by (subst d2; pose proof (Z.mod_pos_bound (y / 10 / 10) 10); lia).
  assert (H3 : 0 <= d3 <= 9)
    by (subst d3; pose proof (Z.mod_pos_bound (y / 10 / 10 / 10) 10); lia).
  unfold parseYear.
  destruct (digitChar_digit d3 H3) as [_ [_ [Hplus Hminus]]].
  rewrite Hplus, Hminus. cbn [orb String.length Nat.ltb Nat.leb].
  unfold Bytes.take. cbn [substring Bytes.atoi Bytes.drop].
  rewrite !digitsFrom_digitChar by assumption. cbn [Bytes.digitsFrom].
  do 2 f_equal. subst d0 d1 d2 d3. Z.div_mod_to_equations. lia.
Qed.

Lemma parseYear_six_digits (y : Z) (rest : string) :
  (y < 0 \/ 9999 < y) -> -999999 <= y <= 999999 ->
  parseYear
    (String (if y <? 0 then "-"%char else "+"%char)
       (Bytes.fixedDigits 6 (Z.abs y) (String "-" rest)))
  = Some (y, String "-" rest).
Proof.
  intros Hout Hy. cbn [Bytes.fixedDigits].
  set (n := Z.abs y).
  set (d0 := n mod 10). set (d1 := n / 10 mod 10). set (d2 := n / 10 / 10 mod 10).
  set (d3 := n / 10 / 10 / 10 mod 10). set (d4 := n / 10 / 10 / 10 / 10 mod 10).
  set (d5 := n / 10 / 10 / 10 / 10 / 10 mod 10).
  assert (H0 : 0 <= d0 <= 9) by (subst d0; pose proof (Z.mod_pos_bound n 10); lia).
  assert (H1 : 0 <= d1 <= 9) by (subst d1; pose proof (Z.mod_pos_bound (n / 10) 10); lia).
  assert (H2 : 0 <= d2 <= 9)
    by (subst d2; pose proof (Z.mod_pos_bound (n / 10 / 10) 10); lia).
  assert (H3 : 0 <= d3 <= 9)
    by (subst d3; pose proof (Z.mod_pos_bound (n / 10 / 10 / 10) 10); lia).
  assert (H4 : 0 <= d4 <= 9)
    by (subst d4; pose proof (Z.mod_pos_bound (n / 10 / 10 / 10 / 10) 10); lia).
  assert (H5 : 0 <= d5 <= 9)
    by (subst d5; pose proof (Z.mod_pos_bound (n / 10 / 10 / 10 / 10 / 10) 10); lia).
  assert (Hvalue :
            10 * (10 * (10 * (10 * (10 * (10 * 0 + d5) + d4) + d3) + d2) + d1) + d0 = n).
  { subst d0 d1 d2 d3 d4 d5. assert (0 <= n <= 999999) by (subst n; lia).
    Z.div_mod_to_equations. lia. }
  unfold parseYear.
  assert (Hsign : Ascii.eqb (if y <? 0 then "-"%char else "+"%char) "+"
                  || Ascii.eqb (if y <? 0 then "-"%char else "+"%char) "-" = true)
    by (destruct (y <? 0); reflexivity).
  rewrite Hsign. cbn [String.length Nat.ltb Nat.leb].
  unfold Bytes.take. cbn [substring Bytes.atoi Bytes.drop].
  rewrite !digitsFrom_digitChar by assumption. cbn [Bytes.digitsFrom].
  rewrite Hvalue.
  destruct (y <? 0) eqn:Hneg.
  - apply Z.ltb_lt in Hneg. cbn [Ascii.eqb Bool.eqb].
    assert (Hnz : (n =? 0) = false) by (apply Z.eqb_neq; subst n; lia).
    rewrite Hnz. do 2 f_equal. subst n. lia.
  - apply Z.ltb_ge in Hneg. cbn [Ascii.eqb Bool.eqb]. do 2 f_equal. subst n. lia.
Qed.

(** What [toISOString] prints of a valid date is read back by [new Date] as
    the midnight of its day. *)
Lemma parseDate_toISODate (t : Z) :
  TimeClip t = Some t -> parseDate (toISODate t) = Some (Day t * msPerDay).
Proof.
  unfold TimeClip. destruct (8640000000000000 <? Z.abs t) eqn:Hclip; [ discriminate | ].
  intros _. apply Z.ltb_ge in Hclip.
  assert (Hday : -100000000 <= Day t <= 100000000).
  { unfold Day, msPerDay. split.
    - apply Z.div_le_lower_bound; lia.
    - apply Z.div_le_upper_bound; lia. }
  pose proof (civilFromDays_valid (Day t)) as Hvalid.
  unfold toISODate. destruct (civilFromDays (Day t)) as [[y m] d].
  destruct Hvalid as [Hm [Hd [Hnum Hyear]]].
  assert (Hk : -700 <= (Day t + 719468) / 146097 <= 700).
  { split; [ apply Z.div_le_lower_bound | apply Z.div_le_upper_bound ]; lia. }
  assert (Hd31 : d <= 31).
  { unfold daysIn in Hd.
    repeat match goal with
           | H : context [ if ?c then _ else _ ] |- _ => destruct c
           end; lia. }
  assert (Hyearparse :
            parseYear
              (if (0 <=? y) && (y <=? 9999)
               then Bytes.fixedDigits 4 y
                      (String "-" (Bytes.fixedDigits 2 m
                                     (String "-" (Bytes.fixedDigits 2 d EmptyString))))
               else String (if y <? 0 then "-"%char else "+"%char)
                      (Bytes.fixedDigits 6 (Z.abs y)
                         (String "-" (Bytes.fixedDigits 2 m
                                        (String "-" (Bytes.fixedDigits 2 d EmptyString))))))
            = Some (y, String "-" (Bytes.fixedDigits 2 m
                                     (String "-" (Bytes.fixedDigits 2 d EmptyString))))).
  { destruct ((0 <=? y) && (y <=? 9999)) eqn:Hfour.
    - apply andb_prop in Hfour. destruct Hfour as [Hy0 Hy1].
      apply Z.leb_le in Hy0, Hy1. apply parseYear_four_digits. lia.
    - apply parseYear_six_digits; [ | lia ].
      apply andb_false_iff in Hfour. destruct Hfour as [Hy | Hy]; apply Z.leb_gt in Hy; lia. }
  unfold parseDate. cbv zeta. rewrite Hyearparse.
  cbn [Bytes.skipDash Ascii.eqb Bool.eqb].
  rewrite getnum2_fixedDigits by lia.
  assert (Hmcheck : (m <? 1) || (12 <? m) = false).
  { apply orb_false_iff. split; [ apply Z.ltb_ge | apply Z.ltb_ge ]; lia. }
  rewrite Hmcheck. cbn [Bytes.skipDash Ascii.eqb Bool.eqb].
  rewrite getnum2_fixedDigits by lia.
  assert (Hdcheck : (d <? 1) || (daysIn m y <? d) = false).
  { apply orb_false_iff. split; [ apply Z.ltb_ge | apply Z.ltb_ge ]; lia. }
  rewrite Hdcheck.
  assert (Hmake : MakeDay y (m - 1) d = Day t).
  { unfold MakeDay. rewrite Z.div_small, Z.mod_small by lia.
    replace (y + 0) with y by lia. replace (m - 1 + 1) with m by lia.
    rewrite (daysFromCivil_day y m d) in Hnum. lia. }
  rewrite Hmake. unfold MakeDate, TimeClip.
  assert (Hin : (8640000000000000 <? Z.abs (Day t * msPerDay + 0)) = false).
  { apply Z.ltb_ge. unfold msPerDay. lia. }
  rewrite Hin. f_equal. lia.
Qed.

(** ** Sorting *)

Section SortFacts.
Context {A : Type} (cmp : A -> A -> comparison).

#[local] Notation "'notAfter'" := (fun a b : A => cmp a b <> Gt) (only parsing).

Lemma insertSorted_perm (x : A) (l : list A) : Permutation (x :: l) (insertSorted cmp x l).
Proof.
  induction l as [ | y l IH ]; cbn; [ reflexivity | ].
  destruct (cmp x y); try reflexivity.
  rewrite perm_swap. now constructor.
Qed.

Lemma sort_perm (l : list A) : Permutation l (sort cmp l).
Proof.
  induction l as [ | x l IH ]; cbn; [ constructor | ].
  rewrite <- insertSorted_perm. now constructor.
Qed.

Variable P : A -> Prop.
Hypothesis cmp_total : forall a b, P a -> P b -> cmp a b = Gt -> cmp b a <> Gt.
Hypothesis cmp_trans :
  forall a b c, P a -> P b -> P c -> cmp a b <> Gt -> cmp b c <> Gt -> cmp a c <> Gt.

Lemma insertSorted_sorted (x : A) (l : list A) :
  P x -> Forall P l -> StronglySorted notAfter l ->
  StronglySorted notAfter (insertSorted cmp x l).
Proof.
  intros Hx. induction l as [ | y l IH ]; intros HP Hsorted; cbn.
  - repeat constructor.
  - apply StronglySorted_inv in Hsorted. destruct Hsorted as [Hl Hy].
    inversion HP as [ | ? ? HPy HPl ]; subst.
    assert (Hhead : cmp x y <> Gt -> StronglySorted notAfter (x :: y :: l)).
    { intros Hxy. constructor; [ now constructor | ].
      constructor; [ exact Hxy | ].
      rewrite Forall_forall in Hy, HPl |- *. intros z Hz.
      apply (cmp_trans x y z);
        [ exact Hx | exact HPy | now apply HPl | exact Hxy | now apply Hy ]. }
    destruct (cmp x y) eqn:Hxy; try (apply Hhead; congruence).
    constructor; [ now apply IH | ].
    apply (Permutation_Forall (insertSorted_perm x l)).
    constructor; [ | exact Hy ]. now apply cmp_total.
Qed.

Lemma sort_sorted (l : list A) : Forall P l -> StronglySorted notAfter (sort cmp l).
Proof.
  induction l as [ | x l IH ]; intros HP; cbn; [ constructor | ].
  inversion HP; subst. apply insertSorted_sorted; auto.
  now apply (Permutation_Forall (sort_perm l)).
Qed.

End SortFacts.

Lemma string_compare_trans (a b c : string) :
  String.compare a b <> Gt -> String.compare b c <> Gt -> String.compare a c <> Gt.
Proof.
  revert b c. induction a as [ | x a IH ]; intros [ | y b ] [ | z c ]; cbn; try congruence.
  unfold Ascii.compare.
  destruct (N.compare_spec (N_of_ascii x) (N_of_ascii y)) as [Hxy | Hxy | Hxy];
    destruct (N.compare_spec (N_of_ascii y) (N_of_ascii z)) as [Hyz | Hyz | Hyz];
    destruct (N.compare_spec (N_of_ascii x) (N_of_ascii z)) as [Hxz | Hxz | Hxz];
    intros; try congruence; try lia; eauto.
Qed.

Lemma string_compare_total (a b : string) :
  String.compare a b = Gt -> String.compare b a <> Gt.
Proof. rewrite (String.compare_antisym b a). intros ->. discriminate. Qed.

Lemma StronglySorted_weaken {A : Type} (R R' : A -> A -> Prop) (P : A -> Prop) (l : list A) :
  (forall a b, P a -> P b -> R a b -> R' a b) ->
  Forall P l -> StronglySorted R l -> StronglySorted R' l.
Proof.
  intros HR HP Hsorted. induction Hsorted as [ | a l Hl IH Ha ]; [ constructor | ].
  inversion HP as [ | ? ? HPa HPl ]; subst.
  constructor; [ now apply IH | ].
  rewrite Forall_forall in Ha, HPl |- *. intros b Hb. apply HR; auto.
Qed.

(** ** Grouping *)

Import BucketSpec.

Lemma lookup_assign (key k : string) (v : float) (g : list (string * float)) :
  lookup key (assign k v g) = if (k =? key)%string then Some v else lookup key g.
Proof.
  induction g as [ | [k0 v0] g IH ]; cbn; [ reflexivity | ].
  destruct (String.eqb_spec k0 k) as [ -> | Hne ]; cbn.
  - destruct (k =? key)%string; reflexivity.
  - rewrite IH. destruct (String.eqb_spec k0 key) as [ -> | ]; [ | reflexivity ].
    destruct (String.eqb_spec k key); [ congruence | reflexivity ].
Qed.

Lemma In_assign (key k : string) (v : float) (g : list (string * float)) :
  In key (map fst (assign k v g)) <-> key = k \/ In key (map fst g).
Proof.
  induction g as [ | [k0 v0] g IH ]; cbn; [ intuition congruence | ].
  destruct (String.eqb_spec k0 k) as [ -> | Hne ]; cbn; [ intuition congruence | ].
  rewrite IH. intuition congruence.
Qed.

Lemma NoDup_assign (k : string) (v : float) (g : list (string * float)) :
  NoDup (map fst g) -> NoDup (map fst (assign k v g)).
Proof.
  induction g as [ | [k0 v0] g IH ]; cbn; intros H.
  - constructor; [ intros [] | constructor ].
  - inversion H as [ | ? ? Hnotin Hrest ]; subst.
    destruct (String.eqb_spec k0 k) as [ -> | Hne ]; cbn; [ now constructor | ].
    constructor; [ | now apply IH ].
    rewrite In_assign. intuition congruence.
Qed.

Lemma lookup_In (k : string) (v : float) (g : list (string * float)) :
  NoDup (map fst g) -> In (k, v) g -> lookup k g = Some v.
Proof.
  induction g as [ | [k0 v0] g IH ]; cbn; intros Hnodup Hin; [ contradiction | ].
  inversion Hnodup as [ | ? ? Hnotin Hrest ]; subst.
  destruct Hin as [ [= -> ->] | Hin ].
  - now rewrite String.eqb_refl.
  - destruct (String.eqb_spec k0 k) as [ -> | ]; [ | now apply IH ].
    exfalso. apply Hnotin. apply (in_map fst) in Hin. exact Hin.
Qed.

Lemma lookup_Some_In (k : string) (v : float) (g : list (string * float)) :
  lookup k g = Some v -> In k (map fst g).
Proof.
  induction g as [ | [k0 v0] g IH ]; cbn; [ discriminate | ].
  destruct (String.eqb_spec k0 k) as [ -> | ]; [ now left | ].
  intros H. right. now apply IH.
Qed.

(** An assignment of [accumulate] stores what [addTo] makes of the sum. *)
Lemma accumulate_assign (k : string) (v : float) (g : list (string * float)) :
  exists v', addTo (lookup k g) v = Some v' /\ accumulate k v g = assign k v' g.
Proof.
  unfold accumulate, addTo. destruct (lookup k g) as [ s | ]; [ | eauto ].
  destruct (truthy s); eauto.
Qed.

Lemma lookup_accumulate (key k : string) (v : float) (g : list (string * float)) :
  lookup key (accumulate k v g)
  = if (k =? key)%string then addTo (lookup key g) v else lookup key g.
Proof.
  destruct (accumulate_assign k v g) as [v' [Hv' ->]]. rewrite lookup_assign.
  destruct (String.eqb_spec k key) as [ -> | ]; [ now rewrite Hv' | reflexivity ].
Qed.

Lemma observationsOf_cons (h : Host) (p : TimePeriod) (key : string)
    (e : string * list CategoryTotal) (rest : SalesData) :
  observationsOf h p key (e :: rest)
  = match periodKeyOf h p (fst e) with
    | Some k =>
        if (k =? key)%string then periodTotalOf (snd e) :: observationsOf h p key rest
        else observationsOf h p key rest
    | None => observationsOf h p key rest
    end.
Proof.
  unfold observationsOf. cbn [filter].
  destruct (periodKeyOf h p (fst e)) as [ k | ]; [ | reflexivity ].
  destruct (k =? key)%string; reflexivity.
Qed.

(** What [groupDataByPeriod] has gathered when it returns. *)
Lemma groupFrom_spec (h : Host) (p : TimePeriod) (entries : SalesData) :
  forall acc g,
    groupFrom h p entries acc = Some g ->
    (forall key,
        lookup key g = fold_left addTo (observationsOf h p key entries) (lookup key acc))
    /\ (NoDup (map fst acc) -> NoDup (map fst g))
    /\ (forall k, In k (map fst g) ->
                  In k (map fst acc)
                  \/ exists e, In e entries /\ periodKeyOf h p (fst e) = Some k)
    /\ (forall k, In k (map fst acc) -> In k (map fst g))
    /\ (forall e, In e entries ->
                  exists k, periodKeyOf h p (fst e) = Some k /\ In k (map fst g)).
Proof.
  induction entries as [ | [dateStr categories] rest IH ]; intros acc g; cbn [groupFrom].
  - intros [= <-]. repeat split; auto. intros e [].
  - destruct (periodKeyOf h p dateStr) as [ k | ] eqn:Hkey; [ | discriminate ].
    intros Hg. destruct (IH _ _ Hg) as [Hlookup [Hnodup [Hfrom [Hkeep Hall]]]].
    destruct (accumulate_assign k (periodTotalOf categories) acc) as [v' [_ Hassign]].
    split; [ | split; [ | split; [ | split ] ] ].
    + intros key. rewrite Hlookup, observationsOf_cons, lookup_accumulate.
      cbn [fst snd]. rewrite Hkey. destruct (k =? key)%string; reflexivity.
    + intros Hacc. apply Hnodup. rewrite Hassign. now apply NoDup_assign.
    + intros k0 Hk0. destruct (Hfrom k0 Hk0) as [Hin | [e [He Hek]]].
      * rewrite Hassign, In_assign in Hin. destruct Hin as [ -> | Hin ]; [ | now left ].
        right. exists (dateStr, categories). split; [ now left | exact Hkey ].
      * right. exists e. split; [ now right | exact Hek ].
    + intros k0 Hk0. apply Hkeep. rewrite Hassign, In_assign. now right.
    + intros e [ <- | He ]; [ | now apply Hall ].
      exists k. split; [ exact Hkey | ]. apply Hkeep. rewrite Hassign, In_assign. now left.
Qed.

Lemma groupFrom_none (h : Host) (p : TimePeriod) (entries : SalesData) :
  forall acc,
    groupFrom h p entries acc = None ->
    exists e, In e entries /\ periodKeyOf h p (fst e) = None.
Proof.
  induction entries as [ | [dateStr categories] rest IH ]; intros acc; cbn [groupFrom];
    [ discriminate | ].
  destruct (periodKeyOf h p dateStr) as [ k | ] eqn:Hkey.
  - intros H. destruct (IH _ H) as [e [He Hnone]]. exists e. split; [ now right | exact Hnone ].
  - intros _. exists (dateStr, categories). split; [ now left | exact Hkey ].
Qed.

(** ** The period bucketer *)

Lemma TimeClip_Some (t u : Z) : TimeClip t = Some u -> u = t /\ TimeClip u = Some u.
Proof.
  unfold TimeClip. destruct (8640000000000000 <? Z.abs t) eqn:E; [ discriminate | ].
  intros [= <-]. now rewrite E.
Qed.

Lemma parseDate_clipped (s : string) (t : Z) : parseDate s = Some t -> TimeClip t = Some t.
Proof.
  unfold parseDate.
  repeat match goal with
         | |- context [ match ?x with _ => _ end ] => destruct x; try discriminate
         end.
  intros H. now apply TimeClip_Some in H.
Qed.

Lemma setDate_clipped (h : Host) (t dt u : Z) :
  setDate h t dt = Some u -> TimeClip u = Some u.
Proof. unfold setDate. intros H. apply TimeClip_Some in H. exact (proj2 H). Qed.

(** The key of a day or of a week is the ISO date of a valid time value. *)
Lemma periodKeyOf_is_date (h : Host) (p : TimePeriod) (dateStr key : string) :
  p <> month -> periodKeyOf h p dateStr = Some key ->
  exists t, TimeClip t = Some t /\ key = toISODate t.
Proof.
  intros Hp. destruct p; [ | | contradiction ].
  - unfold periodKeyOf.
    destruct (parseDate dateStr) as [ t | ] eqn:Hparse; [ | discriminate ].
    intros Hkey. exists t. split; [ exact (parseDate_clipped _ _ Hparse) | ].
    injection Hkey as Hkey. symmetry. exact Hkey.
  - unfold periodKeyOf.
    destruct (parseDate dateStr) as [ t | ]; [ | discriminate ].
    destruct (setDate h t (DateFromTime (LocalTime h t) - WeekDay (LocalTime h t)))
      as [ weekStart | ] eqn:Hset; [ | discriminate ].
    intros Hkey. exists weekStart. split; [ exact (setDate_clipped _ _ _ _ Hset) | ].
    injection Hkey as Hkey. symmetry. exact Hkey.
Qed.

Lemma compareTimes_total (a b : string) :
  compareTimes a b = Gt -> compareTimes b a <> Gt.
Proof.
  unfold compareTimes. destruct (parseDate a), (parseDate b); try discriminate.
  rewrite Z.compare_gt_iff. intros H. rewrite Z.compare_gt_iff. lia.
Qed.

Lemma compareTimes_trans (a b c : string) :
  parseDate a <> None -> parseDate b <> None -> parseDate c <> None ->
  compareTimes a b <> Gt -> compareTimes b c <> Gt -> compareTimes a c <> Gt.
Proof.
  unfold compareTimes.
  destruct (parseDate a), (parseDate b), (parseDate c); try congruence. intros _ _ _.
  rewrite !Z.compare_gt_iff. lia.
Qed.

Lemma TimePeriod_eq_month (p : TimePeriod) : p = month \/ p <> month.
Proof. destruct p; [ right | right | left ]; congruence. Qed.


(** Two sales of 10.126 and 0.001 in a month: the sum of the bucket is
    10.127, the series reports 10.13. *)
Lemma monthly_total_is_rounded :
  let data : SalesData := [ ("2024-01-01", sales 10.126); ("2024-01-02", sales 0.001) ] in
  prepareTimeSeriesData utc data month = Some [ {| period := "2024-01"; total := 10.13 |} ]
  /\ addUp (observationsOf utc month "2024-01" data) = Some (10.126 + 0.001)%float
  /\ (10.13 =? 10.126 + 0.001)%float = false.
Proof. cbv zeta. repeat split; vm_compute; reflexivity. Qed.

(** The scenario of the specification: sales on Monday 2024-01-01, Tuesday
    2024-01-02 and Monday 2024-01-08, bucketed by week on a host in UTC. *)
Lemma weekly_buckets_in_utc :
  prepareTimeSeriesData utc
    [ ("2024-01-01", sales 100); ("2024-01-02", sales 150); ("2024-01-08", sales 200) ] week
  = Some [ {| period := "2023-12-31"; total := 250 |};
           {| period := "2024-01-07"; total := 200 |} ].
Proof. vm_compute. reflexivity. Qed.


(** *** The order of month keys *)

Lemma compare_digitChar (a b : Z) :
  0 <= a <= 9 -> 0 <= b <= 9 ->
  Ascii.compare (Bytes.digitChar a) (Bytes.digitChar b) = Z.compare a b.
Proof.
  intros Ha Hb.
  assert (H : a = 0 \/ a = 1 \/ a = 2 \/ a = 3 \/ a = 4 \/ a = 5 \/ a = 6 \/ a = 7
              \/ a = 8 \/ a = 9) by lia.
  assert (H' : b = 0 \/ b = 1 \/ b = 2 \/ b = 3 \/ b = 4 \/ b = 5 \/ b = 6 \/ b = 7
               \/ b = 8 \/ b = 9) by lia.
  repeat (destruct H as [-> | H]);
    repeat (destruct H' as [-> | H']); subst; reflexivity.
Qed.

(** Numbers written with the same number of digits compare as their
    digits do. *)
Lemma compare_fixedDigits (width : nat) :
  forall (n1 n2 : Z) (acc1 acc2 : string),
    0 <= n1 < 10 ^ Z.of_nat width -> 0 <= n2 < 10 ^ Z.of_nat width ->
    String.compare (Bytes.fixedDigits width n1 acc1) (Bytes.fixedDigits width n2 acc2)
    = match Z.compare n1 n2 with
      | Eq => String.compare acc1 acc2
      | c => c
      end.
Proof.
  induction width as [ | width IH ]; intros n1 n2 acc1 acc2 H1 H2.
  - cbn in H1, H2. replace n1 with 0 by lia. replace n2 with 0 by lia. reflexivity.
  - rewrite Nat2Z.inj_succ, Z.pow_succ_r in H1, H2 by lia.
    cbn [Bytes.fixedDigits].
    rewrite IH by (split; [ apply Z.div_pos | apply Z.div_lt_upper_bound ]; lia).
    cbn [String.compare].
    pose proof (Z.mod_pos_bound n1 10 ltac:(lia)).
    pose proof (Z.mod_pos_bound n2 10 ltac:(lia)).
    rewrite compare_digitChar by lia.
    pose proof (Z.div_mod n1 10 ltac:(lia)). pose proof (Z.div_mod n2 10 ltac:(lia)).
    destruct (Z.compare_spec (n1 / 10) (n2 / 10));
      destruct (Z.compare_spec (n1 mod 10) (n2 mod 10));
      destruct (Z.compare_spec n1 n2); try reflexivity; lia.
Qed.

Lemma itoa_digits_checked :
  forallDyadic 14
    (fun y =>
       if (1000 <=? y) && (y <=? 9999)
       then (Bytes.itoa y =? Bytes.fixedDigits 4 y EmptyString)%string
       else true) 0
  && forallDyadic 4
       (fun m =>
          if (1 <=? m) && (m <=? 12)
          then (pad 2 (Bytes.itoa m) =? Bytes.fixedDigits 2 m EmptyString)%string
          else true) 0 = true.
Proof. vm_cast_no_check (eq_refl true). Qed.

Lemma string_app_assoc (a b c : string) : (a ++ b) ++ c = a ++ (b ++ c).
Proof. induction a as [ | x a IH ]; cbn; [ reflexivity | now rewrite IH ]. Qed.

Lemma fixedDigits_app (width : nat) :
  forall (n : Z) (acc : string),
    Bytes.fixedDigits width n acc = Bytes.fixedDigits width n EmptyString ++ acc.
Proof.
  induction width as [ | width IH ]; intros n acc; cbn [Bytes.fixedDigits]; [ reflexivity | ].
  rewrite IH, (IH _ (String _ EmptyString)).
  rewrite string_app_assoc. reflexivity.
Qed.

(** The key of a month, as [groupDataByPeriod] writes it. *)
Lemma monthKey_digits (y m : Z) :
  1000 <= y <= 9999 -> 1 <= m <= 12 ->
  Bytes.itoa y ++ "-" ++ pad 2 (Bytes.itoa m)
  = Bytes.fixedDigits 4 y (String "-" (Bytes.fixedDigits 2 m EmptyString)).
Proof.
  intros Hy Hm. pose proof itoa_digits_checked as H.
  apply andb_prop in H. destruct H as [Hyears Hmonths].
  pose proof (forallDyadic_spec _ _ _ Hyears y) as Hyk. cbv beta in Hyk.
  pose proof (forallDyadic_spec _ _ _ Hmonths m) as Hmk. cbv beta in Hmk.
  change (2 ^ Z.of_nat 14) with 16384 in Hyk. change (2 ^ Z.of_nat 4) with 16 in Hmk.
  specialize (Hyk ltac:(lia)). specialize (Hmk ltac:(lia)).
  replace ((1000 <=? y) && (y <=? 9999)) with true in Hyk
    by (symmetry; apply andb_true_intro; split; apply Z.leb_le; lia).
  replace ((1 <=? m) && (m <=? 12)) with true in Hmk
    by (symmetry; apply andb_true_intro; split; apply Z.leb_le; lia).
  apply String.eqb_eq in Hyk, Hmk. rewrite Hyk, Hmk.
  rewrite (fixedDigits_app 4 y (String _ _)). reflexivity.
Qed.

(** For years of four digits the order of the bytes of month keys is the
    order of the months; a year of three digits comes after them. *)
Lemma month_keys_chronological (y1 m1 y2 m2 : Z) :
  1000 <= y1 <= 9999 -> 1 <= m1 <= 12 -> 1000 <= y2 <= 9999 -> 1 <= m2 <= 12 ->
  localeCompare (Bytes.itoa y1 ++ "-" ++ pad 2 (Bytes.itoa m1))
    (Bytes.itoa y2 ++ "-" ++ pad 2 (Bytes.itoa m2))
  = Z.compare (12 * y1 + m1) (12 * y2 + m2).
Proof.
  intros Hy1 Hm1 Hy2 Hm2. unfold localeCompare.
  rewrite !monthKey_digits by assumption.
  rewrite compare_fixedDigits by (change (10 ^ Z.of_nat 4) with 10000; lia).
  cbn [String.compare].
  change (Ascii.compare "-" "-") with Eq. cbv iota.
  rewrite compare_fixedDigits by (change (10 ^ Z.of_nat 2) with 100; lia).
  cbn [String.compare].
  destruct (Z.compare_spec y1 y2); destruct (Z.compare_spec m1 m2);
    destruct (Z.compare_spec (12 * y1 + m1) (12 * y2 + m2)); try reflexivity; lia.
Qed.

Lemma month_key_of_year_999 :
  prepareTimeSeriesData utc
    [ ("0999-12-31", sales 1); ("1000-01-01", sales 2) ] month
  = Some [ {| period := "1000-01"; total := 2 |}; {| period := "999-12"; total := 1 |} ].
Proof. vm_compute. reflexivity. Qed.

Lemma month_keys_chronological_witness :
  localeCompare (Bytes.itoa 2023 ++ "-" ++ pad 2 (Bytes.itoa 12))
    (Bytes.itoa 2024 ++ "-" ++ pad 2 (Bytes.itoa 1))
  = Z.compare (12 * 2023 + 12) (12 * 2024 + 1).
Proof. apply month_keys_chronological; lia. Defined.

(** *** Keys of days *)

Lemma parseDate_toISODate_witness :
  parseDate (toISODate 1704067200000) = Some (Day 1704067200000 * msPerDay).
Proof. apply parseDate_toISODate. reflexivity. Defined.

Lemma Day_of_midnight (n : Z) : Day (n * msPerDay) = n.
Proof. unfold Day, msPerDay. apply Z.div_mul. lia. Qed.

(** The key of a day is its own key: bucketing by day the dates of a series
    that was bucketed by day leaves the keys as they are. *)
Lemma day_key_is_stable (h : Host) (dateStr key : string) :
  periodKeyOf h day dateStr = Some key -> periodKeyOf h day key = Some key.
Proof.
  intros Hkey.
  destruct (periodKeyOf_is_date h day dateStr key ltac:(discriminate) Hkey) as [t [Hclip ->]].
  unfold periodKeyOf. rewrite (parseDate_toISODate t Hclip). f_equal.
  unfold toISODate. now rewrite Day_of_midnight.
Qed.

Lemma day_key_is_stable_witness :
  periodKeyOf utc day "2024-02-29" = Some "2024-02-29".
Proof. apply (day_key_is_stable utc "2024-02-29"). reflexivity. Defined.

Import Calendar GoTime Forecast Spec DateSpec.

(** ** Calendar arithmetic *)

Lemma civil_of (t : Z) :
  exists y m d, civilFromDays t = (y, m, d) /\ 1 <= m <= 12 /\ 1 <= d <= daysIn m y
                /\ daysFromCivil y m d = t.
Proof.
  pose proof (civilFromDays_valid t) as H.
  destruct (civilFromDays t) as [[y m] d]. exists y, m, d. intuition.
Qed.

Lemma Date_in_year (y m d : Z) : 1 <= m <= 12 -> Date y m d = daysFromCivil y m d.
Proof.
  intros Hm. unfold Date. cbv zeta.
  replace ((m - 1) / 12) with 0 by (symmetry; apply Z.div_small; lia).
  replace ((m - 1) mod 12) with (m - 1) by (symmetry; apply Z.mod_small; lia).
  rewrite (daysFromCivil_day y m d).
  replace (y + 0) with y by lia. replace (m - 1 + 1) with m by lia. lia.
Qed.

Lemma AddDate_days (t : Time) (k : Z) : AddDate t 0 0 k = t + k.
Proof.
  destruct (civil_of t) as (y & m & d & E & Hm & Hd & Ht).
  unfold AddDate. rewrite E.
  replace (y + 0) with y by lia. replace (m + 0) with m by lia.
  rewrite Date_in_year by exact Hm.
  rewrite daysFromCivil_day. rewrite daysFromCivil_day in Ht. lia.
Qed.

Lemma daysFromCivil_prev_year (y m d : Z) :
  1 <= m <= 12 ->
  365 <= daysFromCivil y m d - daysFromCivil (y - 1) m d <= 366.
Proof.
  intros Hm. unfold daysFromCivil. cbv zeta.
  destruct (m <=? 2); Z.div_mod_to_equations; lia.
Qed.

Lemma AddDate_year_back (t : Z) : t - 366 <= AddDate t 0 (-12) 0 <= t - 365.
Proof.
  destruct (civil_of t) as (y & m & d & E & Hm & Hd & Ht).
  unfold AddDate. rewrite E. unfold Date. cbv zeta.
  replace ((m + -12 - 1) / 12) with (-1) by (Z.div_mod_to_equations; lia).
  replace ((m + -12 - 1) mod 12) with (m - 1) by (Z.div_mod_to_equations; lia).
  replace (y + 0 + -1) with (y - 1) by lia. replace (m - 1 + 1) with m by lia.
  replace (d + 0 - 1) with (d - 1) by lia.
  pose proof (daysFromCivil_prev_year y m d Hm) as H.
  rewrite (daysFromCivil_day y m d) in Ht.
  rewrite (daysFromCivil_day y m d), (daysFromCivil_day (y - 1) m d) in H. lia.
Qed.

Ltac split_bools :=
  repeat match goal with
         | |- context [(?a =? ?b)] => destruct (Z.eqb_spec a b)
         | |- context [(?a <=? ?b)] => destruct (Z.leb_spec a b)
         | |- context [(?a <? ?b)] => destruct (Z.ltb_spec a b)
         end; cbn [andb orb negb].

Lemma daysIn_bounds (m y : Z) : 28 <= daysIn m y <= 31.
Proof.
  unfold daysIn. destruct (m =? 2); [destruct (isLeap y); lia|].
  destruct ((m =? 4) || (m =? 6) || (m =? 9) || (m =? 11)); lia.
Qed.

(** The first day of the next month follows the last day of a month. *)
Lemma daysFromCivil_next_month (y m : Z) :
  1 <= m <= 11 -> daysFromCivil y (m + 1) 1 = daysFromCivil y m (daysIn m y) + 1.
Proof.
  intros Hm.
  assert (m = 1 \/ m = 2 \/ m = 3 \/ m = 4 \/ m = 5 \/ m = 6 \/ m = 7 \/ m = 8 \/ m = 9
          \/ m = 10 \/ m = 11) as Hcases by lia.
  unfold daysFromCivil, daysIn, isLeap. cbv zeta.
  repeat (destruct Hcases as [-> | Hcases]); try subst m.
  all: split_bools; try lia; Z.div_mod_to_equations; lia.
Qed.

Lemma daysFromCivil_next_year (y : Z) :
  daysFromCivil (y + 1) 1 1 = daysFromCivil y 12 31 + 1.
Proof.
  unfold daysFromCivil. cbv zeta. split_bools; try lia. Z.div_mod_to_equations; lia.
Qed.

Lemma daysFromCivil_year_mono (y y' : Z) :
  y <= y' -> daysFromCivil y 1 1 + 365 * (y' - y) <= daysFromCivil y' 1 1.
Proof.
  intros H. unfold daysFromCivil. cbv zeta. split_bools; try lia. Z.div_mod_to_equations; lia.
Qed.

Lemma daysFromCivil_month_step (y m : Z) :
  1 <= m <= 11 -> daysFromCivil y m 1 + daysIn m y = daysFromCivil y (m + 1) 1.
Proof.
  intros Hm. rewrite daysFromCivil_next_month by exact Hm.
  rewrite (daysFromCivil_day y m (daysIn m y)). lia.
Qed.

Lemma daysFromCivil_month_mono (y m k : Z) :
  0 <= k -> 1 <= m -> m + k <= 12 ->
  daysFromCivil y m 1 + 28 * k <= daysFromCivil y (m + k) 1.
Proof.
  intros Hk. revert m. pattern k. apply natlike_ind; [| |exact Hk].
  - intros m _ _. replace (m + 0) with m by lia. lia.
  - intros x Hx IH m Hm Hmk.
    specialize (IH (m + 1) ltac:(lia) ltac:(lia)).
    replace (m + Z.succ x) with (m + 1 + x) by lia.
    pose proof (daysFromCivil_month_step y m ltac:(lia)).
    pose proof (daysIn_bounds m y). lia.
Qed.

Lemma daysFromCivil_in_year (y m d : Z) :
  validDate y m d ->
  daysFromCivil y 1 1 <= daysFromCivil y m d <= daysFromCivil y 12 31.
Proof.
  intros [Hm Hd]. rewrite (daysFromCivil_day y m d), (daysFromCivil_day y 12 31).
  pose proof (daysFromCivil_month_mono y 1 (m - 1) ltac:(lia) ltac:(lia) ltac:(lia)) as H1.
  replace (1 + (m - 1)) with m in H1 by lia.
  split; [lia|].
  destruct (Z.eq_dec m 12) as [-> | Hne].
  - change (daysIn 12 y) with 31 in Hd. lia.
  - pose proof (daysFromCivil_month_step y m ltac:(lia)) as H2.
    pose proof (daysFromCivil_month_mono y (m + 1) (12 - (m + 1)) ltac:(lia) ltac:(lia) ltac:(lia)) as H3.
    replace (m + 1 + (12 - (m + 1))) with 12 in H3 by lia. lia.
Qed.

Lemma daysFromCivil_lex (y m d y' m' d' : Z) :
  validDate y m d -> validDate y' m' d' ->
  y < y' \/ (y = y' /\ (m < m' \/ (m = m' /\ d < d'))) ->
  daysFromCivil y m d < daysFromCivil y' m' d'.
Proof.
  intros V V' [Hy | [-> [Hm | [-> Hd]]]].
  - pose proof (daysFromCivil_in_year y m d V) as [_ H1].
    pose proof (daysFromCivil_in_year y' m' d' V') as [H2 _].
    pose proof (daysFromCivil_next_year y) as H3.
    pose proof (daysFromCivil_year_mono (y + 1) y' ltac:(lia)) as H4. lia.
  - destruct V as [Vm Vd], V' as [Vm' Vd'].
    rewrite (daysFromCivil_day y' m d), (daysFromCivil_day y' m' d').
    pose proof (daysFromCivil_month_step y' m ltac:(lia)) as H1.
    pose proof (daysFromCivil_month_mono y' (m + 1) (m' - (m + 1)) ltac:(lia) ltac:(lia) ltac:(lia)) as H2.
    replace (m + 1 + (m' - (m + 1))) with m' in H2 by lia. lia.
  - rewrite (daysFromCivil_day y' m' d), (daysFromCivil_day y' m' d'). lia.
Qed.

Lemma daysFromCivil_inj (y m d y' m' d' : Z) :
  validDate y m d -> validDate y' m' d' ->
  daysFromCivil y m d = daysFromCivil y' m' d' -> y = y' /\ m = m' /\ d = d'.
Proof.
  intros V V' E.
  destruct (Z.lt_trichotomy y y') as [H | [H | H]].
  - pose proof (daysFromCivil_lex _ _ _ _ _ _ V V' (or_introl H)). lia.
  - subst y'. destruct (Z.lt_trichotomy m m') as [Hm | [Hm | Hm]].
    + pose proof (daysFromCivil_lex _ _ _ _ _ _ V V' (or_intror (conj eq_refl (or_introl Hm)))). lia.
    + subst m'. rewrite (daysFromCivil_day y m d), (daysFromCivil_day y m d') in E.
      repeat split; lia.
    + pose proof (daysFromCivil_lex _ _ _ _ _ _ V' V (or_intror (conj eq_refl (or_introl Hm)))). lia.
  - pose proof (daysFromCivil_lex _ _ _ _ _ _ V' V (or_introl H)). lia.
Qed.

Lemma civilFromDays_daysFromCivil (y m d : Z) :
  validDate y m d -> civilFromDays (daysFromCivil y m d) = (y, m, d).
Proof.
  intros V.
  pose proof (civilFromDays_valid (daysFromCivil y m d)) as H.
  destruct (civilFromDays (daysFromCivil y m d)) as [[y' m'] d'].
  destruct H as (Hm & Hd & E & _).
  destruct (daysFromCivil_inj y' m' d' y m d (conj Hm Hd) V E) as (-> & -> & ->).
  reflexivity.
Qed.

Import Calendar GoTime Forecast Spec Check DateSpec.

(** ** What [Format] prints and what [Parse] reads *)

Lemma appendInt_checked :
  forallDyadic 14
    (fun y =>
       if y <=? 9999 then (appendInt y 4 =? Bytes.fixedDigits 4 y EmptyString)%string
       else true) 0
  && forallDyadic 7
       (fun n =>
          if n <=? 99 then (appendInt n 2 =? Bytes.fixedDigits 2 n EmptyString)%string
          else true) 0 = true.
Proof. vm_cast_no_check (eq_refl true). Qed.

Lemma appendInt_year (y : Z) :
  0 <= y <= 9999 -> appendInt y 4 = Bytes.fixedDigits 4 y EmptyString.
Proof.
  intros Hy. pose proof appendInt_checked as H. apply andb_prop in H. destruct H as [H _].
  pose proof (forallDyadic_spec _ _ _ H y) as Hk. cbv beta in Hk.
  change (2 ^ Z.of_nat 14) with 16384 in Hk. specialize (Hk ltac:(lia)).
  replace (y <=? 9999) with true in Hk by (symmetry; apply Z.leb_le; lia).
  now apply String.eqb_eq in Hk.
Qed.

Lemma appendInt_two (n : Z) :
  0 <= n <= 99 -> appendInt n 2 = Bytes.fixedDigits 2 n EmptyString.
Proof.
  intros Hn. pose proof appendInt_checked as H. apply andb_prop in H. destruct H as [_ H].
  pose proof (forallDyadic_spec _ _ _ H n) as Hk. cbv beta in Hk.
  change (2 ^ Z.of_nat 7) with 128 in Hk. specialize (Hk ltac:(lia)).
  replace (n <=? 99) with true in Hk by (symmetry; apply Z.leb_le; lia).
  now apply String.eqb_eq in Hk.
Qed.

Lemma Format_day (y m d : Z) :
  validDate y m d -> 0 <= y <= 9999 ->
  Format LayoutDate (daysFromCivil y m d) = dayLabel y m d.
Proof.
  intros V Hy. unfold Format. rewrite civilFromDays_daysFromCivil by exact V.
  destruct V as [Hm Hd]. pose proof (daysIn_bounds m y).
  rewrite appendInt_year, !appendInt_two by lia. unfold dayLabel.
  rewrite (fixedDigits_app 4 y (String _ _)), (fixedDigits_app 2 m (String _ _)).
  cbn [Bytes.fixedDigits]. cbn [String.append]. 
  repeat (rewrite ?string_app_assoc; cbn [String.append]). reflexivity.
Qed.

Lemma Format_month (y m d : Z) :
  validDate y m d -> 0 <= y <= 9999 ->
  Format LayoutMonth (daysFromCivil y m d) = monthLabel y m.
Proof.
  intros V Hy. unfold Format. rewrite civilFromDays_daysFromCivil by exact V.
  destruct V as [Hm Hd].
  rewrite appendInt_year, !appendInt_two by lia. unfold monthLabel.
  rewrite (fixedDigits_app 4 y (String _ _)).
  cbn [Bytes.fixedDigits]. cbn [String.append].
  repeat (rewrite ?string_app_assoc; cbn [String.append]). reflexivity.
Qed.

Lemma Go_parseYear_digits (y : Z) (rest : string) :
  0 <= y <= 9999 ->
  GoTime.parseYear (Bytes.fixedDigits 4 y rest) = Some (y, rest).
Proof.
  intros Hy. cbn [Bytes.fixedDigits].
  set (d0 := y mod 10). set (d1 := y / 10 mod 10). set (d2 := y / 10 / 10 mod 10).
  set (d3 := y / 10 / 10 / 10 mod 10).
  assert (H0 : 0 <= d0 <= 9) by (subst d0; pose proof (Z.mod_pos_bound y 10); lia).
  assert (H1 : 0 <= d1 <= 9) by (subst d1; pose proof (Z.mod_pos_bound (y / 10) 10); lia).
  assert (H2 : 0 <= d2 <= 9)
    by (subst d2; pose proof (Z.mod_pos_bound (y / 10 / 10) 10); lia).
  assert (H3 : 0 <= d3 <= 9)
    by (subst d3; pose proof (Z.mod_pos_bound (y / 10 / 10 / 10) 10); lia).
  unfold GoTime.parseYear, Bytes.isDigit.
  cbn [String.length String.get].
  destruct (digitChar_digit d3 H3) as [Hdig _]. rewrite Hdig.
  cbn [Nat.ltb Nat.leb orb negb].
  unfold Bytes.take. cbn [substring Bytes.atoi Bytes.drop].
  rewrite !digitsFrom_digitChar by assumption.
  replace (substring 0 0 rest) with EmptyString by (destruct rest; reflexivity).
  cbn [Bytes.digitsFrom].
  do 2 f_equal. subst d0 d1 d2 d3. Z.div_mod_to_equations. lia.
Qed.

Lemma Parse_dayLabel (y m d : Z) :
  validDate y m d -> 0 <= y <= 9999 ->
  Parse LayoutDate (dayLabel y m d) = Some (daysFromCivil y m d).
Proof.
  intros [Hm Hd] Hy. pose proof (daysIn_bounds m y).
  unfold Parse, dayLabel. rewrite Go_parseYear_digits by exact Hy.
  cbn [Bytes.skipDash Ascii.eqb Bool.eqb]. unfold parseMonth.
  rewrite getnum2_fixedDigits by lia.
  replace ((m <=? 0) || (12 <? m)) with false
    by (symmetry; apply orb_false_iff; split; [apply Z.leb_gt | apply Z.ltb_ge]; lia).
  cbn [Bytes.skipDash Ascii.eqb Bool.eqb].
  rewrite getnum2_fixedDigits by lia.
  replace ((d <? 1) || (daysIn m y <? d)) with false
    by (symmetry; apply orb_false_iff; split; apply Z.ltb_ge; lia).
  now rewrite Date_in_year by exact Hm.
Qed.

Lemma Parse_monthLabel (y m : Z) :
  1 <= m <= 12 -> 0 <= y <= 9999 ->
  Parse LayoutMonth (monthLabel y m) = Some (daysFromCivil y m 1).
Proof.
  intros Hm Hy.
  unfold Parse, monthLabel. rewrite Go_parseYear_digits by exact Hy.
  cbn [Bytes.skipDash Ascii.eqb Bool.eqb]. unfold parseMonth.
  rewrite getnum2_fixedDigits by lia.
  replace ((m <=? 0) || (12 <? m)) with false
    by (symmetry; apply orb_false_iff; split; [apply Z.leb_gt | apply Z.ltb_ge]; lia).
  now rewrite Date_in_year by exact Hm.
Qed.

Lemma isDigitChar_inv (c : ascii) :
  Bytes.isDigitChar c = true ->
  0 <= Bytes.digitVal c <= 9 /\ c = Bytes.digitChar (Bytes.digitVal c).
Proof.
  unfold Bytes.isDigitChar, Bytes.digitVal, Bytes.digitChar. intros H.
  apply andb_prop in H. destruct H as [H1 H2].
  apply Nat.leb_le in H1, H2.
  pose proof (ascii_nat_embedding c) as Hc.
  remember (nat_of_ascii c) as n eqn:En. clear En.
  split; [lia|]. rewrite <- Hc at 1. f_equal. lia.
Qed.

Lemma getnum2_inv (s rest : string) (n : Z) :
  Bytes.getnum2 s = Some (n, rest) -> 0 <= n <= 99 /\ s = Bytes.fixedDigits 2 n rest.
Proof.
  unfold Bytes.getnum2. destruct s as [|a [|b s']]; try discriminate.
  destruct (Bytes.isDigitChar a) eqn:Ha; [|discriminate].
  destruct (Bytes.isDigitChar b) eqn:Hb; [|discriminate].
  unfold andb. intros E.
  assert (n = 10 * Bytes.digitVal a + Bytes.digitVal b /\ rest = s') as [-> ->]
    by (split; congruence).
  clear E.
  destruct (isDigitChar_inv a Ha) as [Ra Ea], (isDigitChar_inv b Hb) as [Rb Eb].
  split; [lia|]. unfold Bytes.fixedDigits.
  replace ((10 * Bytes.digitVal a + Bytes.digitVal b) mod 10) with (Bytes.digitVal b)
    by (Z.div_mod_to_equations; lia).
  replace ((10 * Bytes.digitVal a + Bytes.digitVal b) / 10 mod 10) with (Bytes.digitVal a)
    by (Z.div_mod_to_equations; lia).
  now rewrite <- Ea, <- Eb.
Qed.

Lemma skipDash_inv (s rest : string) :
  Bytes.skipDash s = Some rest -> s = String "-" rest.
Proof.
  destruct s as [|c s']; [discriminate|]. cbn [Bytes.skipDash].
  destruct (Ascii.eqb c "-") eqn:E; [|discriminate].
  apply Ascii.eqb_eq in E. subst c. now intros [= ->].
Qed.

Lemma Go_parseYear_inv (s rest : string) (y : Z) :
  GoTime.parseYear s = Some (y, rest) ->
  0 <= y <= 9999 /\ s = Bytes.fixedDigits 4 y rest.
Proof.
  unfold GoTime.parseYear.
  destruct s as [|a [|b [|c [|d s']]]]; try discriminate.
  cbn [String.length Nat.ltb Nat.leb orb]. unfold Bytes.isDigit. cbn [String.get].
  destruct (Bytes.isDigitChar a) eqn:Ha; [|discriminate]. cbn [negb].
  unfold Bytes.take. cbn [substring Bytes.drop].
  replace (substring 0 0 s') with EmptyString by (destruct s'; reflexivity).
  cbn [Bytes.atoi Bytes.digitsFrom]. rewrite Ha.
  destruct (Bytes.isDigitChar b) eqn:Hb; [|discriminate].
  destruct (Bytes.isDigitChar c) eqn:Hc; [|discriminate].
  destruct (Bytes.isDigitChar d) eqn:Hd; [|discriminate].
  intros E.
  assert (y = 10 * (10 * (10 * (10 * 0 + Bytes.digitVal a) + Bytes.digitVal b)
                      + Bytes.digitVal c) + Bytes.digitVal d /\ rest = s') as [-> ->]
    by (split; congruence).
  clear E.
  destruct (isDigitChar_inv a Ha) as [Ra Ea], (isDigitChar_inv b Hb) as [Rb Eb],
    (isDigitChar_inv c Hc) as [Rc Ec], (isDigitChar_inv d Hd) as [Rd Ed].
  split; [lia|]. cbn [Bytes.fixedDigits].
  set (v := 10 * (10 * (10 * (10 * 0 + Bytes.digitVal a) + Bytes.digitVal b)
                  + Bytes.digitVal c) + Bytes.digitVal d).
  replace (v mod 10) with (Bytes.digitVal d) by (subst v; Z.div_mod_to_equations; lia).
  replace (v / 10 mod 10) with (Bytes.digitVal c) by (subst v; Z.div_mod_to_equations; lia).
  replace (v / 10 / 10 mod 10) with (Bytes.digitVal b)
    by (subst v; Z.div_mod_to_equations; lia).
  replace (v / 10 / 10 / 10 mod 10) with (Bytes.digitVal a)
    by (subst v; Z.div_mod_to_equations; lia).
  now rewrite <- Ea, <- Eb, <- Ec, <- Ed.
Qed.

(** Every string that [Parse] accepts is the label of a day (or month) of
    the years 0..9999, and the result is that day. *)
Lemma Parse_date_inv (s : string) (t : Time) :
  Parse LayoutDate s = Some t ->
  exists y m d,
    validDate y m d /\ 0 <= y <= 9999 /\ s = dayLabel y m d /\ t = daysFromCivil y m d.
Proof.
  unfold Parse.
  destruct (GoTime.parseYear s) as [[y v1]|] eqn:Ey; [|discriminate].
  destruct (Bytes.skipDash v1) as [v2|] eqn:E1; [|discriminate].
  unfold parseMonth.
  destruct (Bytes.getnum2 v2) as [[m v3]|] eqn:Em; [|discriminate].
  destruct ((m <=? 0) || (12 <? m)) eqn:Hm; [discriminate|].
  destruct (Bytes.skipDash v3) as [v4|] eqn:E2; [|discriminate].
  destruct (Bytes.getnum2 v4) as [[d v5]|] eqn:Ed; [|discriminate].
  destruct v5; [|discriminate].
  destruct ((d <? 1) || (daysIn m y <? d)) eqn:Hd; [discriminate|].
  intros [= <-].
  apply orb_false_iff in Hm, Hd. destruct Hm as [Hm1 Hm2], Hd as [Hd1 Hd2].
  apply Z.leb_gt in Hm1. apply Z.ltb_ge in Hm2, Hd1, Hd2.
  apply Go_parseYear_inv in Ey. destruct Ey as [Hy ->].
  apply skipDash_inv in E1, E2. subst v1 v3.
  apply getnum2_inv in Em, Ed. destruct Em as [_ ->], Ed as [_ ->].
  exists y, m, d. repeat split; try lia.
  apply Date_in_year. lia.
Qed.

Lemma Parse_month_inv (s : string) (t : Time) :
  Parse LayoutMonth s = Some t ->
  exists y m,
    1 <= m <= 12 /\ 0 <= y <= 9999 /\ s = monthLabel y m /\ t = daysFromCivil y m 1.
Proof.
  unfold Parse.
  destruct (GoTime.parseYear s) as [[y v1]|] eqn:Ey; [|discriminate].
  destruct (Bytes.skipDash v1) as [v2|] eqn:E1; [|discriminate].
  unfold parseMonth.
  destruct (Bytes.getnum2 v2) as [[m v3]|] eqn:Em; [|discriminate].
  destruct ((m <=? 0) || (12 <? m)) eqn:Hm; [discriminate|].
  destruct v3; [|discriminate].
  intros [= <-].
  apply orb_false_iff in Hm. destruct Hm as [Hm1 Hm2].
  apply Z.leb_gt in Hm1. apply Z.ltb_ge in Hm2.
  apply Go_parseYear_inv in Ey. destruct Ey as [Hy ->].
  apply skipDash_inv in E1. subst v1.
  apply getnum2_inv in Em. destruct Em as [_ ->].
  exists y, m. repeat split; try lia.
  apply Date_in_year. lia.
Qed.

Lemma validDate_first (y m : Z) : 1 <= m <= 12 -> validDate y m 1.
Proof. intros Hm. split; [exact Hm|]. pose proof (daysIn_bounds m y). lia. Qed.

(** [Format] prints back what [Parse] read. *)
Lemma Format_Parse_date (s : string) (t : Time) :
  Parse LayoutDate s = Some t -> Format LayoutDate t = s.
Proof.
  intros H. destruct (Parse_date_inv s t H) as (y & m & d & V & Hy & -> & ->).
  now apply Format_day.
Qed.

Lemma Format_Parse_month (s : string) (t : Time) :
  Parse LayoutMonth s = Some t -> Format LayoutMonth t = s.
Proof.
  intros H. destruct (Parse_month_inv s t H) as (y & m & Hm & Hy & -> & ->).
  apply Format_month; [now apply validDate_first | exact Hy].
Qed.

Lemma civil_in_range (t : Time) :
  firstDay <= t <= lastDay ->
  exists y m d, validDate y m d /\ 0 <= y <= 9999 /\ t = daysFromCivil y m d.
Proof.
  intros Ht. destruct (civil_of t) as (y & m & d & E & Hm & Hd & Hnum).
  exists y, m, d. split; [split; assumption|]. split; [|now symmetry].
  assert (V : validDate y m d) by (split; assumption).
  pose proof (daysFromCivil_in_year y m d V) as [Hlo Hhi].
  split.
  - destruct (Z_lt_ge_dec y 0) as [Hneg|]; [|lia].
    pose proof (daysFromCivil_next_year y).
    pose proof (daysFromCivil_year_mono (y + 1) 0 ltac:(lia)).
    unfold firstDay in Ht. lia.
  - destruct (Z_lt_ge_dec 9999 y) as [Hbig|]; [|lia].
    pose proof (daysFromCivil_next_year 9999).
    pose proof (daysFromCivil_year_mono (9999 + 1) y ltac:(lia)).
    unfold lastDay in Ht. lia.
Qed.

Lemma Parse_in_range (l : Layout) (s : string) (t : Time) :
  Parse l s = Some t -> firstDay <= t <= lastDay.
Proof.
  intros H.
  assert (exists y m d, validDate y m d /\ 0 <= y <= 9999 /\ t = daysFromCivil y m d)
    as (y & m & d & V & Hy & ->).
  { destruct l.
    - destruct (Parse_date_inv s t H) as (y & m & d & V & Hy & _ & ->). now exists y, m, d.
    - destruct (Parse_month_inv s t H) as (y & m & Hm & Hy & _ & ->).
      exists y, m, 1. split; [now apply validDate_first|]. now split. }
  pose proof (daysFromCivil_in_year y m d V) as [Hlo Hhi].
  pose proof (daysFromCivil_year_mono 0 y ltac:(lia)).
  destruct (Z.eq_dec y 9999) as [-> | Hne]; [unfold firstDay, lastDay; lia|].
  pose proof (daysFromCivil_next_year y).
  pose proof (daysFromCivil_year_mono (y + 1) 9999 ltac:(lia)).
  pose proof (daysFromCivil_in_year 9999 12 31 ltac:(split; [lia | vm_compute; split; discriminate])) as [Hlo' _].
  unfold firstDay, lastDay. lia.
Qed.

(** [Parse] reads back what [Format] printed of a day of the years 0..9999. *)
Lemma Parse_Format_date (t : Time) :
  firstDay <= t <= lastDay -> Parse LayoutDate (Format LayoutDate t) = Some t.
Proof.
  intros Ht. destruct (civil_in_range t Ht) as (y & m & d & V & Hy & ->).
  rewrite Format_day by assumption. now apply Parse_dayLabel.
Qed.

(** ** Advancing a label *)

Lemma generateNextPeriod_month (w : World) (lastPeriod : string) (offset : Z) :
  generateNextPeriod w lastPeriod "month" offset =
  Format LayoutMonth
    (AddDate (match Parse LayoutMonth lastPeriod with
              | Some t => t
              | None =>
                  match Parse LayoutDate lastPeriod with
                  | Some t => t
                  | None => time_Now w
                  end
              end) 0 offset 0).
Proof. reflexivity. Qed.

Lemma AddDate_months (y m k : Z) :
  1 <= m <= 12 ->
  AddDate (daysFromCivil y m 1) 0 k 0
  = daysFromCivil (y + (m + k - 1) / 12) ((m + k - 1) mod 12 + 1) 1.
Proof.
  intros Hm. unfold AddDate.
  rewrite civilFromDays_daysFromCivil by (now apply validDate_first).
  unfold Date. cbv zeta.
  replace (y + 0) with y by lia. replace (1 + 0 - 1) with 0 by lia.
  rewrite Z.add_0_r. reflexivity.
Qed.

Lemma month_of_valid (n : Z) : 1 <= n mod 12 + 1 <= 12.
Proof. pose proof (Z.mod_pos_bound n 12 ltac:(lia)). lia. Qed.

(** Advancing by [a] days and then by [b] days is advancing by [a + b]
    days, as long as the label in between is of the years 0..9999. *)
Lemma advance_days_compose (w : World) (lastPeriod : string) (t : Time) (a b : Z) :
  Parse LayoutDate lastPeriod = Some t ->
  firstDay <= t + a <= lastDay ->
  generateNextPeriod w (generateNextPeriod w lastPeriod "day" a) "day" b
  = generateNextPeriod w lastPeriod "day" (a + b).
Proof.
  intros Hp Hr. rewrite !generateNextPeriod_day, Hp.
  rewrite (AddDate_days t a), (AddDate_days t (a + b)).
  rewrite Parse_Format_date by exact Hr. rewrite AddDate_days. f_equal. lia.
Qed.

Lemma advance_weeks_compose (w : World) (lastPeriod : string) (t : Time) (a b : Z) :
  Parse LayoutDate lastPeriod = Some t ->
  firstDay <= t + a * 7 <= lastDay ->
  generateNextPeriod w (generateNextPeriod w lastPeriod "week" a) "week" b
  = generateNextPeriod w lastPeriod "week" (a + b).
Proof.
  intros Hp Hr. rewrite !generateNextPeriod_week, Hp.
  rewrite (AddDate_days t (a * 7)), (AddDate_days t ((a + b) * 7)).
  rewrite Parse_Format_date by exact Hr. rewrite AddDate_days. f_equal. lia.
Qed.

Lemma advance_months_compose (w : World) (lastPeriod : string) (t : Time) (a b : Z) :
  Parse LayoutMonth lastPeriod = Some t ->
  firstDay <= AddDate t 0 a 0 <= lastDay ->
  generateNextPeriod w (generateNextPeriod w lastPeriod "month" a) "month" b
  = generateNextPeriod w lastPeriod "month" (a + b).
Proof.
  intros Hp Hr. rewrite !generateNextPeriod_month, Hp.
  destruct (Parse_month_inv _ _ Hp) as (y & m & Hm & Hy & _ & ->).
  rewrite AddDate_months in * by exact Hm.
  set (y' := y + (m + a - 1) / 12) in *. set (m' := (m + a - 1) mod 12 + 1) in *.
  assert (Hm' : 1 <= m' <= 12) by apply month_of_valid.
  assert (Hy' : 0 <= y' <= 9999).
  { destruct (civil_in_range _ Hr) as (y2 & m2 & d2 & V2 & Hy2 & E2).
    destruct (daysFromCivil_inj y' m' 1 y2 m2 d2 (validDate_first _ _ Hm') V2 E2)
      as (-> & _). exact Hy2. }
  rewrite Format_month by (try apply validDate_first; assumption).
  rewrite Parse_monthLabel by assumption.
  rewrite !AddDate_months by assumption.
  f_equal. subst y' m'. f_equal; Z.div_mod_to_equations; lia.
Qed.

(** ** The last-twelve-months filter *)

Lemma latest_fold_ge (data : list TimeSeriesPoint) :
  forall acc,
    acc <= fold_left latestStep data acc
    /\ forall p d, In p data -> parsePeriod (Period p) = Some d ->
                   d <= fold_left latestStep data acc.
Proof.
  induction data as [|q data IH]; intros acc; cbn [fold_left].
  - split; [lia | intros p d []].
  - destruct (IH (latestStep acc q)) as [H1 H2].
    assert (Hstep : acc <= latestStep acc q
                    /\ forall d, parsePeriod (Period q) = Some d -> d <= latestStep acc q).
    { unfold latestStep, After. destruct (parsePeriod (Period q)) as [d|].
      - destruct (Z.ltb_spec acc d); split; try lia; intros ? [= <-]; lia.
      - split; [lia | discriminate]. }
    destruct Hstep as [S1 S2]. split; [lia|].
    intros p d [<- | Hin] Hp.
    + specialize (S2 d Hp). lia.
    + now apply (H2 p d).
Qed.

Lemma latest_fold_in (data : list TimeSeriesPoint) :
  forall acc,
    fold_left latestStep data acc = acc
    \/ exists p, In p data /\ parsePeriod (Period p) = Some (fold_left latestStep data acc).
Proof.
  induction data as [|q data IH]; intros acc; cbn [fold_left]; [now left|].
  destruct (IH (latestStep acc q)) as [E | (p & Hin & Hp)].
  - rewrite E. unfold latestStep, After.
    destruct (parsePeriod (Period q)) as [d|] eqn:Hq; [|now left].
    destruct (Z.ltb_spec acc d); [|now left].
    right. exists q. split; [now left | exact Hq].
  - right. exists p. split; [now right | exact Hp].
Qed.

Lemma latestDateOf_fold (data : list TimeSeriesPoint) :
  latestDateOf data = fold_left latestStep data zeroTime.
Proof. reflexivity. Qed.

Lemma parsePeriod_in_range (s : string) (d : Time) :
  parsePeriod s = Some d -> firstDay <= d <= lastDay.
Proof.
  unfold parsePeriod. destruct (Parse LayoutDate s) eqn:E.
  - intros [= <-]. eapply Parse_in_range; eauto.
  - apply Parse_in_range.
Qed.

Lemma zeroTime_cutoff : AddDate zeroTime 0 (-12) 0 = firstDay.
Proof. reflexivity. Qed.

Lemma keptBy_spec (cutoffDate : Time) (point : TimeSeriesPoint) :
  keptBy cutoffDate point = true
  <-> exists d, parsePeriod (Period point) = Some d /\ cutoffDate <= d.
Proof.
  unfold keptBy, After, Equal. destruct (parsePeriod (Period point)) as [d|].
  - rewrite orb_true_iff, Z.ltb_lt, Z.eqb_eq. split.
    + intros H. exists d. split; [reflexivity | lia].
    + intros (d' & [= <-] & H). lia.
  - split; [discriminate | intros (d & H & _); discriminate].
Qed.

Lemma filterToLast12Months_filter (data : list TimeSeriesPoint) :
  filterToLast12Months data
  = filter (keptBy (AddDate (latestDateOf data) 0 (-12) 0)) data.
Proof. destruct data; reflexivity. Qed.

(** A point is kept exactly when its label is a date that is not before the
    cutoff; the cutoff is 365 or 366 days before the latest date. *)
Lemma filterToLast12Months_In (data : list TimeSeriesPoint) (p : TimeSeriesPoint) :
  In p (filterToLast12Months data)
  <-> In p data
      /\ exists d, parsePeriod (Period p) = Some d
                   /\ AddDate (latestDateOf data) 0 (-12) 0 <= d.
Proof.
  rewrite filterToLast12Months_filter, filter_In, keptBy_spec. reflexivity.
Qed.

(** Every point that is kept carries a date of the 366 days that end with
    the latest date of the series. *)
Lemma filterToLast12Months_window (data : list TimeSeriesPoint) (p : TimeSeriesPoint) :
  In p (filterToLast12Months data) ->
  exists d, parsePeriod (Period p) = Some d
            /\ latestDateOf data - 366 <= d <= latestDateOf data.
Proof.
  rewrite filterToLast12Months_In. intros (Hin & d & Hp & Hcut).
  exists d. split; [exact Hp|].
  pose proof (AddDate_year_back (latestDateOf data)) as Hback.
  destruct (latest_fold_ge data zeroTime) as [_ Hge]. specialize (Hge p d Hin Hp).
  rewrite latestDateOf_fold in *. lia.
Qed.

(** The points that carry the latest date are kept. *)
Lemma filterToLast12Months_keeps_latest (data : list TimeSeriesPoint)
    (p : TimeSeriesPoint) (d : Time) :
  In p data -> parsePeriod (Period p) = Some d ->
  (forall q d', In q data -> parsePeriod (Period q) = Some d' -> d' <= d) ->
  In p (filterToLast12Months data).
Proof.
  intros Hin Hp Hmax. rewrite filterToLast12Months_In. split; [exact Hin|].
  exists d. split; [exact Hp|].
  rewrite latestDateOf_fold.
  destruct (latest_fold_in data zeroTime) as [E | (q & Hq & Eq)].
  - rewrite E, zeroTime_cutoff. now apply parsePeriod_in_range in Hp.
  - specialize (Hmax q _ Hq Eq).
    pose proof (AddDate_year_back (fold_left latestStep data zeroTime)). lia.
Qed.

(** The result is empty exactly when no label of the series is a date. *)
Lemma filterToLast12Months_empty_iff (data : list TimeSeriesPoint) :
  filterToLast12Months data = []
  <-> forall p, In p data -> parsePeriod (Period p) = None.
Proof.
  split.
  - intros E p Hin. destruct (parsePeriod (Period p)) as [d|] eqn:Hp; [|reflexivity].
    exfalso.
    assert (exists q, In q (filterToLast12Months data)) as (q & Hq); [|now rewrite E in Hq].
    destruct (latest_fold_in data zeroTime) as [Ez | (q & Hq & Eq)].
    + exists p. rewrite filterToLast12Months_In. split; [exact Hin|].
      exists d. split; [exact Hp|].
      rewrite latestDateOf_fold, Ez, zeroTime_cutoff. now apply parsePeriod_in_range in Hp.
    + exists q. apply (filterToLast12Months_keeps_latest data q _ Hq Eq).
      intros q' d' Hq' Hd'. exact (proj2 (latest_fold_ge data zeroTime) q' d' Hq' Hd').
  - intros Hnone. destruct (filterToLast12Months data) as [|q rest] eqn:E; [reflexivity|].
    assert (Hq : In q (filterToLast12Months data)) by (rewrite E; now left).
    apply filterToLast12Months_In in Hq. destruct Hq as (Hin & d & Hd & _).
    rewrite (Hnone q Hin) in Hd. discriminate.
Qed.

Lemma latest_of_filtered (data : list TimeSeriesPoint) :
  latestDateOf (filterToLast12Months data) = latestDateOf data.
Proof.
  rewrite !latestDateOf_fold.
  destruct (latest_fold_ge (filterToLast12Months data) zeroTime) as [G1 G2].
  destruct (latest_fold_ge data zeroTime) as [D1 D2].
  apply Z.le_antisymm.
  - destruct (latest_fold_in (filterToLast12Months data) zeroTime) as [E | (p & Hp & Ep)].
    + rewrite E. exact D1.
    + apply filterToLast12Months_In in Hp. destruct Hp as [Hin _].
      exact (D2 p _ Hin Ep).
  - destruct (latest_fold_in data zeroTime) as [E | (p & Hp & Ep)].
    + rewrite E. exact G1.
    + apply (G2 p _); [|exact Ep].
      apply (filterToLast12Months_keeps_latest data p _ Hp Ep).
      intros q d' Hq Hd'. exact (D2 q d' Hq Hd').
Qed.

Lemma filter_idem {A : Type} (f : A -> bool) (l : list A) :
  filter f (filter f l) = filter f l.
Proof.
  induction l as [|x l IH]; [reflexivity|]. cbn [filter].
  destruct (f x) eqn:E; [|exact IH]. cbn [filter]. now rewrite E, IH.
Qed.

(** Filtering a second time changes nothing. *)
Lemma filterToLast12Months_idempotent (data : list TimeSeriesPoint) :
  filterToLast12Months (filterToLast12Months data) = filterToLast12Months data.
Proof.
  rewrite (filterToLast12Months_filter (filterToLast12Months data)), latest_of_filtered.
  rewrite (filterToLast12Months_filter data). apply filter_idem.
Qed.

(** ** The labels of the statistical forecast *)

Lemma step_periods (w : World) (lastPeriod timePeriod : string) (avgRecent trend : float)
    (i : nat) :
  Period (linearStep w lastPeriod timePeriod avgRecent trend i)
  = generateNextPeriod w lastPeriod timePeriod (Z.of_nat i + 1)
  /\ Period (trendStep w lastPeriod timePeriod avgRecent trend i)
     = generateNextPeriod w lastPeriod timePeriod (Z.of_nat i + 1).
Proof. split; reflexivity. Qed.

Lemma fallback_periods (w : World) (request : ForecastRequest.t) (timePeriod : string) :
  let series := filterToLast12Months (ForecastRequest.TimeSeriesData request) in
  (2 <= List.length series)%nat ->
  exists points,
    generateSimpleForecast w (createRequestForPeriod request timePeriod) = Done points
    /\ map Period points
       = map (fun i => generateNextPeriod w (Period (last series noPoint)) timePeriod
                         (Z.of_nat i + 1))
           (seq 0 (Z.to_nat (getForecastPeriods timePeriod))).
Proof.
  intros series Hlen.
  destruct (fallback_returns w request timePeriod) as (step & Hstep & E).
  fold series in Hstep, E.
  replace (List.length series <? 2)%nat with false in E
    by (symmetry; apply Nat.ltb_ge; exact Hlen).
  eexists. split; [exact E|].
  rewrite map_map. apply map_ext. intros i.
  destruct Hstep as [-> | ->]; reflexivity.
Qed.

(** ** The handler of the revision with the fallback *)


(** A series none of whose labels is a date has no statistical forecast,
    however long it is. *)
Theorem unreadable_labels_give_empty_forecast (w : World) (request : ForecastRequest.t)
    (timePeriod : string) :
  (forall p, In p (ForecastRequest.TimeSeriesData request) ->
             Parse LayoutDate (Period p) = None /\ Parse LayoutMonth (Period p) = None) ->
  generateSimpleForecast w (createRequestForPeriod request timePeriod) = Done [].
Proof.
  intros Hnone. apply generateSimpleForecast_short.
  cbn [createRequestForPeriod ForecastRequest.TimeSeriesData].
  replace (filterToLast12Months (ForecastRequest.TimeSeriesData request)) with (@nil TimeSeriesPoint);
    [cbn; lia|].
  symmetry. apply filterToLast12Months_empty_iff. intros p Hin.
  destruct (Hnone p Hin) as [H1 H2]. unfold parsePeriod. now rewrite H1, H2.
Qed.

Lemma unreadable_labels_give_empty_forecast_witness :
  generateSimpleForecast (Sample.offline EmptyString Sample.midJune)
    (createRequestForPeriod
       (Sample.request
          [Sample.point "2024-W01" 1; Sample.point "2024-W02" 2; Sample.point "2024-W03" 3]
          "week") "week") = Done [].
Proof.
  apply (unreadable_labels_give_empty_forecast (Sample.offline EmptyString Sample.midJune)
           (Sample.request
              [Sample.point "2024-W01" 1; Sample.point "2024-W02" 2; Sample.point "2024-W03" 3]
              "week") "week").
  intros p [<- | [<- | [<- | []]]]; split; reflexivity.
Defined.

(** ** The response parser at its edges *)

Lemma scanStart_bounds (s : string) (i j : nat) :
  scanStart s i = Some j -> (i <= j /\ S j < i + String.length s)%nat.
Proof.
  revert i. induction s as [|c rest IH]; intros i; [discriminate|].
  destruct rest as [|c' rest']; [discriminate|].
  cbn [scanStart]. destruct (Ascii.eqb c "[").
  - intros [= <-]. cbn [String.length]. lia.
  - intros H. apply IH in H. cbn [String.length] in *. lia.
Qed.

Lemma scanStart_none (s : string) (i : nat) :
  firstIndexOf "[" s = None -> scanStart s i = None.
Proof.
  revert i. induction s as [|c rest IH]; intros i; [reflexivity|].
  cbn [firstIndexOf]. destruct (Ascii.eqb c "[") eqn:Hc; [discriminate|].
  destruct (firstIndexOf "[" rest) eqn:Hr; [discriminate|]. intros _.
  destruct rest as [|c' rest']; [reflexivity|].
  cbn [scanStart]. rewrite Hc. now apply IH.
Qed.

Lemma scanEnd_bounds (content : string) (start i e : nat) :
  scanEnd content start i = Some e -> (S start < e /\ e <= S i)%nat.
Proof.
  induction i as [|i IH]; [discriminate|]. cbn [scanEnd].
  destruct (Nat.ltb_spec start (S i)); [|discriminate].
  destruct (String.get (S i) content) as [c|].
  - destruct (Ascii.eqb c "]").
    + intros [= <-]. lia.
    + intros H'. apply IH in H'. lia.
  - intros H'. apply IH in H'. lia.
Qed.

Lemma scanEnd_none (content : string) (start i : nat) :
  lastIndexOf "]" content = None -> scanEnd content start i = None.
Proof.
  intros Hnone. induction i as [|i IH]; [reflexivity|]. cbn [scanEnd].
  destruct (start <? S i)%nat; [|reflexivity].
  pose proof (lastIndexOf_none _ _ (S i) Hnone) as Hget.
  destruct (String.get (S i) content) as [c|]; [|exact IH].
  destruct (Ascii.eqb_spec c "]") as [-> | _]; [congruence | exact IH].
Qed.

Lemma substring_all (s : string) : substring 0 (String.length s) s = s.
Proof. induction s as [|c s IH]; [reflexivity|]. cbn. now rewrite IH. Qed.

Lemma payloadBounds_nonempty (content : string) :
  content <> EmptyString ->
  let '(start, end_) := payloadBounds content in
  (start < end_ /\ end_ <= String.length content)%nat.
Proof.
  intros Hne. unfold payloadBounds.
  assert (Hlen : (0 < String.length content)%nat).
  { destruct content; [congruence | cbn; lia]. }
  assert (Hstart : (match scanStart content 0 with Some i => i | None => O end
                    < String.length content)%nat).
  { destruct (scanStart content 0) as [j|] eqn:E; [|exact Hlen].
    apply scanStart_bounds in E. lia. }
  destruct (scanEnd content _ (String.length content - 1)) as [e|] eqn:E.
  - apply scanEnd_bounds in E. lia.
  - lia.
Qed.

(** A reply with no choice is an error.  Of the replies with a choice, only
    the empty text is rejected for lack of a JSON array: from any other text
    a part that is not empty is handed to the decoder, and a text without
    any bracket is handed over whole. *)
Theorem parser_rejects_only_the_empty_reply (w : World) (choice : Choice)
    (others : list Choice) :
  let content := Content (ChoiceMessage choice) in
  let decoded (jsonStr : string) :=
    match json_Unmarshal w jsonStr with
    | inl forecast => (forecast, content, None)
    | inr (errorString msg) =>
        ([], content, Some (errorString ("failed to parse single-period JSON: " ++ msg)))
    end in
  parseSinglePeriodChatGPTResponse w {| Choices := [] |}
  = ([], EmptyString, Some (errorString "no choices in ChatGPT response"))
  /\ (content = EmptyString ->
      parseSinglePeriodChatGPTResponse w {| Choices := choice :: others |}
      = ([], content, Some (errorString "could not find JSON array in response")))
  /\ (content <> EmptyString ->
      exists start n : nat,
        (0 < n)%nat /\ (start + n <= String.length content)%nat
        /\ parseSinglePeriodChatGPTResponse w {| Choices := choice :: others |}
           = decoded (substring start n content))
  /\ (content <> EmptyString ->
      firstIndexOf "[" content = None -> lastIndexOf "]" content = None ->
      parseSinglePeriodChatGPTResponse w {| Choices := choice :: others |}
      = decoded content).
Proof.
  intros content decoded. split; [reflexivity|]. split; [|split].
  - intros E. unfold parseSinglePeriodChatGPTResponse. cbn [Choices]. fold content.
    rewrite E. reflexivity.
  - intros Hne. pose proof (payloadBounds_nonempty content Hne) as Hb.
    unfold parseSinglePeriodChatGPTResponse. cbn [Choices]. fold content.
    destruct (payloadBounds content) as [start end_]. destruct Hb as [H1 H2].
    exists start, (end_ - start)%nat. split; [lia|]. split; [lia|].
    replace (end_ <=? start)%nat with false by (symmetry; apply Nat.leb_gt; lia).
    subst decoded. cbv beta.
    destruct (json_Unmarshal w (substring start (end_ - start) content)) as [f | [msg]];
      reflexivity.
  - intros Hne Hopen Hclose.
    unfold parseSinglePeriodChatGPTResponse. cbn [Choices]. fold content.
    unfold payloadBounds. rewrite (scanStart_none content 0 Hopen).
    rewrite (scanEnd_none content 0 _ Hclose).
    assert (Hlen : (0 < String.length content)%nat).
    { destruct content; [congruence | cbn; lia]. }
    replace (String.length content <=? 0)%nat with false
      by (symmetry; apply Nat.leb_gt; lia).
    rewrite Nat.sub_0_r, substring_all. subst decoded. cbv beta.
    destruct (json_Unmarshal w content) as [f | [msg]]; reflexivity.
Qed.

(** ** The two single-period revisions side by side *)

(** With a test request that succeeds, the revision with the fallback
    answers exactly as the revision without it, unless that one answers with
    status 500. *)
Theorem revisions_agree_unless_strict_fails (w : World) (body : option ForecastRequest.t) :
  testOpenAIAPI w (OPENAI_API_KEY w) = None ->
  ForecastStrict.GenerateSalesForecast w body <> JSONError 500 "Failed to generate forecast" ->
  GenerateSalesForecast w body = Done (ForecastStrict.GenerateSalesForecast w body).
Proof.
  intros Htest. destruct body as [request|]; [|reflexivity].
  unfold ForecastStrict.GenerateSalesForecast, GenerateSalesForecast.
  destruct (len (ForecastRequest.TimeSeriesData request) =? 0); [reflexivity|].
  cbv zeta.
  set (timePeriod := if (ForecastRequest.TimePeriod request =? EmptyString)%string
                     then "month" else ForecastRequest.TimePeriod request).
  unfold ForecastStrict.generateForecastForPeriod, generateForecastForPeriod. cbv zeta.
  destruct (OPENAI_API_KEY w =? EmptyString)%string eqn:K1;
    [intros H; exfalso; apply H; reflexivity|].
  cbn [orb].
  destruct (String.length (OPENAI_API_KEY w) <? 10)%nat eqn:K2;
    [intros H; exfalso; apply H; reflexivity|].
  destruct ((String.length (OPENAI_API_KEY w) <? 3)%nat
            || negb (Bytes.take 3 (OPENAI_API_KEY w) =? "sk-")%string) eqn:K3;
    [intros H; exfalso; apply H; reflexivity|].
  rewrite Htest.
  destruct (sendChatGPTRequest w (OPENAI_API_KEY w) _) as [resp | [msg]];
    [|intros H; exfalso; apply H; reflexivity].
  destruct (parseSinglePeriodChatGPTResponse w resp) as [[forecast raw] [[msg]|]];
    [intros H; exfalso; apply H; reflexivity|].
  reflexivity.
Qed.

Lemma revisions_agree_unless_strict_fails_witness :
  GenerateSalesForecast
    (Sample.answering Sample.content500 Sample.payload500 [Sample.point "2024-02" 500])
    (Some (Sample.request [Sample.point "2024-01" 1] "month"))
  = Done (ForecastStrict.GenerateSalesForecast
            (Sample.answering Sample.content500 Sample.payload500 [Sample.point "2024-02" 500])
            (Some (Sample.request [Sample.point "2024-01" 1] "month"))).
Proof.
  apply (revisions_agree_unless_strict_fails
           (Sample.answering Sample.content500 Sample.payload500 [Sample.point "2024-02" 500])
           (Some (Sample.request [Sample.point "2024-01" 1] "month"))).
  - reflexivity.
  - vm_compute. discriminate.
Defined.

(** ** Labels that follow the series *)

(** Advancing a day label by [a] days and the result by [b] days is
    advancing it by [a + b] days, as long as the label in between is of the
    years 0..9999; the same holds for weeks. *)
Theorem advancing_days_composes (w : World) (lastPeriod : string) (t : Time) (a b : Z) :
  Parse LayoutDate lastPeriod = Some t ->
  (firstDay <= t + a <= lastDay ->
   generateNextPeriod w (generateNextPeriod w lastPeriod "day" a) "day" b
   = generateNextPeriod w lastPeriod "day" (a + b))
  /\ (firstDay <= t + a * 7 <= lastDay ->
      generateNextPeriod w (generateNextPeriod w lastPeriod "week" a) "week" b
      = generateNextPeriod w lastPeriod "week" (a + b)).
Proof.
  intros Hp. split; intros Hr.
  - now apply (advance_days_compose w lastPeriod t).
  - now apply (advance_weeks_compose w lastPeriod t).
Qed.

Lemma advancing_days_composes_witness :
  generateNextPeriod (Sample.offline EmptyString Sample.midJune)
    (generateNextPeriod (Sample.offline EmptyString Sample.midJune) "2024-02-27" "day" 3)
    "day" 4
  = generateNextPeriod (Sample.offline EmptyString Sample.midJune) "2024-02-27" "day" (3 + 4).
Proof.
  apply (proj1 (advancing_days_composes (Sample.offline EmptyString Sample.midJune)
                  "2024-02-27" 19780 3 4 eq_refl)).
  vm_compute. split; discriminate.
Defined.

(** Advancing a month label by [a] months and the result by [b] months is
    advancing it by [a + b] months, as long as the label in between is of
    the years 0..9999. *)
Theorem advancing_months_composes (w : World) (lastPeriod : string) (t : Time) (a b : Z) :
  Parse LayoutMonth lastPeriod = Some t ->
  firstDay <= AddDate t 0 a 0 <= lastDay ->
  generateNextPeriod w (generateNextPeriod w lastPeriod "month" a) "month" b
  = generateNextPeriod w lastPeriod "month" (a + b).
Proof. apply advance_months_compose. Qed.

Lemma advancing_months_composes_witness :
  generateNextPeriod (Sample.offline EmptyString Sample.midJune)
    (generateNextPeriod (Sample.offline EmptyString Sample.midJune) "2024-11" "month" 3)
    "month" 11
  = generateNextPeriod (Sample.offline EmptyString Sample.midJune) "2024-11" "month" (3 + 11).
Proof.
  apply (advancing_months_composes (Sample.offline EmptyString Sample.midJune)
           "2024-11" 20028 3 11 eq_refl).
  vm_compute. split; discriminate.
Defined.

Lemma seq_from_one (A : Type) (f : nat -> A) (n : nat) :
  map (fun i => f (S i)) (seq 0 n) = map f (seq 1 n).
Proof. rewrite <- seq_shift, map_map. reflexivity. Qed.

(** For a series that ends with a date, the labels of the statistical
    forecast are dates again: the 14 days that follow the last day of the
    series, or the 4 days that follow it at steps of a week. *)
Theorem fallback_day_labels_follow_the_series (w : World) (request : ForecastRequest.t)
    (t : Time) :
  let series := filterToLast12Months (ForecastRequest.TimeSeriesData request) in
  (2 <= List.length series)%nat ->
  Parse LayoutDate (Period (last series noPoint)) = Some t ->
  t + 28 <= lastDay ->
  (exists points,
      generateSimpleForecast w (createRequestForPeriod request "day") = Done points
      /\ map (fun p => Parse LayoutDate (Period p)) points
         = map (fun i => Some (t + Z.of_nat i)) (seq 1 14))
  /\ (exists points,
         generateSimpleForecast w (createRequestForPeriod request "week") = Done points
         /\ map (fun p => Parse LayoutDate (Period p)) points
            = map (fun i => Some (t + 7 * Z.of_nat i)) (seq 1 4)).
Proof.
  intros series Hlen Hp Hr.
  pose proof (Parse_in_range _ _ _ Hp) as [Hlo _].
  split.
  - destruct (fallback_periods w request "day" Hlen) as (points & E & Hlabels).
    exists points. split; [exact E|].
    rewrite <- (map_map Period (Parse LayoutDate)), Hlabels, map_map.
    fold series. change (Z.to_nat (getForecastPeriods "day")) with 14%nat.
    rewrite <- (seq_from_one _ (fun i => Some (t + Z.of_nat i))).
    apply map_ext_in. intros i Hi. apply in_seq in Hi.
    rewrite generateNextPeriod_day, Hp, AddDate_days.
    rewrite Parse_Format_date by lia. f_equal. lia.
  - destruct (fallback_periods w request "week" Hlen) as (points & E & Hlabels).
    exists points. split; [exact E|].
    rewrite <- (map_map Period (Parse LayoutDate)), Hlabels, map_map.
    fold series. change (Z.to_nat (getForecastPeriods "week")) with 4%nat.
    rewrite <- (seq_from_one _ (fun i => Some (t + 7 * Z.of_nat i))).
    apply map_ext_in. intros i Hi. apply in_seq in Hi.
    rewrite generateNextPeriod_week, Hp, AddDate_days.
    rewrite Parse_Format_date by lia. f_equal. lia.
Qed.

Lemma fallback_day_labels_follow_the_series_witness :
  exists points,
    generateSimpleForecast (Sample.offline EmptyString Sample.midJune)
      (createRequestForPeriod
         (Sample.request [Sample.point "2024-02-26" 1; Sample.point "2024-02-27" 2] "day")
         "day") = Done points
    /\ map (fun p => Parse LayoutDate (Period p)) points
       = map (fun i => Some (19780 + Z.of_nat i)) (seq 1 14).
Proof.
  apply (proj1 (fallback_day_labels_follow_the_series
                  (Sample.offline EmptyString Sample.midJune)
                  (Sample.request [Sample.point "2024-02-26" 1; Sample.point "2024-02-27" 2]
                     "day")
                  19780 ltac:(vm_compute; lia) eq_refl ltac:(vm_compute; discriminate))).
Defined.

(** For a series that ends with the label of a month, the labels of the
    statistical forecast are the labels of the 6 months that follow it. *)
Theorem fallback_month_labels_follow_the_series (w : World) (request : ForecastRequest.t)
    (y m : Z) :
  let series := filterToLast12Months (ForecastRequest.TimeSeriesData request) in
  (2 <= List.length series)%nat ->
  1 <= m <= 12 -> y <= 9998 ->
  Parse LayoutMonth (Period (last series noPoint)) = Some (Date y m 1) ->
  exists points,
    generateSimpleForecast w (createRequestForPeriod request "month") = Done points
    /\ map (fun p => Parse LayoutMonth (Period p)) points
       = map (fun i => Some (Date y (m + Z.of_nat i) 1)) (seq 1 6).
Proof.
  intros series Hlen Hm Hy Hp.
  assert (Hy0 : 0 <= y).
  { destruct (Parse_month_inv _ _ Hp) as (y0 & m0 & Hm0 & Hy0 & _ & E).
    rewrite Date_in_year in E by exact Hm.
    destruct (daysFromCivil_inj y m 1 y0 m0 1
                (validDate_first _ _ Hm) (validDate_first _ _ Hm0) E) as (-> & _). lia. }
  destruct (fallback_periods w request "month" Hlen) as (points & E & Hlabels).
  exists points. split; [exact E|].
  rewrite <- (map_map Period (Parse LayoutMonth)), Hlabels, map_map.
  fold series. change (Z.to_nat (getForecastPeriods "month")) with 6%nat.
  rewrite <- (seq_from_one _ (fun i => Some (Date y (m + Z.of_nat i) 1))).
  apply map_ext_in. intros i Hi. apply in_seq in Hi.
  rewrite generateNextPeriod_month, Hp.
  rewrite (Date_in_year y m 1) by exact Hm.
  rewrite AddDate_months by exact Hm.
  set (k := Z.of_nat i + 1).
  assert (Hq : 0 <= (m + k - 1) / 12 <= 1) by (subst k; Z.div_mod_to_equations; lia).
  rewrite Format_month
    by (try apply validDate_first; try apply month_of_valid; lia).
  rewrite Parse_monthLabel by (try apply month_of_valid; lia).
  unfold Date. cbv zeta.
  replace (m + Z.of_nat (S i) - 1) with (m + k - 1) by (subst k; lia).
  now rewrite Z.sub_diag, Z.add_0_r.
Qed.

Lemma fallback_month_labels_follow_the_series_witness :
  exists points,
    generateSimpleForecast (Sample.offline EmptyString Sample.midJune)
      (createRequestForPeriod
         (Sample.request [Sample.point "2024-10" 1; Sample.point "2024-11" 2] "month")
         "month") = Done points
    /\ map (fun p => Parse LayoutMonth (Period p)) points
       = map (fun i => Some (Date 2024 (11 + Z.of_nat i) 1)) (seq 1 6).
Proof.
  apply (fallback_month_labels_follow_the_series
           (Sample.offline EmptyString Sample.midJune)
           (Sample.request [Sample.point "2024-10" 1; Sample.point "2024-11" 2] "month")
           2024 11 ltac:(vm_compute; lia) ltac:(lia) ltac:(lia) eq_refl).
Defined.

(** ** What the last-twelve-months filter keeps *)

(** Every point that the filter keeps is a point of the series whose label
    is a date of the 366 days that end with the latest date of the series;
    and every point that carries the latest date is kept. *)
Theorem filter_keeps_the_year_before_the_latest_date (data : list TimeSeriesPoint) :
  (forall p, In p (filterToLast12Months data) ->
     In p data
     /\ exists d, parsePeriod (Period p) = Some d
                  /\ latestDateOf data - 366 <= d <= latestDateOf data)
  /\ (forall p d,
        In p data -> parsePeriod (Period p) = Some d ->
        (forall q d', In q data -> parsePeriod (Period q) = Some d' -> d' <= d) ->
        In p (filterToLast12Months data)).
Proof.
  split.
  - intros p Hp. split.
    + now apply filterToLast12Months_In in Hp.
    + now apply filterToLast12Months_window.
  - apply filterToLast12Months_keeps_latest.
Qed.

(** The filter returns no point exactly when no label of the series is a
    date, in either of the two formats. *)
Theorem filter_result_is_empty_only_without_dates (data : list TimeSeriesPoint) :
  filterToLast12Months data = []
  <-> forall p, In p data ->
        Parse LayoutDate (Period p) = None /\ Parse LayoutMonth (Period p) = None.
Proof.
  rewrite filterToLast12Months_empty_iff. split; intros H p Hin; specialize (H p Hin).
  - unfold parsePeriod in H. destruct (Parse LayoutDate (Period p)); [discriminate|].
    now split.
  - unfold parsePeriod. destruct H as [-> ->]. reflexivity.
Qed.

(** Filtering twice is filtering once. *)
Theorem filter_is_idempotent (data : list TimeSeriesPoint) :
  filterToLast12Months (filterToLast12Months data) = filterToLast12Months data.
Proof. apply filterToLast12Months_idempotent. Qed.

(** ** The multi-period revision *)

Lemma multi_simple_returns (w : World) (drawn : nat) (request : ForecastRequest.t)
    (timePeriod : string) :
  exists points drawn',
    ForecastMulti.generateSimpleForecast w drawn (createRequestForPeriod request timePeriod)
    = Done (points, drawn')
    /\ ((2 <= List.length (ForecastRequest.TimeSeriesData request))%nat ->
        len points = getForecastPeriods timePeriod
        /\ map Period points
           = map (fun i =>
                    generateNextPeriod w
                      (Period (last (ForecastRequest.TimeSeriesData request) noPoint))
                      timePeriod (Z.of_nat i + 1))
               (seq 0 (Z.to_nat (getForecastPeriods timePeriod))))
    /\ ((List.length (ForecastRequest.TimeSeriesData request) < 2)%nat -> points = []).
Proof.
  assert (Hn : 0 <= getForecastPeriods timePeriod).
  { destruct (getForecastPeriods_cases timePeriod) as [H | [H | [H | H]]]; rewrite H; lia. }
  unfold ForecastMulti.generateSimpleForecast.
  cbn [createRequestForPeriod ForecastRequest.TimeSeriesData ForecastRequest.TimePeriod
         ForecastRequest.PeriodsToForecast].
  set (data := ForecastRequest.TimeSeriesData request).
  destruct (Nat.ltb_spec (List.length data) 2) as [Hshort | Hlong].
  - exists [], drawn. split; [reflexivity|]. split; [lia | reflexivity].
  - cbv zeta.
    match goal with
    | |- context [if ?c then _ else _] =>
        match type of c with
        | bool => destruct c
        end
    end;
      rewrite makeForecast_done by exact Hn; cbn [bindRun];
      eexists; eexists; (split; [reflexivity|]); (split; [|lia]); intros _;
      (split; [unfold len; rewrite length_map, length_seq; lia|]);
      rewrite map_map; reflexivity.
Qed.

Lemma multi_simpleForecasts_returns (w : World) (drawn : nat) (request : ForecastRequest.t) :
  exists forecasts drawn',
    ForecastMulti.simpleForecasts w drawn request = Done (forecasts, drawn')
    /\ ((2 <= List.length (ForecastRequest.TimeSeriesData request))%nat ->
        len (ForecastMulti.Daily forecasts) = 14
        /\ len (ForecastMulti.Weekly forecasts) = 4
        /\ len (ForecastMulti.Monthly forecasts) = 6)
    /\ ((List.length (ForecastRequest.TimeSeriesData request) < 2)%nat ->
        forecasts = {| ForecastMulti.Daily := []; ForecastMulti.Weekly := [];
                       ForecastMulti.Monthly := [] |}).
Proof.
  unfold ForecastMulti.simpleForecasts.
  destruct (multi_simple_returns w drawn request "day") as (d & n1 & -> & Hd & Hd0).
  cbn [bindRun snd fst].
  destruct (multi_simple_returns w n1 request "week") as (k & n2 & -> & Hk & Hk0).
  cbn [bindRun snd fst].
  destruct (multi_simple_returns w n2 request "month") as (m & n3 & -> & Hm & Hm0).
  cbn [bindRun snd fst].
  eexists. eexists. split; [reflexivity|]. cbn [ForecastMulti.Daily ForecastMulti.Weekly
                                                  ForecastMulti.Monthly]. split.
  - intros Hlen. destruct (Hd Hlen) as [-> _], (Hk Hlen) as [-> _], (Hm Hlen) as [-> _].
    repeat split.
  - intros Hlen. now rewrite (Hd0 Hlen), (Hk0 Hlen), (Hm0 Hlen).
Qed.

Lemma multi_simpleForecastsFor_returns (w : World) (request : ForecastRequest.t)
    (reason : string) :
  exists forecasts drawn,
    ForecastMulti.simpleForecasts w 0 request = Done (forecasts, drawn)
    /\ ForecastMulti.simpleForecastsFor w request reason
       = Done (Some forecasts, reason, None, drawn).
Proof.
  unfold ForecastMulti.simpleForecastsFor.
  destruct (multi_simpleForecasts_returns w 0 request) as (f & n & E & _).
  exists f, n. rewrite E. split; reflexivity.
Qed.

Lemma multi_orchestrator_total (w : World) (decode : ForecastMulti.Decoder)
    (request : ForecastRequest.t) :
  exists forecasts rawResponse drawn,
    ForecastMulti.generateMultiPeriodForecastWithChatGPT w decode request
    = Done (Some forecasts, rawResponse, None, drawn).
Proof.
  assert (Hfb : forall reason, exists forecasts rawResponse drawn,
             ForecastMulti.simpleForecastsFor w request reason
             = Done (Some forecasts, rawResponse, None, drawn)).
  { intros reason.
    destruct (multi_simpleForecastsFor_returns w request reason) as (f & n & _ & E).
    eauto. }
  unfold ForecastMulti.generateMultiPeriodForecastWithChatGPT. cbv zeta.
  repeat match goal with
         | |- context [ if ?c then _ else _ ] =>
             match type of c with bool => destruct c; [ apply Hfb | ] end
         end.
  destruct (testOpenAIAPI w (OPENAI_API_KEY w)); [ apply Hfb | ].
  match goal with
  | |- context [ sendChatGPTRequest w ?k ?r ] =>
      destruct (sendChatGPTRequest w k r) as [ response | e ]; [ | apply Hfb ]
  end.
  unfold ForecastMulti.parseMultiPeriodChatGPTResponse.
  destruct (Choices response) as [|choice others]; [apply Hfb|].
  destruct (ForecastMulti.payloadBounds _) as [start end_].
  destruct (end_ <=? start)%nat; [apply Hfb|].
  destruct (decode _) as [f | [msg]]; [eauto | apply Hfb].
Qed.




(** The statistical forecast of the single-period revision is the one of the
    multi-period revision for the filtered series. *)
Theorem single_fallback_is_multi_fallback_after_filter (w : World)
    (request : ForecastRequest.t) :
  generateSimpleForecast w request
  = (r <- ForecastMulti.generateSimpleForecast w 0
            {| ForecastRequest.TimeSeriesData :=
                 filterToLast12Months (ForecastRequest.TimeSeriesData request);
               ForecastRequest.TimePeriod := ForecastRequest.TimePeriod request;
               ForecastRequest.PeriodsToForecast :=
                 ForecastRequest.PeriodsToForecast request |} ;;
     Done (fst r)).
Proof.
  unfold generateSimpleForecast, ForecastMulti.generateSimpleForecast.
  cbn [ForecastRequest.TimeSeriesData ForecastRequest.TimePeriod
         ForecastRequest.PeriodsToForecast].
  destruct (List.length (filterToLast12Months (ForecastRequest.TimeSeriesData request)) <? 2)%nat;
    [reflexivity|].
  cbv zeta. unfold makeForecast.
  match goal with
  | |- (if ?c then _ else _) = _ => destruct c
  end;
    destruct (ForecastRequest.PeriodsToForecast request <? 0); reflexivity.
Qed.

Import Calendar GoTime Forecast Spec Check JS App BucketSpec Chart.

(** ** The combined chart *)

Lemma actual_periods_are_dates (h : Host) (data : SalesData) (p : TimePeriod)
    (actual : list SeriesPoint) :
  p <> month -> prepareTimeSeriesData h data p = Some actual ->
  Forall (fun a => parseDate (period a) <> None) actual.
Proof.
  intros Hp. unfold prepareTimeSeriesData, groupDataByPeriod.
  destruct (groupFrom h p data []) as [g|] eqn:Hg; [|discriminate].
  intros [= <-].
  destruct (groupFrom_spec h p data [] g Hg) as (_ & _ & Hfrom & _).
  apply (Permutation_Forall (sort_perm _ _)).
  apply Forall_forall. intros a Ha. apply in_map_iff in Ha.
  destruct Ha as [[k v] [<- Hkv]]. cbn.
  apply (in_map fst) in Hkv. cbn in Hkv.
  destruct (Hfrom k Hkv) as [ [] | [e [_ Hkey]] ].
  destruct (periodKeyOf_is_date h p _ k Hp Hkey) as [t [Hclip ->]].
  rewrite (parseDate_toISODate t Hclip). discriminate.
Qed.

Lemma combined_sorted (p : TimePeriod) (l : list ChartDataPoint.t) :
  (p <> month -> Forall (fun a => parseDate (ChartDataPoint.period a) <> None) l) ->
  StronglySorted
    (fun a b => keyNotAfter p (ChartDataPoint.period a) (ChartDataPoint.period b))
    (sort (compareChartPoints p) l).
Proof.
  intros HP. destruct (TimePeriod_eq_month p) as [-> | Hp].
  - apply (sort_sorted (compareChartPoints month) (fun _ => True)).
    + intros a b _ _. apply string_compare_total.
    + intros a b c _ _ _. apply string_compare_trans.
    + apply Forall_forall. trivial.
  - specialize (HP Hp).
    assert (Hcmp : compareChartPoints p
                   = fun a b => compareTimes (ChartDataPoint.period a) (ChartDataPoint.period b))
      by (destruct p; [reflexivity | reflexivity | contradiction]).
    apply (StronglySorted_weaken
             (fun a b => compareChartPoints p a b <> Gt) _
             (fun a => parseDate (ChartDataPoint.period a) <> None)).
    + intros a b Ha Hb. rewrite Hcmp. unfold keyNotAfter, compareTimes.
      destruct (parseDate (ChartDataPoint.period a)) as [ta|]; [|congruence].
      destruct (parseDate (ChartDataPoint.period b)) as [tb|]; [|congruence].
      rewrite Z.compare_gt_iff. intros Hle.
      destruct p; [ | | contradiction]; exists ta, tb; repeat split; lia.
    + now apply (Permutation_Forall (sort_perm _ _)).
    + apply (sort_sorted (compareChartPoints p)
               (fun a => parseDate (ChartDataPoint.period a) <> None)).
      * intros a b _ _. rewrite Hcmp. apply compareTimes_total.
      * intros a b c. rewrite Hcmp. apply compareTimes_trans.
      * exact HP.
Qed.

(** The combined chart holds the actual points and the points of the cached
    forecast, each once; without forecast it is the actual series as it is;
    and when the periods of the forecast are dates (for days and weeks) or
    strings of digits and hyphens (for months), it is sorted by period. *)
Theorem combined_chart_is_the_sorted_union (h : Host) (salesData : SalesData)
    (p : TimePeriod) (forecastCache : ForecastCache) :
  let forecast := shownForecast p forecastCache in
  match prepareCombinedChartData h salesData p forecastCache with
  | None => prepareTimeSeriesData h salesData p = None
  | Some out =>
      exists actual,
        prepareTimeSeriesData h salesData p = Some actual
        /\ Permutation (map ofActual actual ++ map ofForecast forecast) out
        /\ (forecast = [] -> out = map ofActual actual)
        /\ (Forall (fun f => placeable p (ForecastData.period f)) forecast ->
            StronglySorted
              (fun a b => keyNotAfter p (ChartDataPoint.period a) (ChartDataPoint.period b))
              out)
  end.
Proof.
  intros forecast. unfold prepareCombinedChartData.
  destruct (prepareTimeSeriesData h salesData p) as [actual|] eqn:Hactual; [|reflexivity].
  assert (Hsorted_actual :
            StronglySorted
              (fun a b => keyNotAfter p (ChartDataPoint.period a) (ChartDataPoint.period b))
              (map ofActual actual)).
  { unfold prepareTimeSeriesData in Hactual.
    destruct (groupDataByPeriod h salesData p) as [g|] eqn:Hg; [|discriminate].
    injection Hactual as <-.
    set (mk := fun e : string * float => {| period := fst e; total := roundToCents (snd e) |}).
    assert (E : map ofActual (sort (comparePoints p) (map mk g))
                = sort (compareChartPoints p) (map ofActual (map mk g))).
    { generalize (map mk g). intros l. induction l as [|x l IH]; [reflexivity|].
      cbn [sort fold_right map]. fold (sort (comparePoints p) l).
      fold (sort (compareChartPoints p) (map ofActual l)). rewrite <- IH.
      generalize (sort (comparePoints p) l). intros s.
      induction s as [|y s IHs]; [reflexivity|]. cbn [insertSorted map].
      replace (compareChartPoints p (ofActual x) (ofActual y)) with (comparePoints p x y)
        by (destruct p; reflexivity).
      destruct (comparePoints p x y); cbn [map]; try reflexivity. now rewrite IHs. }
    rewrite E. apply combined_sorted. intros Hp.
    assert (Hdates : Forall (fun a => parseDate (period a) <> None)
                       (sort (comparePoints p) (map mk g))).
    { apply (actual_periods_are_dates h salesData p); [exact Hp|].
      unfold prepareTimeSeriesData. now rewrite Hg. }
    apply (Permutation_Forall (Permutation_sym (sort_perm _ _))) in Hdates.
    rewrite Forall_map. exact Hdates. }
  unfold shownForecast in forecast.
  destruct (forecastCache p) as [forecastData|].
  - destruct (List.length
                match ForecastResponse.forecast forecastData with
                | Some f => f
                | None => []
                end =? 0)%nat eqn:Hlen.
    + exists actual. apply Nat.eqb_eq in Hlen. apply length_zero_iff_nil in Hlen.
      subst forecast. rewrite Hlen. cbn [map]. rewrite app_nil_r.
      repeat split; [reflexivity | intros _; exact Hsorted_actual].
    + exists actual. split; [reflexivity|]. split; [apply sort_perm|]. split.
      * intros E. subst forecast. rewrite E in Hlen. discriminate.
      * intros Hf. apply combined_sorted. intros Hp.
        apply Forall_app. split.
        -- rewrite Forall_map.
           apply (actual_periods_are_dates h salesData p actual Hp Hactual).
        -- rewrite Forall_map. revert Hf. apply Forall_impl. intros f Hplace.
           destruct p; [exact Hplace | exact Hplace | contradiction].
  - exists actual. subst forecast. cbn [map]. rewrite app_nil_r.
    repeat split; [reflexivity | intros _; exact Hsorted_actual].
Qed.

(** ** Labels of the service in the dashboard *)

Lemma toISODate_day (y m d : Z) :
  validDate y m d -> 0 <= y <= 9999 ->
  toISODate (daysFromCivil y m d * msPerDay) = dayLabel y m d.
Proof.
  intros V Hy. unfold toISODate. rewrite Day_of_midnight.
  rewrite civilFromDays_daysFromCivil by exact V.
  replace ((0 <=? y) && (y <=? 9999)) with true
    by (symmetry; apply andb_true_intro; split; apply Z.leb_le; lia).
  reflexivity.
Qed.

Lemma day_in_clip (t : Z) : firstDay <= t <= lastDay -> TimeClip (t * msPerDay) = Some (t * msPerDay).
Proof.
  intros Ht. unfold TimeClip.
  replace (8640000000000000 <? Z.abs (t * msPerDay)) with false; [reflexivity|].
  symmetry. apply Z.ltb_ge.
  assert (firstDay = -719528) by reflexivity. assert (lastDay = 2932896) by reflexivity.
  unfold msPerDay. lia.
Qed.

Lemma service_label_is_iso_date (t : Time) :
  firstDay <= t <= lastDay -> Format LayoutDate t = toISODate (t * msPerDay).
Proof.
  intros Ht. destruct (civil_in_range t Ht) as (y & m & d & V & Hy & ->).
  rewrite Format_day, toISODate_day by assumption. reflexivity.
Qed.

Lemma parseDate_service_label (t : Time) :
  firstDay <= t <= lastDay -> parseDate (Format LayoutDate t) = Some (t * msPerDay).
Proof.
  intros Ht. rewrite service_label_is_iso_date by exact Ht.
  rewrite parseDate_toISODate by (now apply day_in_clip).
  now rewrite Day_of_midnight.
Qed.

(** The dashboard reads a day label that the service printed (for a day of
    the years 0..9999) as the midnight of that day, keeps it as the key of
    its day bucket, and orders two such labels as their days. *)
Theorem dashboard_reads_the_day_labels_of_the_service (h : Host) (t1 t2 : Time) :
  firstDay <= t1 <= lastDay -> firstDay <= t2 <= lastDay ->
  parseDate (Format LayoutDate t1) = Some (t1 * msPerDay)
  /\ periodKeyOf h day (Format LayoutDate t1) = Some (Format LayoutDate t1)
  /\ compareTimes (Format LayoutDate t1) (Format LayoutDate t2) = Z.compare t1 t2.
Proof.
  intros H1 H2. split; [now apply parseDate_service_label|]. split.
  - unfold periodKeyOf. rewrite parseDate_service_label by exact H1.
    now rewrite service_label_is_iso_date by exact H1.
  - unfold compareTimes. rewrite !parseDate_service_label by assumption.
    unfold msPerDay.
    destruct (Z.compare_spec t1 t2) as [E | E | E];
      [apply Z.compare_eq_iff | apply Z.compare_lt_iff | apply Z.compare_gt_iff]; lia.
Qed.

Lemma dashboard_reads_the_day_labels_of_the_service_witness :
  parseDate (Format LayoutDate 19780) = Some (19780 * msPerDay)
  /\ periodKeyOf utc day (Format LayoutDate 19780) = Some (Format LayoutDate 19780)
  /\ compareTimes (Format LayoutDate 19780) (Format LayoutDate 19781) = Z.compare 19780 19781.
Proof.
  apply (dashboard_reads_the_day_labels_of_the_service utc 19780 19781);
    vm_compute; split; discriminate.
Defined.

(** ** Buckets and the time zone of the host *)

Lemma parseDate_midnight (s : string) (t : Z) :
  parseDate s = Some t -> t = Day t * msPerDay.
Proof.
  unfold parseDate.
  repeat match goal with
         | |- context [ match ?x with _ => _ end ] => destruct x; try discriminate
         end.
  intros H. apply TimeClip_Some in H. destruct H as [-> _].
  unfold MakeDate. rewrite Z.add_0_r. now rewrite Day_of_midnight.
Qed.

Lemma MakeDay_of_civil (D k : Z) :
  MakeDay (fst (fst (civilFromDays D))) (snd (fst (civilFromDays D)) - 1)
    (snd (civilFromDays D) - k) = D - k.
Proof.
  destruct (civil_of D) as (y & m & d & E & Hm & Hd & Hnum). rewrite E. cbn [fst snd].
  unfold MakeDay. rewrite Z.div_small, Z.mod_small by lia.
  replace (y + 0) with y by lia. replace (m - 1 + 1) with m by lia.
  rewrite (daysFromCivil_day y m d) in Hnum. lia.
Qed.

Section FixedOffset.
Variable h : Host.
Variable tz : Z.
Hypothesis offset : forall t isUTC, LocalTZA h t isUTC = tz.

Lemma LocalTime_fixed (t : Z) : LocalTime h t = t + tz.
Proof. unfold LocalTime. now rewrite offset. Qed.

Lemma setDate_fixed (D k : Z) :
  setDate h (D * msPerDay) (DateFromTime (D * msPerDay + tz) - k)
  = TimeClip ((Day (D * msPerDay + tz) - k) * msPerDay
              + TimeWithinDay (D * msPerDay + tz) - tz).
Proof.
  unfold setDate. cbv zeta. rewrite LocalTime_fixed.
  unfold YearFromTime, MonthFromTime, DateFromTime.
  rewrite MakeDay_of_civil. unfold UTC, MakeDate. rewrite offset. f_equal.
Qed.

End FixedOffset.

Lemma Day_shifted (D tz : Z) :
  - msPerDay <= tz < msPerDay ->
  Day (D * msPerDay + tz) = (if tz <? 0 then D - 1 else D)
  /\ TimeWithinDay (D * msPerDay + tz) = (if tz <? 0 then msPerDay + tz else tz).
Proof.
  unfold Day, TimeWithinDay, msPerDay. intros Htz.
  destruct (Z.ltb_spec tz 0); split; Z.div_mod_to_equations; lia.
Qed.

Lemma WeekDay_range (t : Z) : 0 <= WeekDay t <= 6.
Proof. unfold WeekDay. pose proof (Z.mod_pos_bound (Day t + 4) 7). lia. Qed.

Lemma week_key_fixed (h : Host) (tz D : Z) (s : string) :
  (forall t isUTC, LocalTZA h t isUTC = tz) ->
  - msPerDay <= tz < msPerDay ->
  parseDate s = Some (D * msPerDay) -> firstDay <= D <= lastDay ->
  let D' := if tz <? 0 then D - 1 else D in
  periodKeyOf h week s
  = Some (toISODate ((D - WeekDay (D' * msPerDay)) * msPerDay)).
Proof.
  intros Hoff Htz Hparse HD D'.
  unfold periodKeyOf. rewrite Hparse. rewrite (LocalTime_fixed h tz Hoff).
  rewrite (setDate_fixed h tz Hoff).
  destruct (Day_shifted D tz Htz) as [Eday Ewithin]. rewrite Ewithin.
  assert (Ewd : WeekDay (D * msPerDay + tz) = WeekDay (D' * msPerDay)).
  { unfold WeekDay. rewrite Eday, Day_of_midnight. reflexivity. }
  rewrite Ewd, Eday. fold D'.
  pose proof (WeekDay_range (D' * msPerDay)) as Hwd.
  set (wd := WeekDay (D' * msPerDay)) in *.
  assert (Etime : (D' - wd) * msPerDay + (if tz <? 0 then msPerDay + tz else tz) - tz
                  = (D - wd) * msPerDay).
  { subst D'. destruct (tz <? 0); lia. }
  rewrite Etime. unfold TimeClip.
  replace (8640000000000000 <? Z.abs ((D - wd) * msPerDay)) with false; [reflexivity|].
  symmetry. apply Z.ltb_ge.
  assert (firstDay = -719528) by reflexivity. assert (lastDay = 2932896) by reflexivity.
  unfold msPerDay. lia.
Qed.

(** In a host with a fixed offset from UTC, the key of the week bucket of a
    date (of the years 0..9999) is a day of the seven that end with the
    date: a Sunday when the host is at or east of UTC, a Monday when it is
    west of it. *)
Theorem week_buckets_start_on_sunday_or_monday (h : Host) (tz D : Z) (s : string) :
  (forall t isUTC, LocalTZA h t isUTC = tz) ->
  - msPerDay <= tz < msPerDay ->
  parseDate s = Some (D * msPerDay) -> firstDay <= D <= lastDay ->
  exists start,
    periodKeyOf h week s = Some (toISODate (start * msPerDay))
    /\ D - 6 <= start <= D
    /\ WeekDay (start * msPerDay) = if tz <? 0 then 1 else 0.
Proof.
  intros Hoff Htz Hparse HD.
  pose proof (week_key_fixed h tz D s Hoff Htz Hparse HD) as Hkey. cbv zeta in Hkey.
  eexists. split; [exact Hkey|].
  pose proof (WeekDay_range ((if tz <? 0 then D - 1 else D) * msPerDay)) as Hwd.
  split; [lia|].
  unfold WeekDay. rewrite !Day_of_midnight.
  destruct (tz <? 0); Z.div_mod_to_equations; lia.
Qed.

Lemma week_buckets_start_on_sunday_or_monday_witness :
  exists start,
    periodKeyOf (fixedOffset (-18000000)) week "2024-01-07"
    = Some (toISODate (start * msPerDay))
    /\ 19729 - 6 <= start <= 19729
    /\ WeekDay (start * msPerDay) = if -18000000 <? 0 then 1 else 0.
Proof.
  apply (week_buckets_start_on_sunday_or_monday (fixedOffset (-18000000)) (-18000000)
           19729 "2024-01-07").
  - reflexivity.
  - unfold msPerDay. lia.
  - reflexivity.
  - vm_compute. split; discriminate.
Defined.

(** In a host with a fixed offset from UTC, the month bucket of a date (of
    the years 0..9999) is the one of the UTC host for the same date when the
    host is at or east of UTC, and the one of the UTC host for the day
    before when it is west of it. *)
Theorem month_bucket_follows_the_local_date (h : Host) (tz D : Z) (s : string) :
  (forall t isUTC, LocalTZA h t isUTC = tz) ->
  - msPerDay <= tz < msPerDay ->
  parseDate s = Some (D * msPerDay) -> firstDay <= D <= lastDay ->
  periodKeyOf h month s
  = periodKeyOf utc month (toISODate ((if tz <? 0 then D - 1 else D) * msPerDay)).
Proof.
  intros Hoff Htz Hparse HD.
  set (D' := if tz <? 0 then D - 1 else D).
  assert (Hclip : TimeClip (D' * msPerDay) = Some (D' * msPerDay)).
  { unfold TimeClip.
    replace (8640000000000000 <? Z.abs (D' * msPerDay)) with false; [reflexivity|].
    symmetry. apply Z.ltb_ge.
    assert (firstDay = -719528) by reflexivity. assert (lastDay = 2932896) by reflexivity.
    subst D'. unfold msPerDay. destruct (tz <? 0); lia. }
  unfold periodKeyOf. rewrite Hparse, (parseDate_toISODate _ Hclip).
  rewrite (LocalTime_fixed h tz Hoff).
  unfold LocalTime, utc. cbn [LocalTZA]. rewrite Z.add_0_r.
  unfold YearFromTime, MonthFromTime.
  destruct (Day_shifted D tz Htz) as [-> _]. fold D'.
  now rewrite !Day_of_midnight.
Qed.

Lemma month_bucket_follows_the_local_date_witness :
  periodKeyOf (fixedOffset (-18000000)) month "2024-01-01"
  = periodKeyOf utc month
      (toISODate ((if -18000000 <? 0 then 19723 - 1 else 19723) * msPerDay)).
Proof.
  apply (month_bucket_follows_the_local_date (fixedOffset (-18000000)) (-18000000)
           19723 "2024-01-01").
  - reflexivity.
  - unfold msPerDay. lia.
  - reflexivity.
  - vm_compute. split; discriminate.
Defined.

Import Calendar GoTime Check Report ReportSpec.

(** ** The sample data of the report *)

Lemma Format_injective (d1 d2 : Time) :
  firstDay <= d1 <= lastDay -> firstDay <= d2 <= lastDay ->
  Format LayoutDate d1 = Format LayoutDate d2 -> d1 = d2.
Proof.
  intros H1 H2 E. apply (f_equal (Parse LayoutDate)) in E.
  rewrite !Parse_Format_date in E by assumption. congruence.
Qed.

Lemma mapGet_mapSet (key k : string) (v : list CategoryTotal) (m : SalesMap) :
  mapGet key (mapSet k v m) = if (k =? key)%string then v else mapGet key m.
Proof.
  induction m as [|[k0 v0] m IH]; cbn [mapSet mapGet].
  - destruct (k =? key)%string; reflexivity.
  - destruct (k0 =? k)%string eqn:E0; cbn [mapGet].
    + apply String.eqb_eq in E0. subst k0. destruct (k =? key)%string; reflexivity.
    + destruct (k0 =? key)%string eqn:E1; [|exact IH].
      apply String.eqb_eq in E1. subst k0. now rewrite String.eqb_sym, E0.
Qed.

Lemma mapSet_new (k : string) (v : list CategoryTotal) (m : SalesMap) :
  ~ In k (map fst m) -> mapSet k v m = (m ++ [(k, v)])%list.
Proof.
  induction m as [|[k0 v0] m IH]; intros Hnew; [reflexivity|].
  cbn [mapSet]. cbn [map fst In] in Hnew.
  destruct (k0 =? k)%string eqn:E; [apply String.eqb_eq in E; tauto|].
  cbn [app]. f_equal. apply IH. tauto.
Qed.

Lemma daysFrom_S (d : Time) (n : nat) : daysFrom d (S n) = d :: daysFrom (d + 1) n.
Proof.
  unfold daysFrom. cbn [seq map]. rewrite Z.add_0_r.
  apply (f_equal (cons d)).
  rewrite <- seq_shift, map_map. apply map_ext. intros i. lia.
Qed.

Lemma sampleLoop_spec (n : nat) :
  forall (fuel : nat) (d end_ : Time) (acc : SalesMap),
    Z.of_nat n = end_ - d + 1 -> (n <= fuel)%nat ->
    firstDay <= d -> end_ <= lastDay ->
    (forall k, In k (map fst acc) -> exists d', d' < d /\ firstDay <= d' /\ k = Format LayoutDate d') ->
    sampleLoop fuel d end_ acc
    = Some (acc ++ map (fun d' => (Format LayoutDate d', dayDataOf d')) (daysFrom d n))%list.
Proof.
  induction n as [|n IH]; intros fuel d end_ acc Hn Hfuel Hlo Hhi Hacc.
  - assert (HA : After d end_ = true) by (apply Z.ltb_lt; lia).
    destruct fuel; cbn [sampleLoop]; rewrite HA; cbn [daysFrom seq map];
      now rewrite app_nil_r.
  - destruct fuel as [|fuel]; [lia|]. cbn [sampleLoop].
    assert (HA : After d end_ = false) by (apply Z.ltb_ge; lia).
    rewrite HA, AddDate_days.
    rewrite mapSet_new.
    + rewrite (IH fuel (d + 1) end_); try lia.
      * rewrite daysFrom_S. cbn [map]. now rewrite <- app_assoc.
      * intros k Hk. rewrite map_app, in_app_iff in Hk. destruct Hk as [Hk | Hk].
        -- destruct (Hacc k Hk) as (d' & Hd' & Hlo' & ->). exists d'. repeat split; lia.
        -- cbn in Hk. destruct Hk as [<- | []]. exists d. repeat split; lia.
    + intros Hin. destruct (Hacc _ Hin) as (d' & Hd' & Hlo' & E).
      apply Format_injective in E; lia.
Qed.

Lemma sampleLoop_empty (fuel : nat) (d end_ : Time) (acc : SalesMap) :
  end_ < d -> sampleLoop fuel d end_ acc = Some acc.
Proof.
  intros H. assert (HA : After d end_ = true) by (apply Z.ltb_lt; lia).
  destruct fuel; cbn [sampleLoop]; now rewrite HA.
Qed.

Lemma generateSampleData_spec (fuel : nat) (startDate endDate : string) (start end_ : Time) :
  Parse LayoutDate startDate = Some start -> Parse LayoutDate endDate = Some end_ ->
  (passes start end_ <= fuel)%nat ->
  generateSampleData fuel startDate endDate
  = Some (map (fun d => (Format LayoutDate d, dayDataOf d))
            (daysFrom start (passes start end_))).
Proof.
  intros Hs He Hfuel. unfold generateSampleData. rewrite Hs, He.
  pose proof (Parse_in_range _ _ _ Hs) as [Hlo _].
  pose proof (Parse_in_range _ _ _ He) as [_ Hhi].
  destruct (Z_lt_ge_dec end_ start) as [Hempty | Hrange].
  - rewrite sampleLoop_empty by exact Hempty.
    unfold passes. replace (Z.to_nat (end_ - start + 1)) with 0%nat by lia. reflexivity.
  - rewrite (sampleLoop_spec (passes start end_)); unfold passes in *; try lia.
    + reflexivity.
    + intros k [].
Qed.

Lemma Day_valid (d : Time) : 1 <= Day d <= 31.
Proof.
  unfold Day. destruct (civil_of d) as (y & m & dd & E & Hm & Hd & _). rewrite E. cbn [snd].
  pose proof (daysIn_bounds m y). lia.
Qed.

Lemma dayDataFrom_by_day (d1 d2 : Time) :
  Day d1 = Day d2 ->
  forall n i acc, dayDataFrom d1 n i acc = dayDataFrom d2 n i acc.
Proof.
  intros E. induction n as [|n IH]; intros i acc; [reflexivity|].
  cbn [dayDataFrom]. unfold Hour. rewrite E. apply IH.
Qed.

Lemma dayDataOf_by_day (d1 d2 : Time) : Day d1 = Day d2 -> dayDataOf d1 = dayDataOf d2.
Proof.
  intros E. unfold dayDataOf. rewrite E. now apply dayDataFrom_by_day.
Qed.

Ltac solve_dayShape :=
  unfold dayShape; split; [reflexivity|]; split;
  [ vm_compute;
    repeat (constructor;
            [ let H := fresh in
              intros H; cbn in H;
              repeat (destruct H as [H | H]; [discriminate|]); exact H | ]);
    constructor
  | split;
    [ intros c Hc; vm_compute in Hc;
      repeat (destruct Hc as [<- | Hc];
              [ split; [vm_compute; tauto | reflexivity] | ]);
      destruct Hc
    | reflexivity ] ].

Lemma dayShape_january (day : Z) : 1 <= day <= 31 -> dayShape day (dayDataOf (day - 1)).
Proof.
  intros H.
  assert (Hcases :
            day = 1 \/ day = 2 \/ day = 3 \/ day = 4 \/ day = 5 \/ day = 6 \/ day = 7
            \/ day = 8 \/ day = 9 \/ day = 10 \/ day = 11 \/ day = 12 \/ day = 13
            \/ day = 14 \/ day = 15 \/ day = 16 \/ day = 17 \/ day = 18 \/ day = 19
            \/ day = 20 \/ day = 21 \/ day = 22 \/ day = 23 \/ day = 24 \/ day = 25
            \/ day = 26 \/ day = 27 \/ day = 28 \/ day = 29 \/ day = 30 \/ day = 31) by lia.
  repeat (destruct Hcases as [-> | Hcases]; [solve_dayShape|]).
  subst day. solve_dayShape.
Qed.

Lemma Day_of_january (day : Z) : 1 <= day <= 31 -> Day (day - 1) = day.
Proof.
  intros H. unfold Day.
  change (day - 1) with (day - 1).
  replace (day - 1) with (daysFromCivil 1970 1 day)
    by (rewrite (daysFromCivil_day 1970 1 day); change (daysFromCivil 1970 1 1) with 0; lia).
  rewrite civilFromDays_daysFromCivil; [reflexivity|].
  split; [lia | change (daysIn 1 1970) with 31; lia].
Qed.

Lemma dayDataOf_shape (d : Time) : dayShape (Day d) (dayDataOf d).
Proof.
  pose proof (Day_valid d) as Hd.
  rewrite (dayDataOf_by_day d (Day d - 1)) by (now rewrite Day_of_january).
  now apply dayShape_january.
Qed.

Lemma mapGet_In (k : string) (v : list CategoryTotal) (m : SalesMap) :
  NoDup (map fst m) -> In (k, v) m -> mapGet k m = v.
Proof.
  induction m as [|[k0 v0] m IH]; intros Hnd Hin; [destruct Hin|].
  cbn [map fst] in Hnd. inversion Hnd as [|? ? Hnotin Hnd']; subst.
  cbn [mapGet]. destruct Hin as [[= -> ->] | Hin].
  - now rewrite String.eqb_refl.
  - destruct (k0 =? k)%string eqn:E; [|now apply IH].
    apply String.eqb_eq in E. subst k0. exfalso. apply Hnotin.
    now apply (in_map fst) in Hin.
Qed.

Lemma in_daysFrom (d x : Time) (n : nat) :
  In x (daysFrom d n) <-> d <= x < d + Z.of_nat n.
Proof.
  unfold daysFrom. rewrite in_map_iff. split.
  - intros (i & <- & Hi). apply in_seq in Hi. lia.
  - intros H. exists (Z.to_nat (x - d)). split; [lia|]. apply in_seq. lia.
Qed.

Lemma NoDup_daysFrom (d : Time) (n : nat) : NoDup (daysFrom d n).
Proof.
  revert d. induction n as [|n IH]; intros d; [constructor|].
  rewrite daysFrom_S. constructor; [|apply IH].
  rewrite in_daysFrom. lia.
Qed.

(** For two dates that parse, and with as many passes as there are days from
    the first to the last, the sample data is made: it has one entry for
    each day of the range and no other, the entry of a day being the data of
    that day. *)
Theorem sample_data_has_every_day_of_the_range (fuel : nat) (startDate endDate : string)
    (start end_ : Time) :
  Parse LayoutDate startDate = Some start -> Parse LayoutDate endDate = Some end_ ->
  (Z.to_nat (end_ - start + 1) <= fuel)%nat ->
  exists sampleData,
    generateSampleData fuel startDate endDate = Some sampleData
    /\ Forecast.len sampleData = Z.max 0 (end_ - start + 1)
    /\ NoDup (map fst sampleData)
    /\ (forall d, start <= d <= end_ ->
          mapGet (Format LayoutDate d) sampleData = dayDataOf d)
    /\ (forall key, In key (map fst sampleData) ->
          exists d, start <= d <= end_ /\ key = Format LayoutDate d).
Proof.
  intros Hs He Hfuel.
  pose proof (Parse_in_range _ _ _ Hs) as [Hlo _].
  pose proof (Parse_in_range _ _ _ He) as [_ Hhi].
  rewrite (generateSampleData_spec fuel startDate endDate start end_ Hs He Hfuel).
  eexists. split; [reflexivity|].
  set (n := passes start end_). assert (Hn : Z.of_nat n = Z.max 0 (end_ - start + 1))
    by (subst n; unfold passes; lia).
  assert (Hnd : NoDup (map fst (map (fun d => (Format LayoutDate d, dayDataOf d))
                                  (daysFrom start n)))).
  { rewrite map_map. cbn [fst].
    assert (Hinj : forall l, NoDup l -> (forall x, In x l -> firstDay <= x <= lastDay) ->
                             NoDup (map (Format LayoutDate) l)).
    { induction l as [|x l IH]; intros Hl Hr; [constructor|].
      inversion Hl as [|? ? Hx Hl']; subst. cbn [map]. constructor.
      - intros Hin. apply in_map_iff in Hin. destruct Hin as (x' & E & Hx').
        apply Format_injective in E; [subst; contradiction | |];
          apply Hr; [now right | now left].
      - apply IH; [exact Hl'|]. intros y Hy. apply Hr. now right. }
    apply Hinj; [apply NoDup_daysFrom|].
    intros x Hx. apply in_daysFrom in Hx. lia. }
  split; [|split; [exact Hnd|split]].
  - unfold Forecast.len, daysFrom. now rewrite !length_map, length_seq.
  - intros d Hd. apply mapGet_In; [exact Hnd|].
    apply in_map_iff. exists d. split; [reflexivity|]. apply in_daysFrom. lia.
  - intros key Hkey. rewrite map_map in Hkey. cbn [fst] in Hkey.
    apply in_map_iff in Hkey. destruct Hkey as (d & <- & Hd).
    apply in_daysFrom in Hd. exists d. split; [lia | reflexivity].
Qed.

Lemma sample_data_has_every_day_of_the_range_witness :
  exists sampleData,
    generateSampleData 3 "2024-02-28" "2024-03-01" = Some sampleData
    /\ Forecast.len sampleData = Z.max 0 (19783 - 19781 + 1)
    /\ NoDup (map fst sampleData)
    /\ (forall d, 19781 <= d <= 19783 ->
          mapGet (Format LayoutDate d) sampleData = dayDataOf d)
    /\ (forall key, In key (map fst sampleData) ->
          exists d, 19781 <= d <= 19783 /\ key = Format LayoutDate d).
Proof.
  apply (sample_data_has_every_day_of_the_range 3 "2024-02-28" "2024-03-01" 19781 19783).
  - reflexivity.
  - reflexivity.
  - vm_compute. lia.
Defined.

(** The sample data of a day has 2, 3 or 4 entries, [2 + day mod 3] for the
    day of the month; their categories are of the five sample categories and
    differ from one another; the amount of entry [i] is
    [100 + 10 * day + 50 * i], hence 110 at least. *)
Theorem sample_day_has_distinct_categories_and_positive_amounts (d : Time) :
  let dayData := dayDataOf d in
  Forecast.len dayData = 2 + Day d mod 3
  /\ 2 <= Forecast.len dayData <= 4
  /\ NoDup (map CategoryName dayData)
  /\ (forall c, In c dayData ->
        In (CategoryName c) categories /\ (110 <=? TotalAmount c)%float = true)
  /\ map TotalAmount dayData
     = map (fun i => Forecast.float64 (100 + Day d * 10 + Z.of_nat i * 50))
         (seq 0 (List.length dayData)).
Proof.
  destruct (dayDataOf_shape d) as (Hlen & Hnd & Hin & Hamount).
  cbv zeta. split; [exact Hlen|]. split.
  - rewrite Hlen. pose proof (Z.mod_pos_bound (Day d) 3). lia.
  - split; [exact Hnd | split; [exact Hin | exact Hamount]].
Qed.

(** ** The report handler *)




Lemma six_months_back (y m : Z) :
  1 <= m <= 12 ->
  181 <= daysFromCivil y m 1
         - daysFromCivil (y + (m + -6 - 1) / 12) ((m + -6 - 1) mod 12 + 1) 1 <= 184.
Proof.
  intros Hm.
  assert (m = 1 \/ m = 2 \/ m = 3 \/ m = 4 \/ m = 5 \/ m = 6 \/ m = 7 \/ m = 8 \/ m = 9
          \/ m = 10 \/ m = 11 \/ m = 12) as Hcases by lia.
  repeat (destruct Hcases as [-> | Hcases]); try subst m.
  all: match goal with
       | |- context [daysFromCivil (?y + ?a / 12) (?b mod 12 + 1) 1] =>
           let a' := eval vm_compute in (a / 12) in
           let b' := eval vm_compute in (b mod 12 + 1) in
           change (a / 12) with a'; change (b mod 12 + 1) with b'
       end.
  all: unfold daysFromCivil; cbv zeta; split_bools; try lia; Z.div_mod_to_equations; lia.
Qed.

Lemma AddDate_half_year_back (t : Time) : t - 184 <= AddDate t 0 (-6) 0 <= t - 181.
Proof.
  destruct (civil_of t) as (y & m & d & E & Hm & Hd & Ht).
  unfold AddDate. rewrite E. unfold Date. cbv zeta.
  replace (y + 0 + (m + -6 - 1) / 12) with (y + (m + -6 - 1) / 12) by lia.
  pose proof (six_months_back y m Hm) as H.
  rewrite (daysFromCivil_day y m d) in Ht. lia.
Qed.



(** ** Grouping the rows of the query *)

Lemma scanAll_spec (w : World) (rows : list (Row + error)) :
  forall acc result,
    scanAll w rows acc = inl result ->
    map (@inl Row error) (scannedRows rows) = rows
    /\ Forall (fun row => dayOfRow row <> None) (scannedRows rows)
    /\ (forall key, mapGet key result = (mapGet key acc ++ entriesOf key (scannedRows rows))%list).
Proof.
  induction rows as [|[row|[msg]] rows IH]; intros acc result; cbn [scanAll].
  - intros [= <-]. cbn. repeat split; [constructor|]. intros key. now rewrite app_nil_r.
  - destruct (dayOfRow row) as [t|] eqn:Ht; [|discriminate].
    intros H. apply IH in H. destruct H as (Hall & Hdays & Hget).
    cbn [scannedRows map]. split; [now rewrite Hall|]. split.
    + constructor; [congruence | exact Hdays].
    + intros key. rewrite Hget, mapGet_mapSet. unfold entriesOf. cbn [filter]. rewrite Ht.
      destruct (Format LayoutDate t =? key)%string eqn:E.
      * apply String.eqb_eq in E. subst key. cbn [map]. now rewrite <- app_assoc.
      * reflexivity.
  - discriminate.
Qed.

Lemma scanAll_error (w : World) (rows : list (Row + error)) :
  forall acc e,
    scanAll w rows acc = inr e ->
    exists before rest,
      rows = (map inl before ++ rest)%list
      /\ match rest with
         | inr _ :: _ => True
         | inl row :: _ => dayOfRow row = None
         | [] => False
         end.
Proof.
  induction rows as [|[row|[msg]] rows IH]; intros acc e; cbn [scanAll].
  - discriminate.
  - destruct (dayOfRow row) as [t|] eqn:Ht.
    + intros H. apply IH in H. destruct H as (before & rest & -> & Hrest).
      exists (row :: before), rest. split; [reflexivity | exact Hrest].
    + intros _. exists [], (inl row :: rows). split; [reflexivity | exact Ht].
  - intros _. exists [], (inr (errorString msg) :: rows). split; [reflexivity | exact I].
Qed.

(** When the query succeeds, every row was scanned and carries a date, and
    the entry of a day holds the categories of the rows of that day, in the
    order of the rows, whether the date came as a timestamp or as a date;
    otherwise the query itself failed, or a row could not be scanned or has
    no date, or the iteration ended with an error: no partial result is
    returned. *)
Theorem query_groups_the_rows_by_day (w : World) (startDate endDate : string) :
  match querySalesData w startDate endDate with
  | inl result =>
      exists rows,
        db_Query w startDate endDate
        = inl {| scans := map inl rows; rows_Err := None |}
        /\ Forall (fun row => dayOfRow row <> None) rows
        /\ forall key, mapGet key result = entriesOf key rows
  | inr _ =>
      match db_Query w startDate endDate with
      | inr _ => True
      | inl rows =>
          rows_Err rows <> None
          \/ exists before rest,
               scans rows = (map inl before ++ rest)%list
               /\ match rest with
                  | inr _ :: _ => True
                  | inl row :: _ => dayOfRow row = None
                  | [] => False
                  end
      end
  end.
Proof.
  unfold querySalesData.
  destruct (db_Query w startDate endDate) as [[scans err]|[msg]]; [|exact I].
  cbn [Report.scans rows_Err].
  destruct (scanAll w scans []) as [result|e] eqn:Hscan.
  - destruct err as [[msg]|].
    + left. discriminate.
    + destruct (scanAll_spec w scans [] result Hscan) as (Hall & Hdays & Hget).
      exists (scannedRows scans). rewrite Hall. split; [reflexivity|].
      split; [exact Hdays|]. intros key. now rewrite Hget.
  - right. now apply (scanAll_error w scans [] e).
Qed.

(** ** Seeding *)

Import Seed SeedSpec.

Lemma append_empty_r (s : string) : s ++ EmptyString = s.
Proof. induction s as [|c s IH]; [reflexivity|]. cbn. now rewrite IH. Qed.

Lemma placeholders_S (i : Z) (n : nat) :
  placeholders i (S n) = ("$" ++ Bytes.itoa (i + 1)) :: placeholders (i + 1) n.
Proof.
  unfold placeholders. cbn [seq map]. rewrite Z.add_0_r.
  apply (f_equal (cons _)). rewrite <- seq_shift, map_map.
  apply map_ext. intros k. do 2 f_equal. lia.
Qed.

Lemma prepareFrom_spec (n : nat) :
  forall (i length : Z) (query : string),
    i + Z.of_nat n = length ->
    prepareFrom n i length query = query ++ String.concat "," (placeholders i n).
Proof.
  induction n as [|n IH]; intros i length query Hlen.
  - cbn. now rewrite append_empty_r.
  - cbn [prepareFrom]. rewrite placeholders_S.
    destruct (Z.eqb_spec i (length - 1)) as [Elast | Enot]; cbn [negb].
    + assert (n = 0%nat) by lia. subst n. reflexivity.
    + rewrite (IH (i + 1) length) by lia. destruct n as [|n]; [lia|].
      rewrite placeholders_S. cbn [String.concat].
      rewrite !string_app_assoc. reflexivity.
Qed.

(** [prepareInsertQuery] writes one placeholder for each column, numbered
    from 1, with commas between them and none at the end; for no column it
    writes nothing.  The statement of [execQuery] therefore names as many
    placeholders as columns. *)
Theorem insert_statement_has_a_placeholder_for_each_column (table : string)
    (columns : list string) :
  prepareInsertQuery columns
  = String.concat ","
      (map (fun k => "$" ++ Bytes.itoa (Z.of_nat k)) (seq 1 (List.length columns)))
  /\ insertStatement table columns
     = "INSERT INTO " ++ table ++ " (" ++ String.concat "," columns ++ ") VALUES ("
       ++ String.concat ","
            (map (fun k => "$" ++ Bytes.itoa (Z.of_nat k)) (seq 1 (List.length columns)))
       ++ ")".
Proof.
  assert (E : prepareInsertQuery columns
              = String.concat ","
                  (map (fun k => "$" ++ Bytes.itoa (Z.of_nat k))
                     (seq 1 (List.length columns)))).
  { unfold prepareInsertQuery.
    rewrite (prepareFrom_spec _ 0 (Forecast.len columns) EmptyString)
      by (unfold Forecast.len; lia).
    cbn [String.append]. f_equal. unfold placeholders.
    rewrite <- seq_shift, map_map. apply map_ext. intros k.
    now replace (0 + 1 + Z.of_nat k) with (Z.of_nat (S k)) by lia. }
  split; [exact E|]. unfold insertStatement, joinComma. now rewrite E.
Qed.

(** *** Which files are read *)

Lemma splitFrom_nonempty (s cur : string) : splitFrom s cur <> [].
Proof.
  revert cur. induction s as [|c s IH]; intros cur; cbn [splitFrom]; [discriminate|].
  destruct (Ascii.eqb c "."); [discriminate | apply IH].
Qed.

Lemma last_cons_nonempty {A : Type} (x d : A) (l : list A) :
  l <> [] -> last (x :: l) d = last l d.
Proof. destruct l; [congruence | reflexivity]. Qed.

Lemma last_splitFrom_json (s : string) :
  forall cur,
    last (splitFrom s cur) EmptyString = "json"
    -> cur ++ s = "json" \/ exists stem, s = stem ++ ".json".
Proof.
  induction s as [|c s IH]; intros cur; cbn [splitFrom].
  - cbn [last]. intros ->. now left.
  - destruct (Ascii.eqb c ".") eqn:Ec.
    + apply Ascii.eqb_eq in Ec. subst c.
      rewrite last_cons_nonempty by apply splitFrom_nonempty.
      intros H. apply IH in H. right. destruct H as [H | (stem & ->)].
      * exists EmptyString. cbn [String.append] in *. now rewrite H.
      * exists (String "." stem). reflexivity.
    + intros H. apply IH in H. destruct H as [H | (stem & ->)].
      * left. rewrite string_app_assoc in H. exact H.
      * right. exists (String c stem). reflexivity.
Qed.

Lemma last_splitFrom_suffix (stem rest : string) :
  forall cur,
    last (splitFrom (stem ++ String "." rest) cur) EmptyString
    = last (splitFrom rest EmptyString) EmptyString.
Proof.
  induction stem as [|c stem IH]; intros cur; cbn [String.append splitFrom].
  - cbn [Ascii.eqb Bool.eqb]. now rewrite last_cons_nonempty by apply splitFrom_nonempty.
  - destruct (Ascii.eqb c ".").
    + rewrite last_cons_nonempty by apply splitFrom_nonempty. apply IH.
    + apply IH.
Qed.

(** The loop of [seed] reads an entry of the directory exactly when it is no
    directory and its name is [json] or ends with [.json]. *)
Theorem seed_reads_the_json_files (name : string) (isDir : bool) :
  isRead name isDir = true
  <-> isDir = false /\ (name = "json" \/ exists stem, name = stem ++ ".json").
Proof.
  unfold isRead, Split. cbv zeta. rewrite negb_true_iff, orb_false_iff, negb_false_iff.
  rewrite String.eqb_eq. split; intros [Hdir H]; (split; [exact Hdir|]).
  - apply last_splitFrom_json in H. cbn [String.append] in H. exact H.
  - destruct H as [-> | (stem & ->)]; [reflexivity|].
    change (stem ++ ".json") with (stem ++ String "." "json").
    now rewrite last_splitFrom_suffix.
Qed.

(** *** Batches *)

Import SeedTotals.

Lemma execBatch_app (db : Database) (a b log : list SalesTotal) :
  execBatch db (a ++ b) log
  = match execBatch db a log with
    | (log', Some e) => (log', Some e)
    | (log', None) => execBatch db b log'
    end.
Proof.
  revert log. induction a as [|r a IH]; intros log; [reflexivity|].
  cbn [app execBatch]. destruct (stmt_Exec db log r) as [[msg]|]; [reflexivity|].
  apply IH.
Qed.

Lemma execBatch_prefix (db : Database) (batch : list SalesTotal) :
  forall log,
    exists n,
      (n <= List.length batch)%nat
      /\ fst (execBatch db batch log) = (log ++ firstn n batch)%list
      /\ (snd (execBatch db batch log) = None -> n = List.length batch)
      /\ ((forall l r, stmt_Exec db l r = None) -> snd (execBatch db batch log) = None).
Proof.
  induction batch as [|r batch IH]; intros log; cbn [execBatch].
  - exists 0%nat. cbn. rewrite app_nil_r. split; [lia|]. split; [reflexivity|].
    split; [reflexivity | reflexivity].
  - destruct (stmt_Exec db log r) as [[msg]|] eqn:E.
    + exists 1%nat. cbn [fst snd firstn List.length]. split; [lia|].
      split; [reflexivity|]. split; [discriminate|].
      intros Hok. rewrite Hok in E. discriminate.
    + destruct (IH (log ++ [r])%list) as (n & Hn & Hfst & Hsnd & Hok).
      exists (S n). cbn [firstn List.length]. rewrite Hfst, <- app_assoc.
      split; [lia|]. split; [reflexivity|]. split; [|exact Hok].
      intros H. specialize (Hsnd H). lia.
Qed.

Lemma batchLoop_spec (db : Database) (records : list SalesTotal) :
  forall (fuel i : nat) (log : list SalesTotal),
    (List.length records - i <= fuel)%nat ->
    batchLoop fuel db records i log = Some (execBatch db (skipn i records) log).
Proof.
  induction fuel as [|fuel IH]; intros i log Hfuel.
  - cbn [batchLoop].
    replace (i <? List.length records)%nat with false by (symmetry; apply Nat.ltb_ge; lia).
    rewrite skipn_all2 by lia. reflexivity.
  - cbn [batchLoop]. destruct (Nat.ltb_spec i (List.length records)) as [Hlt | Hge].
    + set (end_ := if (List.length records <? i + batchSize)%nat then List.length records
                   else (i + batchSize)%nat).
      assert (Hend : (i < end_ <= List.length records)%nat
                     /\ (end_ <= i + batchSize)%nat
                     /\ (end_ = List.length records \/ end_ = i + batchSize)%nat).
      { subst end_. unfold batchSize.
        destruct (Nat.ltb_spec (List.length records) (i + 100)); lia. }
      clearbody end_.
      assert (Hsplit : skipn i records
                       = (firstn (end_ - i) (skipn i records) ++ skipn end_ records)%list).
      { rewrite <- (firstn_skipn (end_ - i) (skipn i records)) at 1.
        rewrite skipn_skipn.
        assert (Eidx : (end_ - i + i = end_)%nat) by lia.
        now rewrite Eidx. }
      rewrite Hsplit at 2. rewrite execBatch_app.
      destruct (execBatch db (firstn (end_ - i) (skipn i records)) log) as [log' [e|]];
        [reflexivity|].
      rewrite IH by (unfold batchSize; lia).
      destruct Hend as (_ & Hle & [E | E]).
      * rewrite E in *. rewrite !skipn_all2 by lia. reflexivity.
      * now rewrite E.
    + rewrite skipn_all2 by lia. reflexivity.
Qed.


Import Calendar GoTime Forecast Spec Check JS App BucketSpec Chart.

(** ** Across the components *)


(** The dates that the dashboard prints (the date part of [toISOString]) are
    dates for the report service: for a time value of the years 0..9999 the
    service reads the string as the day of the time value, so the report is
    never refused with status 400 for them. *)
Theorem report_accepts_the_dates_of_the_dashboard (w : Report.World) (t1 t2 : Z) :
  firstDay <= Day t1 <= lastDay -> firstDay <= Day t2 <= lastDay ->
  Parse LayoutDate (toISODate t1) = Some (Day t1)
  /\ Parse LayoutDate (toISODate t2) = Some (Day t2)
  /\ forall status msg,
       ReportStrict.GetSalesReportByCategory w (toISODate t1) (toISODate t2)
       = Report.JSONError status msg -> status <> 400.
Proof.
  intros H1 H2.
  assert (Hiso : forall t, firstDay <= Day t <= lastDay ->
                           toISODate t = Format LayoutDate (Day t)).
  { intros t Ht. rewrite (service_label_is_iso_date (Day t) Ht).
    unfold toISODate. now rewrite Day_of_midnight. }
  assert (Hp : forall t, firstDay <= Day t <= lastDay ->
                         Parse LayoutDate (toISODate t) = Some (Day t)).
  { intros t Ht. rewrite (Hiso t Ht). now apply Parse_Format_date. }
  split; [now apply Hp|]. split; [now apply Hp|].
  intros status msg. unfold ReportStrict.GetSalesReportByCategory. cbv zeta.
  assert (Hne : forall t, firstDay <= Day t <= lastDay ->
                          (toISODate t =? EmptyString)%string = false).
  { intros t Ht. apply String.eqb_neq. intros E.
    pose proof (Hp t Ht) as Hparse. rewrite E in Hparse. discriminate. }
  unfold Report.startDateOf, Report.endDateOf. rewrite (Hne t1 H1), (Hne t2 H2).
  rewrite (Hp t1 H1), (Hp t2 H2).
  destruct (Report.GetDBConnection w); [intros [= <- _]; discriminate|].
  destruct (Report.querySalesData w _ _); [|intros [= <- _]; discriminate].
  destruct (Forecast.len _ =? 0); [intros [= <- _]; discriminate | discriminate].
Qed.

Lemma report_accepts_the_dates_of_the_dashboard_witness :
  Parse LayoutDate (toISODate 1704067200000) = Some (Day 1704067200000)
  /\ Parse LayoutDate (toISODate 1718409600000) = Some (Day 1718409600000)
  /\ forall status msg,
       ReportStrict.GetSalesReportByCategory (downWorld Sample.midJune)
         (toISODate 1704067200000) (toISODate 1718409600000)
       = Report.JSONError status msg -> status <> 400.
Proof.
  apply (report_accepts_the_dates_of_the_dashboard (downWorld Sample.midJune)
           1704067200000 1718409600000); vm_compute; split; discriminate.
Defined.

(** What [toISOString] prints of a valid date is read back by [new Date] as
    the midnight of its day, so the comparison function of the day and week
    series orders every pair of keys. *)
Theorem iso_date_is_read_back_as_its_day (t : Z) :
  TimeClip t = Some t ->
  parseDate (toISODate t) = Some (Day t * msPerDay)
  /\ forall u, TimeClip u = Some u ->
       compareTimes (toISODate t) (toISODate u) = Z.compare (Day t) (Day u).
Proof.
  intros Ht. split; [now apply parseDate_toISODate|].
  intros u Hu. unfold compareTimes.
  rewrite (parseDate_toISODate _ Ht), (parseDate_toISODate _ Hu).
  unfold msPerDay.
  destruct (Z.compare_spec (Day t) (Day u)) as [E | E | E];
    [apply Z.compare_eq_iff | apply Z.compare_lt_iff | apply Z.compare_gt_iff]; lia.
Qed.

Lemma iso_date_is_read_back_as_its_day_witness :
  parseDate (toISODate 1704067200000) = Some (Day 1704067200000 * msPerDay)
  /\ forall u, TimeClip u = Some u ->
       compareTimes (toISODate 1704067200000) (toISODate u)
       = Z.compare (Day 1704067200000) (Day u).
Proof. apply (iso_date_is_read_back_as_its_day 1704067200000). reflexivity. Defined.
